(** * qutility: the plugin's tools, embedded and checked against their specification

    The repository is a set of dialog controllers for a desktop GIS host.
    Each tool is embedded as it is written: Python values as Rocq data,
    dictionaries as [gmap], instance attributes as records threaded through
    the calls, exceptions as an [outcome] that is either a value or a raised
    message, and the calls into the host (geometry predicates, file system,
    processing algorithms, external converter) as operations of a host
    interface or as recorded answers of the host. *)

From Stdlib Require Import ZArith QArith Ascii String List Bool Lia.
From stdpp Require Import base option list functions gmap strings pretty sorting.

Local Open Scope string_scope.
Local Open Scope list_scope.
Local Open Scope Z_scope.

(** ** Python values and control flow *)

Module Py.

(** The result of evaluating Python code that may raise: a value, or the
    message [str(e)] of the exception. *)
Inductive outcome (A : Type) : Type :=
| Ret (a : A)
| Raise (e : string).
Arguments Ret {A} a.
Arguments Raise {A} e.

Definition bind {A B} (m : outcome A) (k : A -> outcome B) : outcome B :=
  match m with
  | Ret a => k a
  | Raise e => Raise e
  end.

(** [try: m  except Exception as e: h e] *)
Definition try_except {A} (m : outcome A) (h : string -> outcome A) : outcome A :=
  match m with
  | Ret a => Ret a
  | Raise e => h e
  end.

(** Truth value of a [str]: empty is false. *)
Definition str_bool (s : string) : bool :=
  match s with
  | EmptyString => false
  | String _ _ => true
  end.

Fixpoint str_drop (n : nat) (s : string) : string :=
  match n, s with
  | O, _ => s
  | S _, EmptyString => EmptyString
  | S k, String _ s' => str_drop k s'
  end.

Fixpoint str_take (n : nat) (s : string) : string :=
  match n, s with
  | O, _ => EmptyString
  | S _, EmptyString => EmptyString
  | S k, String c s' => String c (str_take k s')
  end.

Definition len (s : string) : Z := Z.of_nat (String.length s).

(** A slice bound as Python normalises it: a negative index counts from the
    end, and the result is clamped to [0, len]. *)
Definition slice_index (i : Z) (s : string) : nat :=
  Z.to_nat (if i <? 0 then Z.max 0 (len s + i) else Z.min i (len s)).

(** [s[i:]] *)
Definition slice_from (i : Z) (s : string) : string := str_drop (slice_index i s) s.

(** [s[:j]] *)
Definition slice_to (j : Z) (s : string) : string := str_take (slice_index j s) s.

(** [s.replace(old, new)] for a non-empty [old]: the occurrences are taken
    from left to right and do not overlap. [skip] counts the characters of
    a match that are still to be passed over. *)
Fixpoint replace_go (old new : string) (skip : nat) (s : string) : string :=
  match s with
  | EmptyString => EmptyString
  | String c s' =>
      match skip with
      | S k => replace_go old new k s'
      | O =>
          if String.prefix old s
          then new +:+ replace_go old new (String.length old - 1) s'
          else String c (replace_go old new 0 s')
      end
  end.

(** With an empty [old], Python inserts [new] before every character and at
    the end. *)
Fixpoint replace_empty (new : string) (s : string) : string :=
  match s with
  | EmptyString => new
  | String c s' => new +:+ String c (replace_empty new s')
  end.

Definition replace (s old new : string) : string :=
  if str_bool old then replace_go old new 0 s else replace_empty new s.

Definition lower_char (c : ascii) : ascii :=
  let n := nat_of_ascii c in
  if ((65 <=? n)%nat && (n <=? 90)%nat)%bool then ascii_of_nat (n + 32) else c.

(** [s.lower()] on the ASCII range. *)
Fixpoint lower (s : string) : string :=
  match s with
  | EmptyString => EmptyString
  | String c s' => String (lower_char c) (lower s')
  end.

Definition upper_char (c : ascii) : ascii :=
  let n := nat_of_ascii c in
  if ((97 <=? n)%nat && (n <=? 122)%nat)%bool then ascii_of_nat (n - 32) else c.

(** [s.upper()] on the ASCII range. *)
Fixpoint upper (s : string) : string :=
  match s with
  | EmptyString => EmptyString
  | String c s' => String (upper_char c) (upper s')
  end.

(** [needle in s] *)
Fixpoint str_in (needle s : string) : bool :=
  String.prefix needle s ||
  match s with
  | EmptyString => false
  | String _ s' => str_in needle s'
  end.

(** The backslash of a Python string literal. *)
Definition backslash : string := String (ascii_of_nat 92) EmptyString.

(** The double quote inside a Python string literal. *)
Definition dquote : string := String (ascii_of_nat 34) EmptyString.

(** The line feed of a Python string literal. *)
Definition nl : string := String (ascii_of_nat 10) EmptyString.

(** [sep.join(parts)] *)
Fixpoint join (sep : string) (parts : list string) : string :=
  match parts with
  | [] => ""
  | [p] => p
  | p :: rest => p +:+ sep +:+ join sep rest
  end.

(** Code that changes a state [S] and may raise: what was done before the
    exception stays done. *)
Definition M (S A : Type) : Type := S -> outcome A * S.

Definition m_ret {S A} (a : A) : M S A := fun s => (Ret a, s).

Definition m_bind {S A B} (m : M S A) (k : A -> M S B) : M S B :=
  fun s =>
    match m s with
    | (Ret a, s') => k a s'
    | (Raise e, s') => (Raise e, s')
    end.

Definition m_raise {S A} (e : string) : M S A := fun s => (Raise e, s).

(** A call whose result the host decides. *)
Definition m_lift {S A} (o : outcome A) : M S A := fun s => (o, s).

Definition m_modify {S} (f : S -> S) : M S unit := fun s => (Ret tt, f s).

Definition m_get {S} : M S S := fun s => (Ret s, s).

(** [try: m  except Exception as e: h e] *)
Definition m_try {S A} (m : M S A) (h : string -> M S A) : M S A :=
  fun s =>
    match m s with
    | (Ret a, s') => (Ret a, s')
    | (Raise e, s') => h e s'
    end.

(** [try: m  finally: f]: [f] runs in both cases; the outcome is that of
    [m] unless [f] raises. *)
Definition m_finally {S A} (m : M S A) (f : M S unit) : M S A :=
  fun s =>
    match m s with
    | (r, s') =>
        match f s' with
        | (Ret _, s'') => (r, s'')
        | (Raise e, s'') => (Raise e, s'')
        end
    end.

(** Every run of [m] takes a state to one related to it by [R]. *)
Definition steps {S A} (R : S -> S -> Prop) (m : M S A) : Prop :=
  forall s, R s (snd (m s)).

(** Run from states related by [R], [m] and [m'] end alike: with the same
    outcome and in states related by [R]. *)
Definition agree {S A} (R : S -> S -> Prop) (m m' : M S A) : Prop :=
  forall s s', R s s' -> fst (m s) = fst (m' s') /\ R (snd (m s)) (snd (m' s')).

(** [m] does not see what [R] leaves open. *)
Definition blind {S A} (R : S -> S -> Prop) (m : M S A) : Prop := agree R m m.

(** [for x in xs: body x], threading the local variables [acc]. *)
Fixpoint m_for {S A X} (xs : list X) (acc : A) (body : A -> X -> M S A) : M S A :=
  match xs with
  | [] => m_ret acc
  | x :: rest => m_bind (body acc x) (fun acc' => m_for rest acc' body)
  end.

End Py.

Import Py.

#[global] Instance outcome_ret : MRet outcome := fun A a => Ret a.
#[global] Instance outcome_bind : MBind outcome := fun A B k m => Py.bind m k.
#[global] Instance M_ret {S} : MRet (M S) := fun A a => m_ret a.
#[global] Instance M_bind {S} : MBind (M S) := fun A B k m => m_bind m k.

(** ** What the tools show *)

Module Ui.

Inductive icon := Information | Warning | Critical | Question.

(** A modal [QMessageBox]. *)
Record message_box := {
  box_icon : icon;
  box_title : string;
  box_text : string
}.

(** An entry of the host's message log. *)
Record log_entry := {
  log_level : nat;
  log_text : string
}.

(** A dialog of the warning or of the critical kind shows the message [e]
    of an exception. *)
Definition shows_error (e : string) (b : message_box) : bool :=
  match box_icon b with
  | Warning | Critical => str_in e (box_text b)
  | _ => false
  end.

Definition surfaced (e : string) (boxes : list message_box) : bool :=
  existsb (shows_error e) boxes.

End Ui.

Import Ui.

(** ** Layer renamer (layer_renamer.py) *)

Module LayerRenamer.

(** The values read from the dialog at the start of [rename_layers]. *)
Record params := {
  prefix : string;
  suffix : string;
  search_text : string;
  replace_text : string;
  remove_left : Z;
  remove_right : Z
}.

(** The body of the loop of [rename_layers] between reading the old name and
    the emptiness test. *)
Definition compute_new_name (p : params) (old_name : string) : string :=
  let new_name := old_name in
  let new_name :=
    if 0 <? remove_left p then
      if remove_left p <? len new_name
      then slice_from (remove_left p) new_name
      else ""
    else new_name in
  let new_name :=
    if (0 <? remove_right p) && str_bool new_name then
      if remove_right p <? len new_name
      then slice_to (- remove_right p) new_name
      else ""
    else new_name in
  let new_name :=
    if str_bool (search_text p) && str_bool new_name
    then replace new_name (search_text p) (replace_text p)
    else new_name in
  let new_name :=
    if str_bool (prefix p) then prefix p +:+ new_name else new_name in
  let new_name :=
    if str_bool (suffix p) then new_name +:+ suffix p else new_name in
  new_name.

(** A layer object held by the list widget: a live layer with its name, or
    a wrapper whose layer the host has deleted, on which every method call
    raises. *)
Inductive layer_obj :=
| Alive (name : string)
| Deleted.

Definition deleted_msg : string := "wrapped C/C++ object has been deleted".

(** [layer.name()] *)
Definition layer_name (pr : gmap nat layer_obj) (l : nat) : outcome string :=
  match pr !! l with
  | Some (Alive n) => Ret n
  | _ => Raise deleted_msg
  end.

(** [layer.setName(new_name)] *)
Definition layer_setName (pr : gmap nat layer_obj) (l : nat) (new_name : string)
  : outcome (gmap nat layer_obj) :=
  match pr !! l with
  | Some (Alive _) => Ret (<[l := Alive new_name]> pr)
  | _ => Raise deleted_msg
  end.

(** The wrapper [l] still has its layer. *)
Definition is_alive (pr : gmap nat layer_obj) (l : nat) : bool :=
  match pr !! l with
  | Some (Alive _) => true
  | _ => false
  end.

(** The state of the loop: the project's layers and the two report lists. *)
Record loop_state := {
  layers : gmap nat layer_obj;
  renamed_layers : list string;
  error_layers : list string
}.

(** One iteration of [for layer in selected_layers], with its
    [try ... except Exception as e]. The handler reads [layer.name()]
    again, so it can raise itself. *)
Definition rename_step (p : params) (st : loop_state) (l : nat) : outcome loop_state :=
  try_except
    (old_name ← layer_name (layers st) l;
     let new_name := compute_new_name p old_name in
     if negb (str_bool new_name) then
       Ret {| layers := layers st;
              renamed_layers := renamed_layers st;
              error_layers := error_layers st ++ [old_name +:+ " (nome risultante vuoto)"] |}
     else
       pr ← layer_setName (layers st) l new_name;
       Ret {| layers := pr;
              renamed_layers := renamed_layers st ++ [old_name +:+ " -> " +:+ new_name];
              error_layers := error_layers st |})
    (fun e =>
       n ← layer_name (layers st) l;
       Ret {| layers := layers st;
              renamed_layers := renamed_layers st;
              error_layers := error_layers st ++ [n +:+ " (" +:+ e +:+ ")"] |}).

(** [for layer in selected_layers: ...]; an iteration that raises leaves
    the lists and the layers as they were before it. *)
Fixpoint rename_loop (p : params) (selected : list nat) : M loop_state unit :=
  fun st =>
    match selected with
    | [] => (Ret tt, st)
    | l :: rest =>
        match rename_step p st l with
        | Ret st' => rename_loop p rest st'
        | Raise e => (Raise e, st)
        end
    end.

(** *** The run action *)

(** The tool during [rename_layers]: the layers the list widget holds,
    whether the controls are enabled, and the dialogs shown. *)
Record state := {
  project : gmap nat layer_obj;
  controls : bool;
  dialogs : list message_box
}.

(** The user's answers to the two questions of [rename_layers]. *)
Record run_answers := {
  proceed_without_replacement : bool;
  confirmed : bool
}.

Definition message_box_show (i : icon) (title text : string) : M state unit :=
  m_modify (fun s =>
    {| project := project s; controls := controls s;
       dialogs := dialogs s ++ [{| box_icon := i; box_title := title; box_text := text |}] |}).

Definition toggle_controls (enable : bool) : M state unit :=
  m_modify (fun s =>
    {| project := project s; controls := enable; dialogs := dialogs s |}).

Definition operations (p : params) : list string :=
  (if str_bool (prefix p)
   then ["Aggiungere il prefisso: '" +:+ prefix p +:+ "'"] else []) ++
  (if str_bool (suffix p)
   then ["Aggiungere il suffisso: '" +:+ suffix p +:+ "'"] else []) ++
  (if str_bool (search_text p)
   then ["Sostituire '" +:+ search_text p +:+ "' con '" +:+ replace_text p +:+ "'"]
   else []) ++
  (if 0 <? remove_left p
   then ["Rimuovere " +:+ pretty (remove_left p) +:+ " caratteri da sinistra"] else []) ++
  (if 0 <? remove_right p
   then ["Rimuovere " +:+ pretty (remove_right p) +:+ " caratteri da destra"] else []).

Definition result_message (st : loop_state) : string :=
  let result_message :=
    match renamed_layers st with
    | [] => ""
    | _ => "Rinomina completata per " +:+ pretty (length (renamed_layers st))
           +:+ " layer:" +:+ nl +:+ join nl (renamed_layers st)
    end in
  let result_message :=
    match error_layers st with
    | [] => result_message
    | _ => (if str_bool result_message then result_message +:+ nl +:+ nl
            else result_message)
           +:+ "Errori in " +:+ pretty (length (error_layers st))
           +:+ " layer:" +:+ nl +:+ join nl (error_layers st)
    end in
  if str_bool result_message then result_message else "Nessun layer rinominato.".

(** The loop of the action, run on the layers of the tool's state. *)
Definition rename_selected (p : params) (selected : list nat) : M state loop_state :=
  fun s =>
    match rename_loop p selected
            {| layers := project s; renamed_layers := []; error_layers := [] |} with
    | (r, st) =>
        (match r with Ret _ => Ret st | Raise e => Raise e end,
         {| project := layers st; controls := controls s; dialogs := dialogs s |})
    end.

(** [rename_layers()], from the values of the dialog's fields once the two
    counts are read as integers. The loop stands in no [try] of the action:
    what an iteration raises leaves the action at once. *)
Definition rename_layers (p : params) (ra : run_answers) (selected : list nat)
  : M state unit :=
  match selected with
  | [] => message_box_show Warning "Attenzione" "Seleziona almeno un layer"
  | _ :: _ =>
      if negb (str_bool (prefix p) || str_bool (suffix p) || str_bool (search_text p)
               || (0 <? remove_left p) || (0 <? remove_right p)) then
        message_box_show Warning "Attenzione" "Inserisci almeno un parametro di rinomina"
      else
        proceed ←
          (if str_bool (search_text p) && negb (str_bool (replace_text p)) then
             _ ← message_box_show Question "Conferma"
                   ("Hai inserito un testo da sostituire ma non un testo sostitutivo."
                    +:+ nl +:+ "Vuoi procedere eliminando il testo da sostituire?");
             mret (proceed_without_replacement ra)
           else mret true);
        if proceed : bool then
          _ ← message_box_show Question "Conferma"
                ("Applicare le seguenti operazioni ai " +:+ pretty (length selected)
                 +:+ " layer selezionati?" +:+ nl +:+ nl
                 +:+ join nl ((fun op => "- " +:+ op) <$> operations p));
          if confirmed ra then
            _ ← toggle_controls false;
            st ← rename_selected p selected;
            _ ← toggle_controls true;
            message_box_show Information "Completato" (result_message st)
          else mret tt
        else mret tt
  end.

(** *** The renaming rule as the specification words it *)

(** Remove [n] characters from the left; the empty string if the name is not
    longer than [n]. *)
Definition spec_remove_left (n : Z) (s : string) : string :=
  if len s <=? n then "" else str_drop (Z.to_nat n) s.

(** Remove [n] characters from the right, same emptying rule. *)
Definition spec_remove_right (n : Z) (s : string) : string :=
  if len s <=? n then "" else str_take (String.length s - Z.to_nat n) s.

(** Replace every occurrence of the search text; an empty search text has
    no occurrence. *)
Definition spec_replace_all (search repl s : string) : string :=
  if str_bool search then replace s search repl else s.

Definition spec_new_name (p : params) (old_name : string) : string :=
  (prefix p +:+
     spec_replace_all (search_text p) (replace_text p)
       (spec_remove_right (remove_right p)
          (spec_remove_left (remove_left p) old_name)))
  +:+ suffix p.

(** A run on one layer, used to exercise the rule. *)
Definition demo_params : params :=
  {| prefix := "new_"; suffix := ""; search_text := "road"; replace_text := "street";
     remove_left := 4; remove_right := 0 |}.

Definition demo_state : loop_state :=
  {| layers := {[ 0%nat := Alive "old_roads" ]}; renamed_layers := []; error_layers := [] |}.

Definition yes : run_answers :=
  {| proceed_without_replacement := true; confirmed := true |}.

Definition fresh_list : state :=
  {| project := {[ 0%nat := Alive "old_roads" ]}; controls := true; dialogs := [] |}.

(** The list widget holds a layer that has since been removed from the
    project, beside one that is still there. *)
Definition stale_list : state :=
  {| project := {[ 0%nat := Alive "old_roads"; 1%nat := Deleted ]};
     controls := true; dialogs := [] |}.

End LayerRenamer.

(** ** Feature excluder (feature_excluder.py): the analysis of [exclude_features] *)

Module FeatureExcluder.

(** What the host provides to the analysis: geometries with their
    predicates and constructions, attribute values with their string
    conversion, coordinate reference systems and the transformation between
    two of them. *)
Class Host := {
  Geometry : Type;
  Attr : Type;
  Crs : Type;
  (** [str(value)] of a non-NULL attribute value *)
  str : Attr -> string;
  (** [crs.authid()] *)
  authid : Crs -> string;
  (** [QgsCoordinateReferenceSystem("EPSG:32632")] *)
  metric_crs : Crs;
  (** truth value of a geometry object: it is not null *)
  geom_bool : Geometry -> bool;
  isEmpty : Geometry -> bool;
  (** the value of a geometry after [geom.transform(QgsCoordinateTransform(src, dst, project))] *)
  transform : Crs -> Crs -> Geometry -> Geometry;
  equals : Geometry -> Geometry -> bool;
  intersects : Geometry -> Geometry -> bool;
  contains : Geometry -> Geometry -> bool;
  (** [geom.buffer(distance, segments)] *)
  buffer : Geometry -> Q -> nat -> Geometry;
  distance : Geometry -> Geometry -> Q
}.

Section Analysis.
Context `{Host}.

(** Geometry objects live in a store: [geom.transform] changes an object in
    place, so two names of one object see the change. [next] is the first
    address not yet in use. *)
Record store := {
  cells : nat -> Geometry;
  next : nat
}.

(** [QgsGeometry(geom)]: a new object with the value of [geom]. *)
Definition copy_geometry (h : store) (geom : nat) : store * nat :=
  ({| cells := <[next h := cells h geom]> (cells h); next := S (next h) |}, next h).

(** [geom.transform(ct)] with [ct] the transformation from [src] to [dst]. *)
Definition transform_in_place (h : store) (geom : nat) (src dst : Crs) : store :=
  {| cells := <[geom := transform src dst (cells h geom)]> (cells h); next := next h |}.

(** A feature as a loop sees it: its id, its attributes by field name
    (a field without entry holds NULL) and its geometry object. *)
Record feature := {
  fid : Z;
  fattrs : gmap string Attr;
  fgeom : nat
}.

Record layer := {
  crs : Crs;
  features : list feature
}.

(** The widgets that [exclude_features] reads. *)
Record dialog := {
  efspat_enabled : bool;
  efspat_data : string;
  efcheckgeom : bool;
  eftoll : Q;
  efcase : bool;
  efbkp : bool;
  efjoindef : string;
  efjoinmatch : string
}.

Record config := {
  spatial_relation : string;
  source_field_name : string;
  match_field_name : string;
  case_sensitive : bool;
  check_geometry : bool;
  tolerance : Q
}.

Definition read_config (d : dialog) : config :=
  {| spatial_relation := if efspat_enabled d then efspat_data d else "equals";
     source_field_name := efjoindef d;
     match_field_name := efjoinmatch d;
     case_sensitive := efcase d;
     check_geometry := efcheckgeom d;
     tolerance := if efcheckgeom d then eftoll d else 0%Q |}.

(** The local variables of the analysis. *)
Record state := {
  heap : store;
  match_features : gmap string Z;
  match_geometries : gmap Z nat;
  spatial_index : list Z;
  features_to_delete : list Z;
  features_with_different_geom : list Z
}.

Definition initial_state (h : store) : state :=
  {| heap := h; match_features := ∅; match_geometries := ∅; spatial_index := [];
     features_to_delete := []; features_with_different_geom := [] |}.

Definition need_transform (c : config) (layer_crs : Crs) : bool :=
  check_geometry c && negb (String.eqb (authid layer_crs) "EPSG:32632").

(** The join value as a key: [str(value)], lowered unless the comparison is
    case sensitive. *)
Definition join_key (c : config) (v : Attr) : string :=
  let value := str v in
  if negb (case_sensitive c) then lower value else value.

(** [if geom and not geom.isEmpty()] *)
Definition usable (g : Geometry) : bool := geom_bool g && negb (isEmpty g).

(** The geometry of a layer in [layer_crs] as it enters the comparison:
    a transformed copy when the layer needs the transformation, the object
    itself otherwise. *)
Definition to_metric (need : bool) (layer_crs : Crs) (h : store) (geom : nat) : store * nat :=
  if need then
    let '(h1, geom1) := copy_geometry h geom in
    (transform_in_place h1 geom1 layer_crs metric_crs, geom1)
  else (h, geom).

(** One iteration of [for feature in match_layer.getFeatures()]. *)
Definition match_step (c : config) (match_crs : Crs) (st : state) (feature : feature) : state :=
  match fattrs feature !! match_field_name c with
  | None => st
  | Some match_value =>
      let match_value := join_key c match_value in
      let mf := <[match_value := fid feature]> (match_features st) in
      if check_geometry c && usable (cells (heap st) (fgeom feature)) then
        let '(h1, geom) :=
          to_metric (need_transform c match_crs) match_crs (heap st) (fgeom feature) in
        {| heap := h1;
           match_features := mf;
           match_geometries := <[fid feature := geom]> (match_geometries st);
           spatial_index :=
             if negb (need_transform c match_crs)
             then spatial_index st ++ [fid feature]
             else spatial_index st;
           features_to_delete := features_to_delete st;
           features_with_different_geom := features_with_different_geom st |}
      else
        {| heap := heap st;
           match_features := mf;
           match_geometries := match_geometries st;
           spatial_index := spatial_index st;
           features_to_delete := features_to_delete st;
           features_with_different_geom := features_with_different_geom st |}
  end.

(** The verdict on one pair of geometries. *)
Definition is_different (c : config) (source_geom match_geom : Geometry) : bool :=
  if Qle_bool (tolerance c) 0 then
    negb (equals source_geom match_geom)
  else if String.eqb (spatial_relation c) "intersects" then
    let source_buffer := buffer source_geom (tolerance c) 5 in
    let match_buffer := buffer match_geom (tolerance c) 5 in
    let source_intersects_match := intersects source_geom match_buffer in
    let match_intersects_source := intersects match_geom source_buffer in
    negb (source_intersects_match || match_intersects_source)
  else if String.eqb (spatial_relation c) "contains" then
    let source_buffer := buffer source_geom (tolerance c) 5 in
    negb (contains source_buffer match_geom)
  else
    negb (Qle_bool (distance source_geom match_geom) (tolerance c)).

(** What the source loop does with a source feature whose key is in the
    lookup with value [match_id]. *)
Definition compare_with (c : config) (source_crs : Crs) (st : state)
    (source_feature : feature) (match_id : Z) : state :=
  let to_delete := features_to_delete st ++ [fid source_feature] in
  let unchanged h :=
    {| heap := h;
       match_features := match_features st;
       match_geometries := match_geometries st;
       spatial_index := spatial_index st;
       features_to_delete := to_delete;
       features_with_different_geom := features_with_different_geom st |} in
  if check_geometry c && usable (cells (heap st) (fgeom source_feature)) then
    let '(h1, source_geom) :=
      to_metric (need_transform c source_crs) source_crs (heap st) (fgeom source_feature) in
    match match_geometries st !! match_id with
    | Some match_geom =>
        if geom_bool (cells h1 match_geom) &&
           is_different c (cells h1 source_geom) (cells h1 match_geom)
        then
          {| heap := h1;
             match_features := match_features st;
             match_geometries := match_geometries st;
             spatial_index := spatial_index st;
             features_to_delete := to_delete;
             features_with_different_geom :=
               features_with_different_geom st ++ [fid source_feature] |}
        else unchanged h1
    | None => unchanged h1
    end
  else unchanged (heap st).

(** One iteration of [for source_feature in source_layer.getFeatures()]. *)
Definition source_step (c : config) (source_crs : Crs) (st : state)
    (source_feature : feature) : state :=
  match fattrs source_feature !! source_field_name c with
  | None => st
  | Some source_value =>
      match match_features st !! join_key c source_value with
      | Some match_id => compare_with c source_crs st source_feature match_id
      | None => st
      end
  end.

(** The lookup and the geometries of the comparison layer. *)
Definition build_match (c : config) (match_layer : layer) (h : store) : state :=
  foldl (match_step c (crs match_layer)) (initial_state h) (features match_layer).

(** The two lists of the source layer, from the state the first loop left. *)
Definition scan_source (c : config) (source_layer : layer) (st : state) : state :=
  foldl (source_step c (crs source_layer)) st (features source_layer).

Definition analyse (d : dialog) (source_layer match_layer : layer) (h : store) : state :=
  let c := read_config d in
  scan_source c source_layer (build_match c match_layer h).

(** The value with which a geometry of a layer in [layer_crs] enters a
    comparison: transformed to EPSG:32632 unless the layer is already there. *)
Definition compared_value (layer_crs : Crs) (g : Geometry) : Geometry :=
  if String.eqb (authid layer_crs) "EPSG:32632" then g
  else transform layer_crs metric_crs g.

(** The geometry objects of the features of a layer exist in the store. *)
Definition wf_layer (h : store) (l : layer) : Prop :=
  Forall (fun f => (fgeom f < next h)%nat) (features l).

(** [h'] has every object of [h], with the value it has in [h]. *)
Definition extends (h h' : store) : Prop :=
  (next h <= next h')%nat /\ forall r, (r < next h)%nat -> cells h' r = cells h r.

(** The key under which a feature enters the lookup, if it enters. *)
Definition keyed (c : config) (field : string) (f : feature) : option string :=
  join_key c <$> fattrs f !! field.

(** The geometries kept for the comparison layer: each is an object of the
    store and holds the compared value of the geometry of a feature with
    that id, which has a join value and a usable geometry. *)
Definition geometries_ok (c : config) (match_crs : Crs) (h : store)
    (l : list feature) (st : state) : Prop :=
  forall id r, match_geometries st !! id = Some r ->
    (r < next (heap st))%nat /\
    exists g, g ∈ l /\ fid g = id /\
      is_Some (fattrs g !! match_field_name c) /\
      usable (cells h (fgeom g)) = true /\
      cells (heap st) r = compared_value match_crs (cells h (fgeom g)).

(** What an iteration of the source loop leaves alone: the lookup and the
    kept geometries stay, the store and the two lists only grow. *)
Definition source_frame (st st' : state) : Prop :=
  match_features st' = match_features st /\
  match_geometries st' = match_geometries st /\
  extends (heap st) (heap st') /\
  (exists l, features_to_delete st' = features_to_delete st ++ l) /\
  (exists l, features_with_different_geom st' = features_with_different_geom st ++ l).

End Analysis.

(** *** The run action *)

(** What the action shows and what it does to the source layer. *)
Record run_state := {
  controls : bool;
  dialogs : list message_box;
  (** [source_layer.isEditable()] *)
  editable : bool;
  (** the ids of the features removed from the source layer *)
  deleted : list Z
}.

Definition set_controls (b : bool) (s : run_state) : run_state :=
  {| controls := b; dialogs := dialogs s; editable := editable s; deleted := deleted s |}.

Definition add_dialog (b : message_box) (s : run_state) : run_state :=
  {| controls := controls s; dialogs := dialogs s ++ [b]; editable := editable s;
     deleted := deleted s |}.

Definition set_editable (b : bool) (s : run_state) : run_state :=
  {| controls := controls s; dialogs := dialogs s; editable := b; deleted := deleted s |}.

Definition add_deleted (l : list Z) (s : run_state) : run_state :=
  {| controls := controls s; dialogs := dialogs s; editable := editable s;
     deleted := deleted s ++ l |}.

Definition toggle_controls (enable : bool) : M run_state unit :=
  m_modify (set_controls enable).

Definition message_box_show (i : icon) (title text : string) : M run_state unit :=
  m_modify (add_dialog {| box_icon := i; box_title := title; box_text := text |}).

(** The answers of the user and of the host to one run of the action. *)
Record run_answers := {
  (** both combo boxes hold a layer *)
  layers_selected : bool;
  (** [source_layer.id() == match_layer.id()], and the answer Yes to the
      warning that follows *)
  same_layer : bool;
  proceed_same : bool;
  (** a call of the host raises during the analysis *)
  analysis_error : option string;
  (** a call of the host raises while the table of the selection dialog is
      filled *)
  table_error : option string;
  (** the selection dialog: accepted with the ids of the selected rows, or
      rejected *)
  selection : option (list Z);
  (** [create_layer_backup]: the path of the backup, if it was made *)
  backup_path : option string;
  (** the answer Yes to the question that follows a failed backup *)
  proceed_without_backup : bool;
  (** [deleteFeatures] and [commitChanges] *)
  deletion : outcome unit;
  source_name : string
}.

Section Action.
Context `{Host}.

(** The [try] body of [exclude_features]. *)
Definition exclude_features_try (d : dialog) (ra : run_answers)
    (source_layer match_layer : layer) (h : store) : M run_state unit :=
  st ← m_lift (match analysis_error ra with
               | Some e => Raise e
               | None => Ret (analyse d source_layer match_layer h)
               end);
  if (length (features_to_delete st) =? 0)%nat then
    _ ← message_box_show Information "Result"
          ("No matching records found." +:+ nl +:+ "Check the join fields and geometries.");
    toggle_controls true
  else
    _ ← m_lift (match table_error ra with Some e => Raise e | None => Ret tt end);
    match selection ra with
    | Some features_to_delete =>
        if (length features_to_delete =? 0)%nat then
          _ ← message_box_show Information "Operation cancelled"
                "No feature selected for deletion.";
          toggle_controls true
        else
          proceed ←
            (if efbkp d then
               match backup_path ra with
               | Some _ => mret true
               | None =>
                   _ ← message_box_show Question "Backup error"
                         ("Failed to create layer backup." +:+ nl +:+ "Proceed with deletion?");
                   if proceed_without_backup ra then mret true
                   else
                     _ ← toggle_controls true;
                     mret false
               end
             else mret true);
          if proceed : bool then
            s ← m_get;
            _ ← (if negb (editable s) then m_modify (set_editable true) else mret tt);
            _ ← m_lift (deletion ra);
            _ ← m_modify (fun s => set_editable false (add_deleted features_to_delete s));
            message_box_show Information "Operation completed"
              ("Deleted " +:+ pretty (length features_to_delete) +:+
               " features from layer " +:+ source_name ra +:+ ".")
          else mret tt
    | None => toggle_controls true
    end.

(** The handler of [exclude_features]. *)
Definition exclude_features_except (e : string) : M run_state unit :=
  _ ← message_box_show Critical "Error"
        ("An error occurred during the operation:" +:+ nl +:+ e);
  s ← m_get;
  if editable s then m_modify (set_editable false) else mret tt.

(** The [try] statement of [exclude_features] with its handler and its
    [finally] clause. *)
Definition exclude_features_guarded (d : dialog) (ra : run_answers)
    (source_layer match_layer : layer) (h : store) : M run_state unit :=
  m_finally
    (m_try (exclude_features_try d ra source_layer match_layer h)
           exclude_features_except)
    (toggle_controls true).

(** [exclude_features()] *)
Definition exclude_features (d : dialog) (ra : run_answers)
    (source_layer match_layer : layer) (h : store) : M run_state unit :=
  if negb (layers_selected ra) then
    message_box_show Warning "Warning" "Select both layers"
  else if negb (str_bool (efjoindef d)) || negb (str_bool (efjoinmatch d)) then
    message_box_show Warning "Warning" "Select join fields"
  else
    proceed ←
      (if same_layer ra then
         _ ← message_box_show Warning "Warning"
               "You have selected the same layer as both source and comparison.";
         mret (proceed_same ra)
       else mret true);
    if proceed : bool then
      _ ← toggle_controls false;
      exclude_features_guarded d ra source_layer match_layer h
    else mret tt.

End Action.

(** A host to run the analysis on: geometries are closed intervals of a
    line (none for a null geometry, empty when the bounds cross), a
    coordinate system is its name with the position of its origin, and an
    attribute value is a string. *)
Module LineHost.

Definition interval_shift (d : Q) (g : option (Q * Q)) : option (Q * Q) :=
  match g with
  | Some (lo, hi) => Some (Qred (lo + d), Qred (hi + d))%Q
  | None => None
  end.

Definition interval_empty (g : option (Q * Q)) : bool :=
  match g with
  | Some (lo, hi) => negb (Qle_bool lo hi)
  | None => true
  end.

Definition interval_intersects (a b : option (Q * Q)) : bool :=
  match a, b with
  | Some (alo, ahi), Some (blo, bhi) =>
      Qle_bool alo ahi && Qle_bool blo bhi && Qle_bool alo bhi && Qle_bool blo ahi
  | _, _ => false
  end.

Definition interval_contains (a b : option (Q * Q)) : bool :=
  match a, b with
  | Some (alo, ahi), Some (blo, bhi) =>
      Qle_bool blo bhi && Qle_bool alo blo && Qle_bool bhi ahi
  | _, _ => false
  end.

Definition interval_equals (a b : option (Q * Q)) : bool :=
  match a, b with
  | Some (alo, ahi), Some (blo, bhi) => Qeq_bool alo blo && Qeq_bool ahi bhi
  | _, _ => false
  end.

Definition interval_buffer (g : option (Q * Q)) (d : Q) (segments : nat) : option (Q * Q) :=
  match g with
  | Some (lo, hi) => Some (Qred (lo - d), Qred (hi + d))%Q
  | None => None
  end.

Definition interval_distance (a b : option (Q * Q)) : Q :=
  match a, b with
  | Some (alo, ahi), Some (blo, bhi) =>
      if Qle_bool ahi blo then Qred (blo - ahi)
      else if Qle_bool bhi alo then Qred (alo - bhi)
      else 0
  | _, _ => (-1)
  end%Q.

#[export] Instance line_host : Host := {|
  Geometry := option (Q * Q);
  Attr := string;
  Crs := string * Q;
  str := fun v => v;
  authid := fst;
  metric_crs := ("EPSG:32632", 0%Q);
  geom_bool := fun g => match g with Some _ => true | None => false end;
  isEmpty := interval_empty;
  transform := fun src dst g => interval_shift (snd src - snd dst)%Q g;
  equals := interval_equals;
  intersects := interval_intersects;
  contains := interval_contains;
  buffer := interval_buffer;
  distance := interval_distance
|}.

(** Two layers on that host. The comparison layer is in EPSG:4326, whose
    origin lies 100 to the left of the metric one; its first two features
    have the same join value up to case, its third has none. *)
Definition demo_store : store :=
  {| cells := fun r =>
       match r with
       | 0%nat => Some (0, 10)
       | 1%nat => Some (5, 6)
       | 2%nat => Some (-100, -90)
       | 3%nat => Some (200, 210)
       | _ => None
       end%Q;
     next := 4 |}.

Definition demo_match : layer :=
  {| crs := ("EPSG:4326", 100%Q);
     features :=
       [ {| fid := 1; fattrs := {[ "code" := "A" ]}; fgeom := 0 |};
         {| fid := 2; fattrs := {[ "code" := "a" ]}; fgeom := 1 |};
         {| fid := 3; fattrs := ∅; fgeom := 2 |} ] |}.

Definition demo_source : layer :=
  {| crs := ("EPSG:32632", 0%Q);
     features :=
       [ {| fid := 10; fattrs := {[ "id" := "A" ]}; fgeom := 3 |};
         {| fid := 11; fattrs := ∅; fgeom := 2 |} ] |}.

Definition demo_dialog : dialog :=
  {| efspat_enabled := true; efspat_data := "intersects"; efcheckgeom := true;
     eftoll := 1%Q; efcase := false; efbkp := false; efjoindef := "id";
     efjoinmatch := "code" |}.

(** A run in which a call of the host raises during the analysis. *)
Definition failing_analysis : run_answers :=
  {| layers_selected := true; same_layer := false; proceed_same := false;
     analysis_error := Some "Field 'id' not found"; table_error := None;
     selection := None; backup_path := None; proceed_without_backup := false;
     deletion := Ret tt; source_name := "roads" |}.

Definition idle : run_state :=
  {| controls := true; dialogs := []; editable := false; deleted := [] |}.

End LineHost.

End FeatureExcluder.

(** ** Batch converter (batch_converter.py) *)

Module BatchConverter.

(** The path functions of the platform. *)
Class Os := {
  (** [os.path.splitext(os.path.basename(path))[0]] *)
  path_stem : string -> string;
  (** [os.path.join(directory, name)] *)
  path_join : string -> string -> string;
  (** [os.path.dirname(path)] *)
  path_dirname : string -> string
}.

(** The widgets the conversion reads; text fields hold the stripped text. *)
Record dialog := {
  bctransformcrs : bool;
  bcoutputcrs_valid : bool;
  bcoutputcrs_srid : Z;
  bclayername : string;
  bcoutputformat : string;
  bcsinglefile : bool;
  gpkgNameLine : string;
  bcdestpath : string;
  bcdelimiter : string
}.

(** What the tool shows and writes while it runs. *)
Record state := {
  controls : bool;
  statuses : list (string * string);
  progress : list (nat * nat * string);
  dialogs : list message_box;
  log : list log_entry;
  printed : list string
}.

Definition set_controls (b : bool) (s : state) : state :=
  {| controls := b; statuses := statuses s; progress := progress s;
     dialogs := dialogs s; log := log s; printed := printed s |}.

Definition set_statuses (l : list (string * string)) (s : state) : state :=
  {| controls := controls s; statuses := l; progress := progress s;
     dialogs := dialogs s; log := log s; printed := printed s |}.

Definition add_progress (p : nat * nat * string) (s : state) : state :=
  {| controls := controls s; statuses := statuses s; progress := progress s ++ [p];
     dialogs := dialogs s; log := log s; printed := printed s |}.

Definition add_dialog (b : message_box) (s : state) : state :=
  {| controls := controls s; statuses := statuses s; progress := progress s;
     dialogs := dialogs s ++ [b]; log := log s; printed := printed s |}.

Definition add_log (e : log_entry) (s : state) : state :=
  {| controls := controls s; statuses := statuses s; progress := progress s;
     dialogs := dialogs s; log := log s ++ [e]; printed := printed s |}.

Definition add_logs (l : list log_entry) (s : state) : state :=
  {| controls := controls s; statuses := statuses s; progress := progress s;
     dialogs := dialogs s; log := log s ++ l; printed := printed s |}.

Definition add_printed (t : string) (s : state) : state :=
  {| controls := controls s; statuses := statuses s; progress := progress s;
     dialogs := dialogs s; log := log s; printed := printed s ++ [t] |}.

(** [QgsMessageLog.logMessage(text, "BatchConverter", level=level)] *)
Definition logMessage (text : string) (level : nat) : M state unit :=
  m_modify (add_log {| log_level := level; log_text := text |}).

Definition message_box_show (i : icon) (title text : string) : M state unit :=
  m_modify (add_dialog {| box_icon := i; box_title := title; box_text := text |}).

(** [toggle_controls(enable)], as far as the run button and its companions go. *)
Definition toggle_controls (enable : bool) : M state unit :=
  m_modify (set_controls enable).

(** [update_file_status(row, status, error_message)]: the item of column 4
    of that row, with its tooltip. *)
Definition status_tooltip (status error_message : string) : string :=
  if String.eqb status "Completato" then "Conversione completata con successo"
  else if String.eqb status "Errore" then
    "Si è verificato un errore durante la conversione" +:+
    (if str_bool error_message then ": " +:+ error_message else "")
  else if String.eqb status "In elaborazione" then "Conversione in corso..."
  else "In attesa di conversione".

Definition update_file_status (row : nat) (status error_message : string) : M state unit :=
  m_modify (fun s =>
    set_statuses (<[row := (status, status_tooltip status error_message)]> (statuses s)) s).

(** [progress_dialog.update_progress(completed, total, status)] *)
Definition update_progress (completed total : nat) (status : string) : M state unit :=
  m_modify (add_progress (completed, total, status)).

(** *** The external converter *)

(** One run of [ogr2ogr]: [Popen] and [communicate] give the return code
    and the stripped error text or raise; then the output file is looked
    for. *)
Record ogr_answer := {
  popen : outcome (Z * string);
  exists_after : bool
}.

Definition reprojection (d : dialog) : bool := bctransformcrs d && bcoutputcrs_valid d.

Definition t_srs (d : dialog) : list string :=
  if reprojection d then ["-t_srs"; "EPSG:" +:+ pretty (bcoutputcrs_srid d)] else [].

(** [_convert_to_mapinfo_with_ogr(input_file, output_file)] *)
Definition _convert_to_mapinfo_with_ogr (d : dialog) (a : ogr_answer)
    (input_file output_file : string) : M state bool :=
  m_try
    (let command :=
       ["ogr2ogr"; "-f"; "MapInfo File"] ++ ["-skipfailures"] ++ t_srs d
       ++ [output_file] ++ [input_file] in
     _ ← logMessage ("Tentativo di conversione con ogr2ogr: " +:+ join " " command) 0;
     r ← m_lift (popen a);
     let '(returncode, error_message) := r in
     if negb (returncode =? 0) then
       _ ← logMessage ("Errore ogr2ogr per MapInfo: " +:+ error_message) 2;
       mret false
     else mret (exists_after a))
    (fun e =>
       _ ← logMessage ("Errore nel fallback ogr2ogr per MapInfo: " +:+ e) 2;
       mret false).

(** [_convert_temp_geojson_to_mapinfo_with_ogr(temp_geojson, output_file)];
    [temp_exists] is the answer of its own look for the temporary file. *)
Definition _convert_temp_geojson_to_mapinfo_with_ogr (d : dialog) (temp_exists : bool)
    (a : ogr_answer) (temp_geojson output_file : string) : M state bool :=
  m_try
    (if negb temp_exists then
       _ ← logMessage ("File temporaneo GeoJSON non trovato: " +:+ temp_geojson) 2;
       mret false
     else
       let command :=
         ["ogr2ogr"; "-f"; "MapInfo File"; "-skipfailures"] ++ t_srs d
         ++ ["-lco"; "BOUNDS_CHECKER=OFF"] ++ [output_file] ++ [temp_geojson] in
       _ ← logMessage ("Ultimo tentativo di conversione con ogr2ogr: " +:+ join " " command) 0;
       r ← m_lift (popen a);
       let '(returncode, error_message) := r in
       if negb (returncode =? 0) then
         _ ← logMessage ("Errore ogr2ogr finale: " +:+ error_message) 2;
         mret false
       else
         let result := exists_after a in
         _ ← logMessage ("Risultato conversione ogr2ogr finale: " +:+
                          (if result then "True" else "False")) 0;
         mret result)
    (fun e =>
       _ ← logMessage ("Errore nel fallback finale per MapInfo: " +:+ e) 2;
       mret false).

(** *** The conversion to MapInfo *)

(** The answers of the host to the calls of [convert_to_mapinfo], one per
    call, in the order of the text. *)
Record mapinfo_answers := {
  ogr_direct : ogr_answer;
  (** [QgsVectorLayer(input_file, ...).isValid()] *)
  input_layer_valid : outcome bool;
  (** [_sanitize_for_tab]: validity and feature count of the memory layer *)
  sanitized : outcome (bool * Z);
  (** [writeAsVectorFormat]: the error code, with the message when the
      result is a tuple *)
  written : outcome (Z * option string);
  temp_exists_after_write : bool;
  (** [QgsVectorLayer(temp_geojson, ...).isValid()] *)
  temp_layer_valid : outcome bool;
  (** [processing.run] of the reprojection or of the save-features algorithm *)
  save_run : outcome unit;
  output_exists_after_save : bool;
  temp_exists_after_save : bool;
  (** [os.remove(temp_geojson)] after a successful save *)
  temp_removed : outcome unit;
  temp_exists_before_last : bool;
  temp_exists_in_last : bool;
  ogr_geojson : ogr_answer
}.

(** [QgsVectorFileWriter.NoError] *)
Definition NoError : Z := 0.

(** The second strategy from the moment the intermediate GeoJSON exists:
    [Some b] when it returns [b], [None] when control reaches the last
    strategy. *)
Definition save_from_geojson (d : dialog) (a : mapinfo_answers)
    (temp_geojson output_file : string) : M state (option bool) :=
  m_try
    (_ ← logMessage ("Tentativo di conversione da GeoJSON (" +:+ temp_geojson +:+
                     ") a MapInfo (" +:+ output_file +:+ ")") 0;
     valid ← m_lift (temp_layer_valid a);
     if negb valid then
       _ ← logMessage ("File GeoJSON temporaneo non valido: " +:+ temp_geojson) 2;
       mret (Some false)
     else
       _ ← (if reprojection d then
              _ ← logMessage "Aggiunta riproiezione nella conversione" 0;
              m_lift (save_run a)
            else m_lift (save_run a));
       if output_exists_after_save a then
         _ ← logMessage ("Conversione riuscita, file creato: " +:+ output_file) 0;
         _ ← (if temp_exists_after_save a then m_lift (temp_removed a) else mret tt);
         mret (Some true)
       else
         _ ← logMessage ("File di output non creato: " +:+ output_file) 2;
         mret None)
    (fun e =>
       _ ← logMessage ("Errore con algoritmo di processing: " +:+ e) 2;
       mret None).

(** The [try] statement of [convert_to_mapinfo]. *)
Definition convert_to_mapinfo_try (d : dialog) (a : mapinfo_answers)
    (input_file output_file temp_geojson : string) : M state bool :=
  m_try
    (_ ← logMessage ("Tentativo 1: conversione diretta da " +:+ input_file +:+
                     " a " +:+ output_file) 0;
     result ← _convert_to_mapinfo_with_ogr d (ogr_direct a) input_file output_file;
     if result : bool then
       _ ← logMessage "Conversione diretta con ogr2ogr riuscita" 0;
       mret true
     else
       _ ← logMessage "Tentativo 2: sanitizzazione e conversione in due passi" 0;
       valid ← m_lift (input_layer_valid a);
       if negb valid then
         _ ← logMessage ("Layer non valido: " +:+ input_file) 2;
         mret false
       else
         memory_layer ← m_lift (sanitized a);
         if negb (fst memory_layer) || (snd memory_layer =? 0) then
           _ ← logMessage "Layer memory non valido o vuoto dopo sanitizzazione" 2;
           mret false
         else
           _ ← logMessage ("Salvataggio layer memory in: " +:+ temp_geojson) 0;
           error ← m_lift (written a);
           if negb (fst error =? NoError) then
             _ ← logMessage
                   (match snd error with
                    | Some error_message =>
                        "Errore nel salvataggio del GeoJSON temporaneo: " +:+ error_message
                    | None =>
                        "Errore nel salvataggio del GeoJSON temporaneo (codice: " +:+
                        pretty (fst error) +:+ ")"
                    end) 2;
             mret false
           else if negb (temp_exists_after_write a) then
             _ ← logMessage ("File temporaneo non creato: " +:+ temp_geojson) 2;
             mret false
           else
             returned ← save_from_geojson d a temp_geojson output_file;
             match returned with
             | Some b => mret b
             | None =>
                 if temp_exists_before_last a then
                   _ ← logMessage
                         "Tentativo 3: conversione da GeoJSON a MapInfo con ogr2ogr" 0;
                   _convert_temp_geojson_to_mapinfo_with_ogr d (temp_exists_in_last a)
                     (ogr_geojson a) temp_geojson output_file
                 else mret false
             end)
    (fun e =>
       _ ← logMessage ("Errore durante la conversione a MapInfo: " +:+ e) 2;
       mret false).

(** [convert_to_mapinfo(input_file, output_file)]. Before its [try] the
    function normalises the two paths, creates the output directory, which
    the caller has checked to exist, and clears a temporary file left by an
    earlier run. *)
Definition convert_to_mapinfo `{Os} (d : dialog) (a : mapinfo_answers)
    (input_file output_file : string) : M state bool :=
  let input_file := replace input_file backslash "/" in
  let output_file := replace output_file backslash "/" in
  let output_dir := path_dirname output_file in
  let temp_geojson :=
    replace (path_join output_dir "temp_mapinfo_conversion.geojson") backslash "/" in
  convert_to_mapinfo_try d a input_file output_file temp_geojson.

(** *** One file *)

(** The answers of the host for a file converted on its own. *)
Record single_answers := {
  mapinfo : mapinfo_answers;
  (** [processing.run] of the reprojection or of the save-features algorithm *)
  run : outcome unit;
  output_exists : bool
}.

(** The answers of the host for a file added to the single GeoPackage. *)
Record package_answers := {
  (** [QgsVectorLayer(file_path, layer_name, "ogr").isValid()] *)
  layer_valid : bool;
  package_exists_before : bool;
  reprojected : outcome unit;
  (** saving the first layer, which creates the GeoPackage *)
  saved : outcome unit;
  (** saving a later layer to the temporary GeoJSON *)
  temp_saved : outcome unit;
  (** [ogr2ogr -append]: return code and stripped error text *)
  appended : outcome (Z * string);
  temp_deleted : outcome unit;
  (** saving the layer to a GeoPackage of its own after a failed append *)
  alternate_saved : outcome unit;
  temp_exists_after_failure : bool;
  temp_deleted_after_failure : outcome unit;
  package_exists_after : bool
}.

(** A row of the table with the answers of the host for its file. *)
Record table_row := {
  item_text : string;
  file_path : string;
  single : single_answers;
  package : package_answers
}.

Definition supported_delimiters : gmap string string :=
  {[ "Tabulazione (\t)" := String (ascii_of_nat 9) "";
     "Spazio ( )" := " ";
     "Punto e virgola (;)" := ";";
     "Virgola (,) [Default]" := "," ]}.

Definition supported_formats : gmap string string :=
  {[ "ESRI Shapefile" := ".shp"; "GeoJSON" := ".geojson"; "GeoPackage" := ".gpkg";
     "KML" := ".kml"; "GML" := ".gml"; "SQLite" := ".sqlite"; "CSV" := ".csv";
     "DXF" := ".dxf"; "FileGDB" := ".gdb" ]}.

Definition sep_map : gmap string string :=
  {[ "," := "COMMA"; ";" := "SEMICOLON"; String (ascii_of_nat 9) "" := "TAB";
     " " := "SPACE"; ":" := "COLON" ]}.

(** The characters that the pattern [[^a-zA-Z0-9_]] leaves in place. *)
Definition is_name_char (c : ascii) : bool :=
  let n := nat_of_ascii c in
  ((48 <=? n) && (n <=? 57) || (65 <=? n) && (n <=? 90) ||
   (97 <=? n) && (n <=? 122) || (n =? 95))%nat.

(** [re.sub(r'[^a-zA-Z0-9_]', '_', name)] *)
Fixpoint clean_name (name : string) : string :=
  match name with
  | EmptyString => EmptyString
  | String c rest => String (if is_name_char c then c else "_"%char) (clean_name rest)
  end.

Section Conversion.
Context `{Os}.

(** [_output_basename(input_path, seq)] *)
Definition _output_basename (d : dialog) (input_path : string) (seq : nat) : string :=
  let custom := bclayername d in
  if str_bool custom then
    if (seq =? 0)%nat then custom else custom +:+ "_" +:+ pretty seq
  else path_stem input_path.

(** [convert_single_file(input_file, output_file, output_format)] *)
Definition convert_single_file (d : dialog) (a : single_answers)
    (input_file output_file output_format : string) : M state bool :=
  m_try
    (if String.eqb output_format "MapInfo File" then
       convert_to_mapinfo d (mapinfo a) input_file output_file
     else
       _ ← (if reprojection d then m_lift (run a)
            else
              _ ← (if String.eqb (upper output_format) "CSV" then
                     let label := bcdelimiter d in
                     let char := default "," (supported_delimiters !! label) in
                     let sep := default "COMMA" (sep_map !! char) in
                     m_modify (add_printed ("Separator: " +:+ sep))
                   else mret tt);
              m_lift (run a));
       mret (output_exists a))
    (fun err_msg =>
       if String.eqb output_format "DXF" &&
          str_in "DXF layer does not support arbitrary field creation" err_msg
       then
         _ ← logMessage ("DXF: attributi ignorati come previsto per " +:+ input_file) 1;
         mret true
       else
         _ ← logMessage ("Errore nella conversione di " +:+ input_file +:+ ": " +:+ err_msg) 2;
         mret false).

(** The inner [try] of the single-GeoPackage branch up to the final look for
    the GeoPackage, whose answer it returns. *)
Definition add_to_package (d : dialog) (a : package_answers) (row : nat)
    (file_path layer_name clean_base_name dest_dir single_gpkg_path : string)
  : M state bool :=
  if negb (layer_valid a) then m_raise ("Layer non valido: " +:+ file_path)
  else
    let is_first_layer := (row =? 0)%nat || negb (package_exists_before a) in
    _ ← (if reprojection d then m_lift (reprojected a) else mret tt);
    _ ← (if is_first_layer then m_lift (saved a)
         else
           let temp_geojson :=
             replace (path_join dest_dir ("temp_" +:+ clean_base_name +:+ ".geojson"))
               backslash "/" in
           _ ← m_lift (temp_saved a);
           m_try
             (let command :=
                ["ogr2ogr"; "-append"; "-f"; "GPKG"] ++ ["-nln"; layer_name] ++ t_srs d
                ++ [single_gpkg_path] ++ [temp_geojson] in
              _ ← logMessage ("Esecuzione comando: " +:+ join " " command) 0;
              r ← m_lift (appended a);
              let '(returncode, error_message) := r in
              if negb (returncode =? 0) then
                _ ← logMessage ("Errore ogr2ogr: " +:+ error_message) 2;
                m_raise ("Errore ogr2ogr: " +:+ error_message)
              else m_lift (temp_deleted a))
             (fun e =>
                _ ← logMessage ("Errore nell'aggiunta del layer: " +:+ e) 2;
                let alternate_gpkg :=
                  replace (path_join dest_dir (clean_base_name +:+ ".gpkg")) backslash "/" in
                _ ← m_lift (alternate_saved a);
                _ ← logMessage ("Layer salvato come file separato: " +:+ alternate_gpkg) 1;
                _ ← (if temp_exists_after_failure a
                     then m_lift (temp_deleted_after_failure a) else mret tt);
                m_raise "Impossibile aggiungere il layer al GeoPackage"));
    mret (package_exists_after a).

(** One iteration of [for row in range(rowCount)]; [counts] holds
    [success_count] and [error_count]. *)
Definition convert_row (d : dialog) (use_single_geopackage : bool)
    (dest_dir single_gpkg_path : string) (file_count : nat)
    (counts : nat * nat) (item : nat * table_row) : M state (nat * nat) :=
  let '(success_count, error_count) := counts in
  let '(row, r) := item in
  _ ← update_progress (success_count + error_count) file_count
        ("Elaborazione di " +:+ item_text r +:+ nl +:+ nl +:+ "Non chiudere QGIS...");
  _ ← update_file_status row "In elaborazione" "";
  m_try
    (let clean_base_name := clean_name (_output_basename d (file_path r) row) in
     counts' ←
       (if use_single_geopackage then
          let layer_name := clean_base_name in
          m_try
            (created ← add_to_package d (package r) row (file_path r) layer_name
                         clean_base_name dest_dir single_gpkg_path;
             if created : bool then
               _ ← update_file_status row "Completato" "";
               mret (S success_count, error_count)
             else
               _ ← update_file_status row "Errore" "File non creato";
               mret (success_count, S error_count))
            (fun e =>
               _ ← logMessage ("Errore in processing: " +:+ e) 2;
               _ ← update_file_status row "Errore" e;
               mret (success_count, S error_count))
        else
          let file_extension :=
            default ".unknown" (supported_formats !! bcoutputformat d) in
          let output_file :=
            replace (path_join dest_dir (clean_base_name +:+ file_extension))
              backslash "/" in
          success ← convert_single_file d (single r) (file_path r) output_file
                      (bcoutputformat d);
          if success : bool then
            _ ← update_file_status row "Completato" "";
            mret (S success_count, error_count)
          else
            _ ← update_file_status row "Errore" "Conversione fallita";
            mret (success_count, S error_count));
     _ ← update_progress (fst counts' + snd counts') file_count "";
     mret counts')
    (fun error_message =>
       _ ← update_file_status row "Errore" error_message;
       _ ← logMessage ("Errore nella conversione di " +:+ file_path r +:+ ": " +:+
                        error_message) 2;
       _ ← update_progress (success_count + S error_count) file_count
             ("Errore: " +:+ error_message);
       mret (success_count, S error_count)).

(** The rows of the table with their numbers, from [start] on. *)
Fixpoint enumerate (start : nat) (table : list table_row) : list (nat * table_row) :=
  match table with
  | [] => []
  | r :: rest => (start, r) :: enumerate (S start) rest
  end.

Definition numbered (table : list table_row) : list (nat * table_row) :=
  enumerate 0 table.

(** The loop over the rows, from counts of zero. *)
Definition convert_rows (d : dialog) (use_single_geopackage : bool)
    (dest_dir single_gpkg_path : string) (table : list table_row) : M state (nat * nat) :=
  m_for (numbered table) (0, 0)%nat
    (convert_row d use_single_geopackage dest_dir single_gpkg_path (length table)).

(** The answers of the host to the calls of [start_conversion] outside the
    loop. *)
Record run_answers := {
  (** [os.path.isdir(dest_dir)] *)
  dest_isdir : bool;
  (** the answer to the confirmation: Yes *)
  confirmed : bool;
  (** [import processing] and [Processing.initialize()] *)
  initialized : outcome unit;
  package_exists : bool;
  (** the answer to the overwrite question: Yes *)
  overwrite : bool;
  package_removed : outcome unit
}.

Definition completion_message (use_single_geopackage : bool) (single_gpkg_path : string)
    (success_count error_count : nat) : string :=
  "Conversione completata." +:+ nl +:+ nl +:+
  "File convertiti con successo: " +:+ pretty success_count +:+ nl +:+
  "File con errori: " +:+ pretty error_count +:+
  (if use_single_geopackage && (0 <? success_count)%nat
   then nl +:+ nl +:+ "Tutti i layer sono stati salvati nel file:" +:+ nl +:+ single_gpkg_path
   else "").

Definition confirmation_message (d : dialog) (use_single_geopackage : bool)
    (file_count : nat) : string :=
  let output_format := bcoutputformat d in
  let custom_name := bclayername d in
  "Stai per convertire " +:+ pretty file_count +:+ " file in formato " +:+
  output_format +:+ "." +:+ nl +:+ nl +:+
  (if (1 <? file_count)%nat && str_bool custom_name
   then "Verranno creati i file:" +:+ nl +:+ "  " +:+ custom_name +:+ ", " +:+
        custom_name +:+ "_1, " +:+ custom_name +:+ "_2 …" +:+ nl +:+
        "Procedere?" +:+ nl +:+ nl
   else "") +:+
  "I file convertiti saranno salvati in: " +:+ bcdestpath d +:+ nl +:+ nl +:+
  (if String.eqb output_format "DXF"
   then "ATTENZIONE: il formato DXF non supporta campi attributo; " +:+
        "i valori dei campi saranno persi." +:+ nl +:+ nl
   else "") +:+
  (if String.eqb output_format "MapInfo File"
   then "ATTENZIONE: il formato TAB supporta solo campi interi, " +:+
        "real e testo. Gli altri campi saranno convertiti in stringa " +:+
        "o omessi." +:+ nl +:+ nl
   else "") +:+
  (if use_single_geopackage
   then "Tutti i layer saranno uniti in «" +:+
        (if str_bool (gpkgNameLine d) then gpkgNameLine d else "output") +:+
        ".gpkg»." +:+ nl
   else "") +:+
  nl +:+ "Vuoi procedere con la conversione?".

(** The [try] body of [start_conversion]. *)
Definition start_conversion_try (d : dialog) (ra : run_answers)
    (use_single_geopackage : bool) (table : list table_row) : M state unit :=
  let dest_dir := bcdestpath d in
  _ ← m_lift (initialized ra);
  let pkg_base := if str_bool (gpkgNameLine d) then gpkgNameLine d else "output" in
  let single_gpkg_path :=
    replace (path_join dest_dir (pkg_base +:+ ".gpkg")) backslash "/" in
  proceed ←
    (if use_single_geopackage && package_exists ra then
       _ ← message_box_show Question "File esistente"
             ("Il file " +:+ single_gpkg_path +:+ " esiste già." +:+ nl +:+ "Sovrascriverlo?");
       if overwrite ra then
         m_try
           (_ ← m_lift (package_removed ra); mret true)
           (fun e =>
              _ ← message_box_show Warning "Errore"
                    ("Impossibile eliminare il file esistente: " +:+ e);
              _ ← toggle_controls true;
              mret false)
       else
         _ ← toggle_controls true;
         mret false
     else mret true);
  if proceed : bool then
    counts ← convert_rows d use_single_geopackage dest_dir single_gpkg_path table;
    message_box_show Information "Completato"
      (completion_message use_single_geopackage single_gpkg_path (fst counts) (snd counts))
  else mret tt.

(** The handler of [start_conversion]. *)
Definition start_conversion_except (e : string) : M state unit :=
  _ ← logMessage ("Errore generale nella conversione: " +:+ e) 2;
  message_box_show Critical "Errore"
    ("Si è verificato un errore durante la conversione: " +:+ e).

(** The [try] statement of [start_conversion] with its handler and its
    [finally] clause. *)
Definition start_conversion_guarded (d : dialog) (ra : run_answers)
    (use_single_geopackage : bool) (table : list table_row) : M state unit :=
  m_finally
    (m_try (start_conversion_try d ra use_single_geopackage table)
           start_conversion_except)
    (toggle_controls true).

(** [start_conversion()] on a table of rows. *)
Definition start_conversion (d : dialog) (ra : run_answers) (table : list table_row)
  : M state unit :=
  if (length table =? 0)%nat then
    message_box_show Warning "Errore" "Aggiungi file da convertire"
  else if negb (str_bool (bcdestpath d)) || negb (dest_isdir ra) then
    message_box_show Warning "Errore" "Seleziona una directory di destinazione valida"
  else if negb (str_bool (bcoutputformat d)) then
    message_box_show Warning "Errore" "Seleziona un formato di output"
  else
    let use_single_geopackage :=
      String.eqb (bcoutputformat d) "GeoPackage" && bcsinglefile d in
    _ ← message_box_show Question "Conferma"
          (confirmation_message d use_single_geopackage (length table));
    if negb (confirmed ra) then mret tt
    else
      _ ← toggle_controls false;
      _ ← m_for (seq 0 (length table)) tt
            (fun _ row => update_file_status row "In attesa" "");
      start_conversion_guarded d ra use_single_geopackage table.

End Conversion.

(** *** The three strategies, read off the answers of the host *)

(** A run of the external converter produces the output file. *)
Definition ogr_ok (a : ogr_answer) : bool :=
  match popen a with
  | Ret (returncode, _) => (returncode =? 0) && exists_after a
  | Raise _ => false
  end.

(** Strategy 1: the direct conversion produces the output file. *)
Definition direct_ok (a : mapinfo_answers) : bool := ogr_ok (ogr_direct a).

(** The preparation of strategy 2 succeeds: the input loads, its sanitized
    copy is valid and not empty, and the intermediate GeoJSON is written. *)
Definition prepared (a : mapinfo_answers) : bool :=
  match input_layer_valid a, sanitized a, written a with
  | Ret true, Ret (true, count), Ret (code, _) =>
      negb (count =? 0) && (code =? NoError) && temp_exists_after_write a
  | _, _, _ => false
  end.

(** The intermediate GeoJSON does not load as a layer. *)
Definition geojson_rejected (a : mapinfo_answers) : bool :=
  match temp_layer_valid a with
  | Ret false => true
  | _ => false
  end.

(** Strategy 2: the host's algorithm produces the output file from the
    intermediate GeoJSON and the temporary file is cleared. *)
Definition saved_ok (a : mapinfo_answers) : bool :=
  match temp_layer_valid a, save_run a with
  | Ret true, Ret _ =>
      output_exists_after_save a &&
      (negb (temp_exists_after_save a) ||
       match temp_removed a with Ret _ => true | Raise _ => false end)
  | _, _ => false
  end.

(** Strategy 3: the external converter produces the output file from the
    intermediate GeoJSON. *)
Definition last_ok (a : mapinfo_answers) : bool :=
  temp_exists_before_last a && temp_exists_in_last a && ogr_ok (ogr_geojson a).

(** The conversion to MapInfo succeeds. *)
Definition mapinfo_ok (a : mapinfo_answers) : bool :=
  direct_ok a || prepared a && negb (geojson_rejected a) && (saved_ok a || last_ok a).

(** A file converted on its own ends as converted. *)
Definition single_ok (d : dialog) (a : single_answers) (output_format : string) : bool :=
  if String.eqb output_format "MapInfo File" then mapinfo_ok (mapinfo a)
  else
    match run a with
    | Ret _ => output_exists a
    | Raise err_msg =>
        String.eqb output_format "DXF" &&
        str_in "DXF layer does not support arbitrary field creation" err_msg
    end.

(** The steps that add a file to the single GeoPackage all return. *)
Definition package_ran (d : dialog) (a : package_answers) (row : nat) : bool :=
  layer_valid a &&
  (negb (reprojection d) || match reprojected a with Ret _ => true | Raise _ => false end) &&
  (if (row =? 0)%nat || negb (package_exists_before a) then
     match saved a with Ret _ => true | Raise _ => false end
   else
     match temp_saved a, appended a, temp_deleted a with
     | Ret _, Ret (returncode, _), Ret _ => returncode =? 0
     | _, _, _ => false
     end).

(** A file added to the single GeoPackage ends as converted. *)
Definition package_ok (d : dialog) (a : package_answers) (row : nat) : bool :=
  package_ran d a row && package_exists_after a.

(** The row ends as converted. *)
Definition row_ok (d : dialog) (use_single_geopackage : bool) (row : nat)
    (r : table_row) : bool :=
  if use_single_geopackage then package_ok d (package r) row
  else single_ok d (single r) (bcoutputformat d).

(** The row fails without an exception: the steps return and the output
    is not there. *)
Definition silent_failure (d : dialog) (use_single_geopackage : bool) (r : table_row)
  : bool :=
  if use_single_geopackage then negb (package_exists_after (package r))
  else negb (String.eqb (bcoutputformat d) "MapInfo File") &&
       negb (output_exists (single r)).

(** The log has an entry of the error level. *)
Definition has_error (l : list log_entry) : bool :=
  existsb (fun e => (log_level e =? 2)%nat) l.

(** The rows of a table that end as converted, numbered from [k]. *)
Fixpoint count_ok (d : dialog) (use_single_geopackage : bool) (k : nat)
    (table : list table_row) : nat :=
  match table with
  | [] => 0
  | r :: rest =>
      (if row_ok d use_single_geopackage k r then 1 else 0)
      + count_ok d use_single_geopackage (S k) rest
  end%nat.

(** The rows of a table that end as failed, numbered from [k]. *)
Fixpoint count_failed (d : dialog) (use_single_geopackage : bool) (k : nat)
    (table : list table_row) : nat :=
  match table with
  | [] => 0
  | r :: rest =>
      (if row_ok d use_single_geopackage k r then 0 else 1)
      + count_failed d use_single_geopackage (S k) rest
  end%nat.

(** Nothing but the log, the printed text and the progress display differs. *)
Definition quiet (s s' : state) : Prop :=
  controls s' = controls s /\ statuses s' = statuses s /\ dialogs s' = dialogs s.

(** The numbers of the attempts announced in a log. *)
Definition attempt_of (e : log_entry) : option nat :=
  if String.prefix "Tentativo 1:" (log_text e) then Some 1%nat
  else if String.prefix "Tentativo 2:" (log_text e) then Some 2%nat
  else if String.prefix "Tentativo 3:" (log_text e) then Some 3%nat
  else None.

Definition attempts (l : list log_entry) : list nat := omap attempt_of l.

Definition empty_state : state :=
  {| controls := true; statuses := []; progress := []; dialogs := []; log := [];
     printed := [] |}.

(** A file that the external converter refuses and that does not load as a
    layer, while a conversion from a GeoJSON would go through. *)
Definition unreadable_input : mapinfo_answers :=
  {| ogr_direct := {| popen := Ret (1, "Unable to open datasource"); exists_after := false |};
     input_layer_valid := Ret false;
     sanitized := Ret (true, 1);
     written := Ret (NoError, None);
     temp_exists_after_write := true;
     temp_layer_valid := Ret true;
     save_run := Ret tt;
     output_exists_after_save := true;
     temp_exists_after_save := true;
     temp_removed := Ret tt;
     temp_exists_before_last := true;
     temp_exists_in_last := true;
     ogr_geojson := {| popen := Ret (0, ""); exists_after := true |} |}.

(** A file that the external converter refuses, whose sanitised copy is
    written as a GeoJSON that the host then fails to load as a layer; the
    GeoJSON stays on disk and the external converter would accept it. *)
Definition unloadable_geojson : mapinfo_answers :=
  {| ogr_direct := {| popen := Ret (1, "Unable to open datasource"); exists_after := false |};
     input_layer_valid := Ret true;
     sanitized := Ret (true, 1);
     written := Ret (NoError, None);
     temp_exists_after_write := true;
     temp_layer_valid := Ret false;
     save_run := Ret tt;
     output_exists_after_save := false;
     temp_exists_after_save := true;
     temp_removed := Ret tt;
     temp_exists_before_last := true;
     temp_exists_in_last := true;
     ogr_geojson := {| popen := Ret (0, ""); exists_after := true |} |}.

(** Paths with "/" as separator. *)
Fixpoint last_slash (s : string) (acc best : string) : string :=
  match s with
  | EmptyString => best
  | String c s' =>
      if Ascii.eqb c "/" then last_slash s' (acc +:+ "/") acc
      else last_slash s' (acc +:+ String c "") best
  end.

Fixpoint until_dot (s : string) : string :=
  match s with
  | EmptyString => EmptyString
  | String c s' => if Ascii.eqb c "." then EmptyString else String c (until_dot s')
  end.

#[export] Instance posix : Os := {|
  path_stem := fun p =>
    let dir := last_slash p "" "" in
    until_dot (str_drop (String.length dir + (if str_bool dir then 1 else 0)) p);
  path_join := fun dir name => dir +:+ "/" +:+ name;
  path_dirname := fun p => last_slash p "" ""
|}.

(** A table of two files for a conversion to GeoJSON, each to its own
    file: the algorithm of the host returns for both, and leaves an output
    file for the second only. *)
Definition unused_package : package_answers :=
  {| layer_valid := true; package_exists_before := false; reprojected := Ret tt;
     saved := Ret tt; temp_saved := Ret tt; appended := Ret (0, "");
     temp_deleted := Ret tt; alternate_saved := Ret tt;
     temp_exists_after_failure := false; temp_deleted_after_failure := Ret tt;
     package_exists_after := true |}.

Definition geojson_dialog : dialog :=
  {| bctransformcrs := false; bcoutputcrs_valid := true; bcoutputcrs_srid := 4326;
     bclayername := ""; bcoutputformat := "GeoJSON"; bcsinglefile := false;
     gpkgNameLine := ""; bcdestpath := "/out"; bcdelimiter := "Virgola (,) [Default]" |}.

Definition two_files : list table_row :=
  [ {| item_text := "a.shp"; file_path := "/in/a.shp";
       single := {| mapinfo := unreadable_input; run := Ret tt; output_exists := false |};
       package := unused_package |};
    {| item_text := "b.shp"; file_path := "/in/b.shp";
       single := {| mapinfo := unreadable_input; run := Ret tt; output_exists := true |};
       package := unused_package |} ].

Definition waiting_state : state :=
  {| controls := false;
     statuses := [("In attesa", "In attesa di conversione");
                  ("In attesa", "In attesa di conversione")];
     progress := []; dialogs := []; log := []; printed := [] |}.

Definition ready_host : run_answers :=
  {| dest_isdir := true; confirmed := true; initialized := Ret tt;
     package_exists := false; overwrite := false; package_removed := Ret tt |}.

(** One file for the single GeoPackage that does not load as a layer. *)
Definition package_dialog : dialog :=
  {| bctransformcrs := false; bcoutputcrs_valid := true; bcoutputcrs_srid := 4326;
     bclayername := ""; bcoutputformat := "GeoPackage"; bcsinglefile := true;
     gpkgNameLine := ""; bcdestpath := "/out"; bcdelimiter := "Virgola (,) [Default]" |}.

Definition broken_file : list table_row :=
  [ {| item_text := "a.shp"; file_path := "/in/a.shp";
       single := {| mapinfo := unreadable_input; run := Ret tt; output_exists := false |};
       package :=
         {| layer_valid := false; package_exists_before := false; reprojected := Ret tt;
            saved := Ret tt; temp_saved := Ret tt; appended := Ret (0, "");
            temp_deleted := Ret tt; alternate_saved := Ret tt;
            temp_exists_after_failure := false; temp_deleted_after_failure := Ret tt;
            package_exists_after := false |} |} ].

Definition idle_state : state :=
  {| controls := true;
     statuses := [("In attesa", "In attesa di conversione")];
     progress := []; dialogs := []; log := []; printed := [] |}.

Definition plain_dialog : dialog :=
  {| bctransformcrs := false; bcoutputcrs_valid := true; bcoutputcrs_srid := 4326;
     bclayername := ""; bcoutputformat := "MapInfo File"; bcsinglefile := false;
     gpkgNameLine := ""; bcdestpath := "/out"; bcdelimiter := "Virgola (,) [Default]" |}.

(** The host fails to initialise the processing framework. *)
Definition failing_host : run_answers :=
  {| dest_isdir := true;
     confirmed := true;
     initialized := Raise "No module named 'processing'";
     package_exists := false;
     overwrite := false;
     package_removed := Ret tt |}.

End BatchConverter.

(** ** Layer loader (layer_loader.py) *)

Module LayerLoader.

(** The project of the host with its layer tree. A group of the tree is
    named by a number; [None] stands for the root. *)
Class ProjectHost := {
  Project : Type;
  (** the child group of that name, as the loops over [children()] find it *)
  find_group : Project -> option nat -> string -> option nat;
  (** [parent.addGroup(name)] *)
  add_group : Project -> option nat -> string -> Project * nat;
  (** [addMapLayer(layer, False)] and [insertLayer(0, layer)] *)
  add_layer : Project -> option nat -> string -> outcome Project;
  (** [remove_empty_groups()], which changes the layer tree only *)
  prune : Project -> outcome Project
}.

(** The widgets the loader reads; [lltext] holds the stripped, lowered text. *)
Record dialog := {
  llsource : string;
  llshp : bool; llgml : bool; llgpkg : bool; lltif : bool; llxslx : bool; lldbf : bool;
  llchecktext : bool; lltext : string;
  llcheckdate : bool;
  llcheckgeom : bool; llgeom : string;
  llcheckgroup : bool;
  llchecknest : bool
}.

(** What the host answers about a layer made from a file: [isValid()] of
    the layer made from the path, from the path with the sheet name and
    from the path with the driver prefix, whether it is a vector layer, and
    its geometry type. *)
Record layer_info := {
  valid : bool;
  valid_sheet : bool;
  valid_driver : bool;
  is_vector : bool;
  geometryType : nat
}.

(** A file as the loops meet it: its path, its name, its name without
    extension, its lowered extension, whether its modification date passes
    the date of the filter (or [os.path.getmtime] raises), and the layer
    made from it (or making it raises). *)
Record plain_file := {
  file_path : string;
  file_name : string;
  layer_name : string;
  ext : string;
  recent : outcome bool;
  opened : outcome layer_info
}.

(** A file of the source, with what the host answers when it is handled as
    an archive: [tempfile.mkdtemp()], and the extraction with the files
    then found below the temporary directory. *)
Record file := {
  info : plain_file;
  temp_dir : outcome string;
  extraction : outcome (list plain_file)
}.

(** One step of [os.walk]: the path of the folder relative to the source,
    in parts (none for the source itself), and its files. *)
Record walk_entry := {
  rel_parts : list string;
  files : list file
}.

(** What the host answers about the source path. *)
Record source := {
  isfile : bool;
  isdir : bool;
  source_file : file;
  folder_name : string;
  walk : list walk_entry
}.

(** [s.endswith(suffix)] *)
Definition endswith (s suffix : string) : bool :=
  String.prefix (String.rev suffix) (String.rev s).

Definition is_archive (name : string) : bool :=
  existsb (endswith (lower name)) [".zip"; ".tar"; ".rar"; ".7z"; ".gz"].

Section Loader.
Context `{ProjectHost}.

(** The tool's own attribute [created_groups], the project, what the tool
    shows, and the counters that its functions read after an exception. *)
Record state := {
  controls : bool;
  dialogs : list message_box;
  printed : list string;
  created_groups : gset nat;
  project : Project;
  loaded_count : nat;
  total_files : nat;
  archive_loaded : nat
}.

Definition set_controls (b : bool) (s : state) : state :=
  {| controls := b; dialogs := dialogs s; printed := printed s;
     created_groups := created_groups s; project := project s;
     loaded_count := loaded_count s; total_files := total_files s;
     archive_loaded := archive_loaded s |}.

Definition add_dialog (b : message_box) (s : state) : state :=
  {| controls := controls s; dialogs := dialogs s ++ [b]; printed := printed s;
     created_groups := created_groups s; project := project s;
     loaded_count := loaded_count s; total_files := total_files s;
     archive_loaded := archive_loaded s |}.

Definition add_printed (t : string) (s : state) : state :=
  {| controls := controls s; dialogs := dialogs s; printed := printed s ++ [t];
     created_groups := created_groups s; project := project s;
     loaded_count := loaded_count s; total_files := total_files s;
     archive_loaded := archive_loaded s |}.

Definition set_created_groups (g : gset nat) (s : state) : state :=
  {| controls := controls s; dialogs := dialogs s; printed := printed s;
     created_groups := g; project := project s;
     loaded_count := loaded_count s; total_files := total_files s;
     archive_loaded := archive_loaded s |}.

Definition set_project (p : Project) (s : state) : state :=
  {| controls := controls s; dialogs := dialogs s; printed := printed s;
     created_groups := created_groups s; project := p;
     loaded_count := loaded_count s; total_files := total_files s;
     archive_loaded := archive_loaded s |}.

Definition set_counts (loaded total : nat) (s : state) : state :=
  {| controls := controls s; dialogs := dialogs s; printed := printed s;
     created_groups := created_groups s; project := project s;
     loaded_count := loaded; total_files := total;
     archive_loaded := archive_loaded s |}.

Definition set_archive_loaded (n : nat) (s : state) : state :=
  {| controls := controls s; dialogs := dialogs s; printed := printed s;
     created_groups := created_groups s; project := project s;
     loaded_count := loaded_count s; total_files := total_files s;
     archive_loaded := n |}.

(** The state of the tool after [__init__]. *)
Definition init (p : Project) : state :=
  {| controls := true; dialogs := []; printed := []; created_groups := ∅;
     project := p; loaded_count := 0; total_files := 0; archive_loaded := 0 |}.

Definition toggle_controls (enable : bool) : M state unit :=
  m_modify (set_controls enable).

Definition message_box_show (i : icon) (title text : string) : M state unit :=
  m_modify (add_dialog {| box_icon := i; box_title := title; box_text := text |}).

Definition print (t : string) : M state unit := m_modify (add_printed t).

(** [parent.addGroup(name)] followed by [self.created_groups.add(group)] *)
Definition add_tracked_group (parent : option nat) (name : string) : M state nat :=
  s ← m_get;
  let '(p, group) := add_group (project s) parent name in
  _ ← m_modify (set_project p);
  _ ← m_modify (fun s => set_created_groups ({[group]} ∪ created_groups s) s);
  mret group.

(** [remove_empty_groups()] *)
Definition remove_empty_groups : M state unit :=
  s ← m_get;
  p ← m_lift (prune (project s));
  m_modify (set_project p).

(** [check_extension(filepath)], on the lowered extension *)
Definition check_extension (d : dialog) (e : string) : bool :=
  String.eqb e ".shp" && llshp d || String.eqb e ".gml" && llgml d ||
  String.eqb e ".gpkg" && llgpkg d || String.eqb e ".tif" && lltif d ||
  String.eqb e ".xlsx" && llxslx d || String.eqb e ".dbf" && lldbf d.

(** [check_name_filter(filename)] *)
Definition check_name_filter (d : dialog) (filename : string) : bool :=
  if negb (llchecktext d) then true
  else if negb (str_bool (lltext d)) then true
  else str_in (lltext d) (lower filename).

(** [check_date_filter(filepath)] *)
Definition check_date_filter (d : dialog) (f : plain_file) : M state bool :=
  if negb (llcheckdate d) then mret true else m_lift (recent f).

(** [check_geometry_filter(layer)] *)
Definition check_geometry_filter (d : dialog) (l : layer_info) : bool :=
  if negb (llcheckgeom d) then true
  else if negb (is_vector l) then true
  else if String.eqb (llgeom d) "any" then true
  else if String.eqb (llgeom d) "Point" then
    (geometryType l =? 0)%nat || (geometryType l =? 4)%nat
  else if String.eqb (llgeom d) "Line" then
    (geometryType l =? 1)%nat || (geometryType l =? 5)%nat
  else if String.eqb (llgeom d) "Polygon" then
    (geometryType l =? 2)%nat || (geometryType l =? 6)%nat
  else false.

(** [create_layer_group(folder_path)], on the name of the folder *)
Definition create_layer_group (d : dialog) (folder : string) : M state (option nat) :=
  if negb (llcheckgroup d) then mret None
  else
    s ← m_get;
    match find_group (project s) None folder with
    | Some child => mret (Some child)
    | None => group ← add_tracked_group None folder; mret (Some group)
    end.

(** [load_layer(file_path, group)] *)
Definition load_layer (d : dialog) (f : plain_file) (group : option nat) : M state bool :=
  m_try
    (_ ← m_modify (set_created_groups ∅);
     if existsb (String.eqb (ext f)) [".shp"; ".gml"; ".gpkg"; ".dbf"; ".tif"; ".xlsx"] then
       layer ← m_lift (opened f);
       let is_valid :=
         if String.eqb (ext f) ".xlsx"
         then valid layer || valid_sheet layer || valid_driver layer
         else valid layer in
       _ ← (if String.eqb (ext f) ".xlsx" && negb is_valid
            then print ("Failed to load Excel file: " +:+ file_path f)
            else mret tt);
       if negb is_valid then mret false
       else if negb (check_geometry_filter d layer) then mret false
       else
         s ← m_get;
         p ← m_lift (add_layer (project s) group (file_path f));
         _ ← m_modify (set_project p);
         _ ← (if llcheckgroup d then remove_empty_groups else mret tt);
         mret true
     else mret false)
    (fun e =>
       _ ← print ("Errore nel caricamento di " +:+ file_path f +:+ ": " +:+ e);
       mret false).

(** The files of an extracted archive that pass the filters. *)
Fixpoint found_files (d : dialog) (fs : list plain_file) : M state (list plain_file) :=
  match fs with
  | [] => mret []
  | f :: rest =>
      if negb (check_extension d (ext f)) then found_files d rest
      else if negb (check_name_filter d (file_name f)) then found_files d rest
      else
        ok ← check_date_filter d f;
        if ok : bool then
          _ ← print ("File trovato: " +:+ file_path f);
          more ← found_files d rest;
          mret (f :: more)
        else found_files d rest
  end.

(** The loop of [process_compressed_file] that loads the files found; its
    counter is [archive_loaded]. *)
Definition load_found (d : dialog) (archive_group : option nat) (f : plain_file)
  : M state unit :=
  layer ← m_lift (opened f);
  if negb (valid layer) then print ("Layer non valido: " +:+ file_path f)
  else if negb (check_geometry_filter d layer) then mret tt
  else
    s ← m_get;
    p ← m_lift (add_layer (project s) archive_group (file_path f));
    _ ← m_modify (set_project p);
    _ ← m_modify (fun s => set_archive_loaded (S (archive_loaded s)) s);
    print ("Layer caricato con successo: " +:+ layer_name f).

(** [process_compressed_file(archive_path, parent_group)] *)
Definition process_compressed_file (d : dialog) (f : file) (parent_group : option nat)
  : M state nat :=
  let archive_path := file_path (info f) in
  _ ← m_modify (set_archive_loaded 0);
  temp ← m_lift (temp_dir f);
  _ ← print ("Estrazione di " +:+ archive_path +:+ " in " +:+ temp);
  _ ← m_try
        (if endswith (lower archive_path) ".zip" ||
            existsb (endswith (lower archive_path)) [".tar"; ".tar.gz"; ".tgz"]
         then
           extracted ← m_lift (extraction f);
           archive_group ←
             (if llcheckgroup d then
                group ← add_tracked_group parent_group (file_name (info f));
                mret (Some group)
              else mret parent_group);
           found ← found_files d extracted;
           _ ← m_for found tt (fun _ x => load_found d archive_group x);
           s ← m_get;
           if (archive_loaded s =? 0)%nat
           then print ("Nessun file supportato trovato in " +:+ archive_path)
           else mret tt
         else mret tt)
        (fun e =>
           message_box_show Warning "Errore"
             ("Impossibile elaborare l'archivio " +:+ archive_path +:+ ": " +:+ e));
  s ← m_get;
  mret (archive_loaded s).

(** The group of a subfolder: one group per part of its relative path,
    found or created below the group of the part before. *)
Fixpoint nested_group (temp_group : option nat) (parts : list string)
  : M state (option nat) :=
  match parts with
  | [] => mret temp_group
  | part :: rest =>
      match temp_group with
      | Some g =>
          s ← m_get;
          match find_group (project s) (Some g) part with
          | Some child => nested_group (Some child) rest
          | None =>
              group ← add_tracked_group (Some g) part;
              nested_group (Some group) rest
          end
      | None => nested_group None rest
      end
  end.

(** The body of [for file in files] of [process_files]; [counts] holds
    [loaded_count] and [total_files]. *)
Definition process_file (d : dialog) (current_group : option nat)
    (counts : nat * nat) (f : file) : M state (nat * nat) :=
  let '(loaded_count, total_files) := counts in
  let total_files := S total_files in
  if is_archive (file_name (info f)) then
    if llchecknest d then
      nested_count ← process_compressed_file d f current_group;
      mret ((loaded_count + nested_count)%nat, total_files)
    else mret (loaded_count, total_files)
  else if negb (check_extension d (ext (info f))) then mret (loaded_count, total_files)
  else if negb (check_name_filter d (file_name (info f))) then
    mret (loaded_count, total_files)
  else
    ok ← check_date_filter d (info f);
    if ok : bool then
      loaded ← load_layer d (info f) current_group;
      mret (if loaded : bool then S loaded_count else loaded_count, total_files)
    else mret (loaded_count, total_files).

(** [process_files(directory)], called without a parent group *)
Definition process_files (d : dialog) (src : source) : M state (nat * nat) :=
  parent_group ←
    (if llcheckgroup d then create_layer_group d (folder_name src) else mret None);
  let entries :=
    if llchecknest d then walk src else take 1 (walk src) in
  m_for entries (0, 0)%nat
    (fun counts entry =>
       current_group ←
         (if llcheckgroup d && negb (length (rel_parts entry) =? 0)%nat
          then nested_group parent_group (rel_parts entry)
          else mret parent_group);
       m_for (files entry) counts (process_file d current_group)).

(** The [try] body of [load_layers]. *)
Definition load_layers_try (d : dialog) (src : source) : M state unit :=
  _ ← (if isfile src then
         if is_archive (llsource d) then
           n ← process_compressed_file d (source_file src) None;
           m_modify (set_counts n 1)
         else
           let f := info (source_file src) in
           pass ←
             (if check_extension d (ext f) && check_name_filter d (file_name f)
              then check_date_filter d f else mret false);
           _ ← (if pass : bool then
                  loaded ← load_layer d f None;
                  if loaded : bool then m_modify (fun s => set_counts 1 (total_files s) s)
                  else mret tt
                else mret tt);
           m_modify (fun s => set_counts (loaded_count s) 1 s)
       else if isdir src then
         counts ← process_files d src;
         m_modify (set_counts (fst counts) (snd counts))
       else
         message_box_show Warning "Errore"
           ("Il percorso specificato non esiste: " +:+ llsource d));
  if llcheckgroup d then remove_empty_groups else mret tt.

(** The handler of [load_layers]. *)
Definition load_layers_except (e : string) : M state unit :=
  message_box_show Warning "Errore"
    ("Si è verificato un errore durante il caricamento: " +:+ e).

(** The [finally] clause of [load_layers]. *)
Definition load_layers_finally : M state unit :=
  _ ← toggle_controls true;
  s ← m_get;
  if (0 <? loaded_count s)%nat then
    message_box_show Information "Completato"
      ("Caricamento completato." +:+ nl +:+ nl +:+ "Layer caricati: " +:+
       pretty (loaded_count s))
  else
    message_box_show Warning "Attenzione"
      ("Nessun layer caricato su " +:+ pretty (total_files s) +:+ " file trovati." +:+ nl +:+
       "Verifica i filtri applicati e i formati selezionati.").

(** The [try] statement of [load_layers] with its handler and its
    [finally] clause. *)
Definition load_layers_guarded (d : dialog) (src : source) : M state unit :=
  m_finally (m_try (load_layers_try d src) load_layers_except) load_layers_finally.

(** [load_layers()] *)
Definition load_layers (d : dialog) (src : source) : M state unit :=
  if negb (str_bool (llsource d)) then
    message_box_show Warning "Attenzione" "Seleziona un percorso sorgente"
  else if negb (llshp d || llgml d || llgpkg d || lltif d || llxslx d || lldbf d) then
    message_box_show Warning "Attenzione" "Seleziona almeno un tipo di file da caricare"
  else
    _ ← toggle_controls false;
    _ ← m_modify (set_counts 0 0);
    load_layers_guarded d src.

(** The tool's set of created groups is the same in both states. *)
Definition same_groups (s s' : state) : Prop := created_groups s' = created_groups s.

(** The tool's set of created groups has lost nothing. *)
Definition more_groups (s s' : state) : Prop := created_groups s ⊆ created_groups s'.

(** The two states differ in the set of created groups at most. *)
Definition alike (s s' : state) : Prop :=
  controls s = controls s' /\ dialogs s = dialogs s' /\ printed s = printed s' /\
  project s = project s' /\ loaded_count s = loaded_count s' /\
  total_files s = total_files s' /\ archive_loaded s = archive_loaded s'.

End Loader.

(** A project to run the loader on: the groups made so far, each with its
    parent and its name; loading never fails and no group is removed. *)
Module ListProject.

#[export] Instance list_project : ProjectHost := {|
  Project := list (option nat * string);
  find_group := fun p parent name =>
    fst <$> list_find (fun g => bool_decide (g = (parent, name))) p;
  add_group := fun p parent name => (p ++ [(parent, name)], length p);
  add_layer := fun p group path => Ret p;
  prune := fun p => Ret p
|}.

(** An archive that holds one shapefile of lines. *)
Definition roads_shp : plain_file :=
  {| file_path := "/tmp/tmpab12/roads.shp"; file_name := "roads.shp";
     layer_name := "roads"; ext := ".shp";
     recent := Ret true;
     opened := Ret {| valid := true; valid_sheet := false; valid_driver := false;
                      is_vector := true; geometryType := 1 |} |}.

Definition zip_file : file :=
  {| info := {| file_path := "/data/roads.zip"; file_name := "roads.zip";
                layer_name := "roads"; ext := ".zip";
                recent := Ret true;
                opened := Raise "not a layer" |};
     temp_dir := Ret "/tmp/tmpab12";
     extraction := Ret [roads_shp] |}.

Definition zip_source : source :=
  {| isfile := true; isdir := false; source_file := zip_file;
     folder_name := ""; walk := [] |}.

Definition zip_dialog : dialog :=
  {| llsource := "/data/roads.zip";
     llshp := true; llgml := false; llgpkg := false; lltif := false;
     llxslx := false; lldbf := false;
     llchecktext := false; lltext := "";
     llcheckdate := false;
     llcheckgeom := false; llgeom := "any";
     llcheckgroup := true;
     llchecknest := false |}.

(** The host cannot make the temporary directory for the archive. *)
Definition no_temp_source : source :=
  {| isfile := true; isdir := false;
     source_file :=
       {| info := info zip_file;
          temp_dir := Raise "No space left on device";
          extraction := Ret [] |};
     folder_name := ""; walk := [] |}.

End ListProject.

End LayerLoader.

(** ** Overlaps counter (overlaps_counter.py): the processing model *)

Module OverlapsCounter.

(** The values of the parameter dictionaries of the child algorithms. *)
#[local] Unset Elimination Schemes.
Inductive pvalue :=
| PBool (b : bool)
| PInt (z : Z)
| PNum (q : Q)
| PStr (s : string)
| PList (l : list pvalue)
| PDict (d : list (string * pvalue))
(** a source, a sink or the output of a child algorithm *)
| PLayer (id : nat)
(** [QgsProcessing.TEMPORARY_OUTPUT] *)
| PTemporary.
#[local] Set Elimination Schemes.

(** What the host provides: [processing.run(alg, params, ...)['OUTPUT']],
    which may raise, and the answer of [feedback.isCanceled()] at each
    step. *)
Class Processing := {
  run : string -> list (string * pvalue) -> outcome pvalue;
  isCanceled : nat -> bool
}.

(** The calls into the host, in the order they are made. *)
Inductive event :=
| Run (alg : string) (params : list (string * pvalue))
| SetCurrentStep (n : nat)
| IsCanceled (answer : bool).

(** The three entries of [parameters]. *)
Record parameters := {
  cavi_4326 : pvalue;
  infrastruttura_4326 : pvalue;
  InfrastrutturaConNcavi : pvalue
}.

Section Model.
Context `{Processing}.

(** [processing.run(alg, alg_params, context=context, feedback=feedback,
    is_child_algorithm=True)['OUTPUT']] *)
Definition processing_run (alg : string) (alg_params : list (string * pvalue))
  : M (list event) pvalue :=
  fun calls => (run alg alg_params, calls ++ [Run alg alg_params]).

(** [feedback.setCurrentStep(n)] followed by [feedback.isCanceled()] *)
Definition canceled_at (n : nat) : M (list event) bool :=
  fun calls => (Ret (isCanceled n), calls ++ [SetCurrentStep n; IsCanceled (isCanceled n)]).

Definition field_calculator (name formula : string) (input output : pvalue)
  : list (string * pvalue) :=
  [("FIELD_LENGTH", PInt 10); ("FIELD_NAME", PStr name); ("FIELD_PRECISION", PInt 0);
   ("FIELD_TYPE", PInt 1); ("FORMULA", PStr formula); ("INPUT", input);
   ("OUTPUT", output)].

(** [processAlgorithm(parameters, context, model_feedback)]: the result
    dictionary. *)
Definition processAlgorithm (parameters : parameters)
  : M (list event) (gmap string pvalue) :=
  BufferCavi ← processing_run "native:buffer"
    [("DISSOLVE", PBool false); ("DISTANCE", PNum (1 # 10000000));
     ("END_CAP_STYLE", PInt 0); ("INPUT", cavi_4326 parameters);
     ("JOIN_STYLE", PInt 0); ("MITER_LIMIT", PInt 2); ("SEGMENTS", PInt 5);
     ("OUTPUT", PTemporary)];
  c ← canceled_at 1;
  if c : bool then mret ∅ else
  IdProgressivoCavi ← processing_run "native:fieldcalculator"
    (field_calculator "id_cav" "@row_number" BufferCavi PTemporary);
  c ← canceled_at 2;
  if c : bool then mret ∅ else
  RiparaGeometrieInfrastruttura ← processing_run "native:fixgeometries"
    [("INPUT", infrastruttura_4326 parameters); ("METHOD", PInt 1);
     ("OUTPUT", PTemporary)];
  c ← canceled_at 3;
  if c : bool then mret ∅ else
  IdProgressivoInfrastruttura ← processing_run "native:fieldcalculator"
    (field_calculator "id_infr" "@row_number" RiparaGeometrieInfrastruttura PTemporary);
  c ← canceled_at 4;
  if c : bool then mret ∅ else
  AssociaId_cavSullinfrastruttura ← processing_run "native:joinattributesbylocation"
    [("DISCARD_NONMATCHING", PBool false); ("INPUT", IdProgressivoInfrastruttura);
     ("JOIN", IdProgressivoCavi); ("JOIN_FIELDS", PList [PStr "id_cav"]);
     ("METHOD", PInt 0); ("PREDICATE", PList [PInt 1; PInt 5; PInt 4]);
     ("PREFIX", PStr ""); ("OUTPUT", PTemporary)];
  c ← canceled_at 5;
  if c : bool then mret ∅ else
  AggregaPerIdDellinfrastruttura ← processing_run "native:aggregate"
    [("AGGREGATES",
      PList
        [PDict [("aggregate", PStr "first_value"); ("delimiter", PStr ",");
                ("input", PStr (dquote +:+ "id_infr" +:+ dquote)); ("length", PInt 20);
                ("name", PStr "id_layer1"); ("precision", PInt 0);
                ("sub_type", PInt 0); ("type", PInt 6);
                ("type_name", PStr "double precision")];
         PDict [("aggregate", PStr "concatenate"); ("delimiter", PStr ",");
                ("input", PStr ("to_string(" +:+ dquote +:+ "id_cav" +:+ dquote +:+ ")")); ("length", PInt 254);
                ("name", PStr "id_layer2"); ("precision", PInt 0);
                ("sub_type", PInt 0); ("type", PInt 10);
                ("type_name", PStr "text")]]);
     ("GROUP_BY", PStr "id_infr"); ("INPUT", AssociaId_cavSullinfrastruttura);
     ("OUTPUT", PTemporary)];
  c ← canceled_at 6;
  if c : bool then mret ∅ else
  CampoNumeroCaviSovrapposti ← processing_run "native:fieldcalculator"
    (field_calculator "n_overlaps"
       ("array_length(string_to_array(" +:+ dquote +:+ "id_layer2" +:+ dquote +:+ ", ','))")
       AggregaPerIdDellinfrastruttura (InfrastrutturaConNcavi parameters));
  mret {[ "InfrastrutturaConNcavi" := CampoNumeroCaviSovrapposti ]}.

End Model.

(** A call as the schedule of the model names it. *)
Inductive call :=
| Child (alg : string)
| Check.

(** The seven child algorithms with a look at the cancel flag between each
    two of them. *)
Definition schedule : list call :=
  [Child "native:buffer"; Check;
   Child "native:fieldcalculator"; Check;
   Child "native:fixgeometries"; Check;
   Child "native:fieldcalculator"; Check;
   Child "native:joinattributesbylocation"; Check;
   Child "native:aggregate"; Check;
   Child "native:fieldcalculator"].

Definition call_of (e : event) : option call :=
  match e with
  | Run alg _ => Some (Child alg)
  | IsCanceled _ => Some Check
  | SetCurrentStep _ => None
  end.

(** The child algorithms and the looks at the flag of a run, in order. *)
Definition calls_made (l : list event) : list call := omap call_of l.

(** The calls made after the first look that found the flag set. *)
Fixpoint after_cancel (l : list event) : list event :=
  match l with
  | [] => []
  | IsCanceled true :: rest => rest
  | _ :: rest => after_cancel rest
  end.

(** A look found the flag set. *)
Definition cancel_seen (l : list event) : bool :=
  existsb (fun e => match e with IsCanceled true => true | _ => false end) l.

(** A host whose child algorithms return and whose flag is set during the
    third step. *)
Module Demo.

#[export] Instance canceled_in_third : Processing := {|
  run := fun alg _ => Ret (PLayer 7);
  isCanceled := fun n => (3 <=? n)%nat
|}.

(** A host whose child algorithms return and whose flag is never set. *)
Definition never_canceled : Processing := {|
  run := fun alg _ => Ret (PLayer 7);
  isCanceled := fun n => false
|}.

Definition demo_parameters : parameters :=
  {| cavi_4326 := PLayer 1; infrastruttura_4326 := PLayer 2;
     InfrastrutturaConNcavi := PLayer 3 |}.

End Demo.

End OverlapsCounter.

(** ** Layer renamer: the parts of a new name *)

Module RenamerMoreDefs.
Import LayerRenamer.

(** What the two removals leave of a name: [name[l : len(name) - r]] for
    the two counts, each taken as 0 when it is negative. *)
Definition kept_part (p : params) (name : string) : string :=
  let l := Z.max 0 (remove_left p) in
  let r := Z.max 0 (remove_right p) in
  if l + r <? len name
  then str_take (Z.to_nat (len name - l - r)) (str_drop (Z.to_nat l) name)
  else "".

(** The kept part after the replacement. *)
Definition replaced_part (p : params) (name : string) : string :=
  if str_bool (search_text p)
  then replace (kept_part p name) (search_text p) (replace_text p)
  else kept_part p name.

End RenamerMoreDefs.

(** ** Overlaps counter: the children of a run *)

Module OverlapsMoreDefs.
Import OverlapsCounter.

(** The child algorithm of a call returned. *)
Definition child_returned `{Processing} (e : event) : bool :=
  match e with
  | Run alg params => match run alg params with Ret _ => true | Raise _ => false end
  | _ => true
  end.

(** A host whose fix-geometries algorithm fails. *)
Definition fix_fails : Processing := {|
  run := fun alg _ =>
    if String.eqb alg "native:fixgeometries" then Raise "Invalid geometry"
    else Ret (PLayer 7);
  isCanceled := fun n => false
|}.

End OverlapsMoreDefs.

(** ** Feature excluder: the features an analysis proposes *)

Module ExcluderMoreDefs.
Import FeatureExcluder.

Section Join.
Context `{Host}.

(** The source feature has a join value, and a feature of the comparison
    layer has a join value with the same key. *)
Definition has_partner (c : config) (match_layer : layer) (s : feature) : bool :=
  match keyed c (source_field_name c) s with
  | Some k =>
      existsb (fun g => bool_decide (keyed c (match_field_name c) g = Some k))
        (features match_layer)
  | None => false
  end.

(** [[fid for fid in features_to_delete if fid not in features_with_different_geom]] *)
Definition features_with_equal_geom (st : state) : list Z :=
  List.filter (fun fid => negb (bool_decide (fid ∈ features_with_different_geom st)))
    (features_to_delete st).

End Join.

(** The user accepts the selection dialog with the feature 10 selected, and
    the host deletes it. *)
Definition accepting : run_answers :=
  {| layers_selected := true; same_layer := false; proceed_same := false;
     analysis_error := None; table_error := None;
     selection := Some [10]; backup_path := None; proceed_without_backup := false;
     deletion := Ret tt; source_name := "roads" |}.

End ExcluderMoreDefs.

(** ** Feature excluder: the backup of the source layer *)

Module LayerBackup.

(** The file system, the clock and the writers of the host. *)
Class Files := {
  dirname : string -> string;
  basename : string -> string;
  join : string -> string -> string;
  (** [os.path.exists(path)] *)
  path_exists : string -> bool;
  (** [os.listdir(directory)] *)
  listdir : string -> outcome (list string);
  (** [datetime.datetime.now().strftime("%Y%m%d_%H%M")] *)
  now : string;
  (** [tempfile.gettempdir()] *)
  gettempdir : string;
  (** [os.makedirs(path, exist_ok=True)] *)
  makedirs : string -> outcome unit;
  (** [QgsVectorFileWriter.writeAsVectorFormatV2(layer, path, ...)]: the
      error code with its message, and how Python prints that pair *)
  write_shapefile : string -> outcome (Z * string);
  show_error : Z * string -> string;
  (** [zipfile.ZipFile(path, 'w')] and the [write] of each entry, given as
      the file and the name it gets in the archive *)
  write_zip : string -> list (string * string) -> outcome unit
}.

(** What the backup prints, and the archives it has written. *)
Record state := {
  printed : list string;
  archives : list (string * list (string * string))
}.

Definition print (t : string) : M state unit :=
  m_modify (fun s => {| printed := printed s ++ [t]; archives := archives s |}).

(** [name.split('.')[0]] *)
Fixpoint before_dot (name : string) : string :=
  match name with
  | EmptyString => EmptyString
  | String c rest => if Ascii.eqb c "." then EmptyString else String c (before_dot rest)
  end.

Section Backup.
Context `{Files}.

(** The files of [directory] whose name starts with [base_name] and a dot,
    each with its directory. *)
Definition related_files (directory base_name : string) (listing : list string)
  : list string :=
  join directory <$> List.filter (String.prefix (base_name +:+ ".")) listing.

(** [with zipfile.ZipFile(zip_path, 'w') as zip_file: ...] *)
Definition zip_files (zip_path : string) (related : list string) : M state unit :=
  let entries := (fun file => (file, basename file)) <$> related in
  _ ← m_lift (write_zip zip_path entries);
  m_modify (fun s =>
    {| printed := printed s; archives := archives s ++ [(zip_path, entries)] |}).

(** [zip_shapefile(shapefile_path)] *)
Definition zip_shapefile (shapefile_path : string) : M state (option string) :=
  m_try
    (let directory := dirname shapefile_path in
     let base_name := before_dot (basename shapefile_path) in
     let zip_path := replace shapefile_path ".shp" ".zip" in
     listing ← m_lift (listdir directory);
     _ ← zip_files zip_path (related_files directory base_name listing);
     mret (Some zip_path))
    (fun e =>
       _ ← print ("Errore durante la compressione dello shapefile: " +:+ e);
       mret None).

(** [create_memory_layer_backup(layer)], on the name of the layer *)
Definition create_memory_layer_backup (name : string) : M state (option string) :=
  m_try
    (let timestamp := now in
     let layer_name := replace name " " "_" in
     let temp_dir := gettempdir in
     let backup_dir := join temp_dir "qgis_backups" in
     _ ← m_lift (makedirs backup_dir);
     let backup_path :=
       join backup_dir (layer_name +:+ "_backup_" +:+ timestamp +:+ ".shp") in
     error ← m_lift (write_shapefile backup_path);
     if fst error =? 0 then zip_shapefile backup_path
     else
       _ ← print ("Error saving layer: " +:+ show_error error);
       mret None)
    (fun e =>
       _ ← print ("Errore durante la creazione del backup del livello di memoria: " +:+ e);
       mret None).

(** [create_layer_backup(layer)], on the source and the name of the layer *)
Definition create_layer_backup (source_uri name : string) : M state (option string) :=
  m_try
    (if negb (str_bool source_uri) || negb (path_exists source_uri) then
       create_memory_layer_backup name
     else
       let source_dir := dirname source_uri in
       let layer_name := name in
       let base_filename := before_dot (basename source_uri) in
       let timestamp := now in
       let backup_filename := layer_name +:+ "_backup_" +:+ timestamp +:+ ".zip" in
       let backup_path := join source_dir backup_filename in
       listing ← m_lift (listdir source_dir);
       _ ← zip_files backup_path (related_files source_dir base_filename listing);
       mret (Some backup_path))
    (fun e =>
       _ ← print ("Error creating backup: " +:+ e);
       mret None).

End Backup.

(** A directory with two shapefiles whose names begin alike. *)
Module Demo.

#[export] Instance shared_folder : Files := {|
  dirname := fun _ => "/data";
  basename := fun p => str_drop 6 p;
  join := fun d f => d +:+ "/" +:+ f;
  path_exists := fun _ => true;
  listdir := fun _ => Ret ["roads.shp"; "roads.dbf"; "roads.v2.shp"; "roads_old.shp"; "lakes.shp"];
  now := "20250506_1030";
  gettempdir := "/tmp";
  makedirs := fun _ => Ret tt;
  write_shapefile := fun _ => Ret (0, "");
  show_error := fun _ => "(0, '')";
  write_zip := fun _ _ => Ret tt
|}.

Definition nothing : state := {| printed := []; archives := [] |}.

End Demo.

End LayerBackup.

(** ** Batch converter: rows and hosts to run the conversion on *)

Module ConverterMoreDefs.
Import BatchConverter.

(** A batch whose files all get the name the user typed. *)
Definition named_dialog : dialog :=
  {| bctransformcrs := false; bcoutputcrs_valid := true; bcoutputcrs_srid := 4326;
     bclayername := "rilievo"; bcoutputformat := "DXF"; bcsinglefile := false;
     gpkgNameLine := ""; bcdestpath := "/out"; bcdelimiter := "Virgola (,) [Default]" |}.

(** A file whose conversion to DXF stops at the attribute fields and leaves
    no output file. *)
Definition dxf_row : table_row :=
  {| item_text := "a.shp"; file_path := "/in/a.shp";
     single :=
       {| mapinfo := unreadable_input;
          run := Raise "DXF layer does not support arbitrary field creation, field 'id' not created";
          output_exists := false |};
     package := unused_package |}.

(** A file that the external converter refuses to append to the GeoPackage,
    which is there at the end. *)
Definition refused_row : table_row :=
  {| item_text := "b.shp"; file_path := "/in/b.shp";
     single := {| mapinfo := unreadable_input; run := Ret tt; output_exists := true |};
     package :=
       {| layer_valid := true; package_exists_before := true; reprojected := Ret tt;
          saved := Ret tt; temp_saved := Ret tt; appended := Ret (1, "table exists");
          temp_deleted := Ret tt; alternate_saved := Ret tt;
          temp_exists_after_failure := true; temp_deleted_after_failure := Ret tt;
          package_exists_after := true |} |}.

(** The user keeps the GeoPackage that is there. *)
Definition keeping_host : run_answers :=
  {| dest_isdir := true; confirmed := true; initialized := Ret tt;
     package_exists := true; overwrite := false; package_removed := Ret tt |}.

(** The cells of the status column after the reset. *)
Definition waiting (n : nat) : list (string * string) :=
  replicate n ("In attesa", "In attesa di conversione").

End ConverterMoreDefs.

(** ** Batch converter: the option widgets and the table of files *)

Module ConverterUi.

(** The widgets that the handlers of the tool set. A label and its field
    that are always set together stand as one entry: [delimiter] for
    [bcdelimiter] and [bcdelimiterlabel], [gpkg_name] for [gpkgNameLabel]
    and [gpkgNameLine]; [controls] stands for the widgets that
    [toggle_controls] sets to its argument as it is. *)
Record ui := {
  format : string;
  transform_checked : bool;
  transform_enabled : bool;
  crs_enabled : bool;
  delimiter_enabled : bool;
  delimiter_visible : bool;
  delimiter_index : Z;
  layername_label : string;
  layername_placeholder : string;
  layername_enabled : bool;
  single_checked : bool;
  single_enabled : bool;
  single_visible : bool;
  gpkg_name_visible : bool;
  _crs_forced_by_csv : bool;
  controls : bool
}.

Definition with_format (f : string) (u : ui) : ui :=
  {| format := f; transform_checked := transform_checked u;
     transform_enabled := transform_enabled u; crs_enabled := crs_enabled u;
     delimiter_enabled := delimiter_enabled u; delimiter_visible := delimiter_visible u;
     delimiter_index := delimiter_index u; layername_label := layername_label u;
     layername_placeholder := layername_placeholder u;
     layername_enabled := layername_enabled u; single_checked := single_checked u;
     single_enabled := single_enabled u; single_visible := single_visible u;
     gpkg_name_visible := gpkg_name_visible u;
     _crs_forced_by_csv := _crs_forced_by_csv u; controls := controls u |}.

Definition with_transform_checked (b : bool) (u : ui) : ui :=
  {| format := format u; transform_checked := b;
     transform_enabled := transform_enabled u; crs_enabled := crs_enabled u;
     delimiter_enabled := delimiter_enabled u; delimiter_visible := delimiter_visible u;
     delimiter_index := delimiter_index u; layername_label := layername_label u;
     layername_placeholder := layername_placeholder u;
     layername_enabled := layername_enabled u; single_checked := single_checked u;
     single_enabled := single_enabled u; single_visible := single_visible u;
     gpkg_name_visible := gpkg_name_visible u;
     _crs_forced_by_csv := _crs_forced_by_csv u; controls := controls u |}.

Definition with_transform_enabled (b : bool) (u : ui) : ui :=
  {| format := format u; transform_checked := transform_checked u;
     transform_enabled := b; crs_enabled := crs_enabled u;
     delimiter_enabled := delimiter_enabled u; delimiter_visible := delimiter_visible u;
     delimiter_index := delimiter_index u; layername_label := layername_label u;
     layername_placeholder := layername_placeholder u;
     layername_enabled := layername_enabled u; single_checked := single_checked u;
     single_enabled := single_enabled u; single_visible := single_visible u;
     gpkg_name_visible := gpkg_name_visible u;
     _crs_forced_by_csv := _crs_forced_by_csv u; controls := controls u |}.

Definition with_crs_enabled (b : bool) (u : ui) : ui :=
  {| format := format u; transform_checked := transform_checked u;
     transform_enabled := transform_enabled u; crs_enabled := b;
     delimiter_enabled := delimiter_enabled u; delimiter_visible := delimiter_visible u;
     delimiter_index := delimiter_index u; layername_label := layername_label u;
     layername_placeholder := layername_placeholder u;
     layername_enabled := layername_enabled u; single_checked := single_checked u;
     single_enabled := single_enabled u; single_visible := single_visible u;
     gpkg_name_visible := gpkg_name_visible u;
     _crs_forced_by_csv := _crs_forced_by_csv u; controls := controls u |}.

Definition with_delimiter (enabled visible : bool) (index : Z) (u : ui) : ui :=
  {| format := format u; transform_checked := transform_checked u;
     transform_enabled := transform_enabled u; crs_enabled := crs_enabled u;
     delimiter_enabled := enabled; delimiter_visible := visible;
     delimiter_index := index; layername_label := layername_label u;
     layername_placeholder := layername_placeholder u;
     layername_enabled := layername_enabled u; single_checked := single_checked u;
     single_enabled := single_enabled u; single_visible := single_visible u;
     gpkg_name_visible := gpkg_name_visible u;
     _crs_forced_by_csv := _crs_forced_by_csv u; controls := controls u |}.

Definition with_layername (label placeholder : string) (enabled : bool) (u : ui) : ui :=
  {| format := format u; transform_checked := transform_checked u;
     transform_enabled := transform_enabled u; crs_enabled := crs_enabled u;
     delimiter_enabled := delimiter_enabled u; delimiter_visible := delimiter_visible u;
     delimiter_index := delimiter_index u; layername_label := label;
     layername_placeholder := placeholder;
     layername_enabled := enabled; single_checked := single_checked u;
     single_enabled := single_enabled u; single_visible := single_visible u;
     gpkg_name_visible := gpkg_name_visible u;
     _crs_forced_by_csv := _crs_forced_by_csv u; controls := controls u |}.

Definition with_single (checked enabled visible : bool) (u : ui) : ui :=
  {| format := format u; transform_checked := transform_checked u;
     transform_enabled := transform_enabled u; crs_enabled := crs_enabled u;
     delimiter_enabled := delimiter_enabled u; delimiter_visible := delimiter_visible u;
     delimiter_index := delimiter_index u; layername_label := layername_label u;
     layername_placeholder := layername_placeholder u;
     layername_enabled := layername_enabled u; single_checked := checked;
     single_enabled := enabled; single_visible := visible;
     gpkg_name_visible := gpkg_name_visible u;
     _crs_forced_by_csv := _crs_forced_by_csv u; controls := controls u |}.

Definition with_gpkg_name_visible (b : bool) (u : ui) : ui :=
  {| format := format u; transform_checked := transform_checked u;
     transform_enabled := transform_enabled u; crs_enabled := crs_enabled u;
     delimiter_enabled := delimiter_enabled u; delimiter_visible := delimiter_visible u;
     delimiter_index := delimiter_index u; layername_label := layername_label u;
     layername_placeholder := layername_placeholder u;
     layername_enabled := layername_enabled u; single_checked := single_checked u;
     single_enabled := single_enabled u; single_visible := single_visible u;
     gpkg_name_visible := b;
     _crs_forced_by_csv := _crs_forced_by_csv u; controls := controls u |}.

Definition with_forced (b : bool) (u : ui) : ui :=
  {| format := format u; transform_checked := transform_checked u;
     transform_enabled := transform_enabled u; crs_enabled := crs_enabled u;
     delimiter_enabled := delimiter_enabled u; delimiter_visible := delimiter_visible u;
     delimiter_index := delimiter_index u; layername_label := layername_label u;
     layername_placeholder := layername_placeholder u;
     layername_enabled := layername_enabled u; single_checked := single_checked u;
     single_enabled := single_enabled u; single_visible := single_visible u;
     gpkg_name_visible := gpkg_name_visible u;
     _crs_forced_by_csv := b; controls := controls u |}.

Definition with_controls (b : bool) (u : ui) : ui :=
  {| format := format u; transform_checked := transform_checked u;
     transform_enabled := transform_enabled u; crs_enabled := crs_enabled u;
     delimiter_enabled := delimiter_enabled u; delimiter_visible := delimiter_visible u;
     delimiter_index := delimiter_index u; layername_label := layername_label u;
     layername_placeholder := layername_placeholder u;
     layername_enabled := layername_enabled u; single_checked := single_checked u;
     single_enabled := single_enabled u; single_visible := single_visible u;
     gpkg_name_visible := gpkg_name_visible u;
     _crs_forced_by_csv := _crs_forced_by_csv u; controls := b |}.

(** [toggle_crs_widget(state)]; [checked] is [state == Qt.Checked]. *)
Definition toggle_crs_widget (checked : bool) (u : ui) : ui :=
  with_crs_enabled checked u.

(** [bctransformcrs.setChecked(b)]: the box emits [stateChanged], which
    the constructor connects to [toggle_crs_widget], when its state
    changes. *)
Definition set_transform_checked (b : bool) (u : ui) : ui :=
  if Bool.eqb (transform_checked u) b then u
  else toggle_crs_widget b (with_transform_checked b u).

(** [_singlefile_toggled(checked)] *)
Definition _singlefile_toggled (checked : bool) (u : ui) : ui :=
  if checked then
    with_gpkg_name_visible true
      (with_layername "Nome layer interni (opzionale):" (layername_placeholder u)
         (layername_enabled u) u)
  else
    with_gpkg_name_visible false
      (with_layername "Nome file di output (opzionale):" (layername_placeholder u)
         (layername_enabled u) u).

(** [bcsinglefile.setChecked(b)]: the box emits [toggled], which the
    constructor connects to [_singlefile_toggled], when its state changes. *)
Definition set_single_checked (b : bool) (u : ui) : ui :=
  if Bool.eqb (single_checked u) b then u
  else _singlefile_toggled b
         (with_single b (single_enabled u) (single_visible u) u).

(** [update_ui_for_format()] *)
Definition update_ui_for_format (u : ui) : ui :=
  let current_format := format u in
  let is_csv := String.eqb current_format "CSV" in
  let u := with_delimiter is_csv (delimiter_visible u) (delimiter_index u) u in
  let u :=
    if is_csv then
      let u := if transform_checked u then set_transform_checked false u else u in
      let u := with_transform_enabled false u in
      let u := with_crs_enabled false u in
      let u := with_forced true u in
      with_delimiter (delimiter_enabled u) true (delimiter_index u) u
    else
      let u := with_transform_enabled true u in
      let u := if _crs_forced_by_csv u then set_transform_checked true u else u in
      let u := with_crs_enabled (transform_checked u) u in
      let u := with_forced false u in
      with_delimiter (delimiter_enabled u) false (delimiter_index u) u in
  let u := with_layername "Nome file di output (opzionale):"
             "Lascia vuoto per usare il nome originale" true u in
  let is_gpkg := String.eqb current_format "GeoPackage" in
  let u := with_single (single_checked u) is_gpkg (single_visible u) u in
  let u := set_single_checked is_gpkg u in
  let u := with_single (single_checked u) (single_enabled u) is_gpkg u in
  with_delimiter (delimiter_enabled u) (delimiter_visible u) 3 u.

(** [toggle_controls(enable)] *)
Definition toggle_controls (enable : bool) (u : ui) : ui :=
  let u := with_controls enable u in
  let is_csv := String.eqb (format u) "CSV" in
  let u := with_transform_enabled (enable && negb is_csv) u in
  let u :=
    if enable && negb is_csv then toggle_crs_widget (transform_checked u) u
    else with_crs_enabled false u in
  let u := with_delimiter (enable && is_csv) (delimiter_visible u) (delimiter_index u) u in
  let u :=
    if enable then toggle_crs_widget (transform_checked u) u
    else with_crs_enabled false u in
  with_single (single_checked u) (enable && String.eqb (format u) "GeoPackage")
    (single_visible u) u.

(** The user picks another format: [currentIndexChanged] is connected to
    [update_ui_for_format]. *)
Definition select_format (f : string) (u : ui) : ui :=
  update_ui_for_format (with_format f u).

(** The user clicks the box of the transformation, which reacts when it
    is enabled. *)
Definition click_transform (u : ui) : ui :=
  if transform_enabled u then set_transform_checked (negb (transform_checked u)) u else u.

(** The user clicks the box of the single GeoPackage. *)
Definition click_single (u : ui) : ui :=
  if single_enabled u then set_single_checked (negb (single_checked u)) u else u.

(** The state of the option widgets while the tool waits for the user:
    each is enabled as the format asks, the widget of the reference system
    follows its box, and the box is clear for CSV. *)
Definition settled (u : ui) : Prop :=
  let is_csv := String.eqb (format u) "CSV" in
  controls u = true /\
  transform_enabled u = negb is_csv /\
  crs_enabled u = transform_checked u /\
  (is_csv = true -> transform_checked u = false) /\
  delimiter_enabled u = is_csv /\
  single_enabled u = String.eqb (format u) "GeoPackage".

(** The widgets as the form could open. *)
Definition opening : ui :=
  {| format := "GeoJSON"; transform_checked := false;
     transform_enabled := true; crs_enabled := false;
     delimiter_enabled := false; delimiter_visible := false;
     delimiter_index := 3; layername_label := "Nome file di output (opzionale):";
     layername_placeholder := "Lascia vuoto per usare il nome originale";
     layername_enabled := true; single_checked := false;
     single_enabled := false; single_visible := false;
     gpkg_name_visible := false;
     _crs_forced_by_csv := false; controls := true |}.

(** *** The table of files *)

(** The rows of the selected items, each once, in the order met. *)
Definition selected_rows (items : list nat) : list nat :=
  foldl (fun rows row => if bool_decide (row ∈ rows) then rows else rows ++ [row]) [] items.

(** [sorted(selected_rows, reverse=True)] *)
Definition sorted_reverse (rows : list nat) : list nat :=
  merge_sort (flip Nat.le) rows.

(** [remove_selected_files()], on the rows of the table and the rows of
    the selected items: the table, and the text of the count label. *)
Definition remove_selected_files {A} (table : list A) (items : list nat)
  : list A * string :=
  let table := foldl (fun table row => delete row table) table
                 (sorted_reverse (selected_rows items)) in
  (table, "File da convertire: " +:+ pretty (length table)).

(** The rows of a table that are not among [rows], numbered from [k]. *)
Fixpoint rows_left {A} (k : nat) (rows : list nat) (table : list A) : list A :=
  match table with
  | [] => []
  | x :: rest =>
      if bool_decide (k ∈ rows) then rows_left (S k) rows rest
      else x :: rows_left (S k) rows rest
  end.

End ConverterUi.

(** ** Layer loader: the counters of a run *)

Module LoaderMoreDefs.
Import LayerLoader.

Section Counts.
Context `{ProjectHost}.

(** The two counters of [load_layers] hold the same numbers in both states. *)
Definition same_counts (s s' : state) : Prop :=
  loaded_count s' = loaded_count s /\ total_files s' = total_files s.

(** The text of the closing dialog of a run that loaded nothing. *)
Definition nothing_loaded (total : nat) : message_box :=
  {| box_icon := Warning; box_title := "Attenzione";
     box_text := "Nessun layer caricato su " +:+ pretty total +:+ " file trovati." +:+ nl +:+
                 "Verifica i filtri applicati e i formati selezionati." |}.

(** The dates and the temporary directories that the run asks for are
    given by the host. *)
Definition answered (d : dialog) (f : file) : Prop :=
  (llcheckdate d = true -> exists b, recent (info f) = Ret b) /\
  (llchecknest d = true -> exists temp, temp_dir f = Ret temp).

End Counts.

(** A project that lists the layers loaded into it. *)
Module Listing.

#[export] Instance listing_project : ProjectHost := {|
  Project := list string;
  find_group := fun p parent name => None;
  add_group := fun p parent name => (p, 0%nat);
  add_layer := fun p group path => Ret (p ++ [path]);
  prune := fun p => Ret p
|}.

(** A folder of two shapefiles; the second is gone when its date is read. *)
Definition shapefile (name : string) (date : outcome bool) : file :=
  {| info := {| file_path := "/data/" +:+ name +:+ ".shp"; file_name := name +:+ ".shp";
                layer_name := name; ext := ".shp";
                recent := date;
                opened := Ret {| valid := true; valid_sheet := false; valid_driver := false;
                                 is_vector := true; geometryType := 1 |} |};
     temp_dir := Ret "/tmp/tmpab12";
     extraction := Ret [] |}.

Definition folder : source :=
  {| isfile := false; isdir := true; source_file := shapefile "" (Ret true);
     folder_name := "data";
     walk := [ {| rel_parts := [];
                  files := [shapefile "roads" (Ret true);
                            shapefile "rivers" (Raise "No such file or directory")] |} ] |}.

(** A file of the folder by its name and extension. *)
Definition shapefile_named (name extension : string) : file :=
  {| info := {| file_path := "/data/" +:+ name; file_name := name;
                layer_name := name; ext := extension;
                recent := Ret true;
                opened := Raise "not a layer" |};
     temp_dir := Ret "/tmp/tmpab12";
     extraction := Ret [] |}.

Definition dated_dialog : dialog :=
  {| llsource := "/data";
     llshp := true; llgml := false; llgpkg := false; lltif := false;
     llxslx := false; lldbf := false;
     llchecktext := false; lltext := "";
     llcheckdate := true;
     llcheckgeom := false; llgeom := "any";
     llcheckgroup := false;
     llchecknest := false |}.

Definition undated_dialog : dialog :=
  {| llsource := "/data";
     llshp := true; llgml := false; llgpkg := false; lltif := false;
     llxslx := false; lldbf := false;
     llchecktext := false; lltext := "";
     llcheckdate := false;
     llcheckgeom := false; llgeom := "any";
     llcheckgroup := false;
     llchecknest := false |}.

End Listing.

End LoaderMoreDefs.

(** ** Layer loader: the removal of the empty groups *)

Module LayerTree.

(** A node of the layer tree: a layer, or a group with its children. *)
#[local] Unset Elimination Schemes.
Inductive node :=
| Layer (name : string)
| Group (name : string) (children : list node).
#[local] Set Elimination Schemes.

(** [len(child.children()) == 0] for a group *)
Definition is_empty_group (n : node) : bool :=
  match n with
  | Group _ [] => true
  | _ => false
  end.

(** The loop [for child in children] of [clean_empty_groups], given the
    function for the recursive call: the flag, and the children that stay. *)
Definition clean_children (clean : node -> bool * node)
  : list node -> bool * list node :=
  fix loop children :=
    match children with
    | [] => (false, [])
    | child :: rest =>
        let '(removed_here, kept) :=
          match child with
          | Layer _ => (false, [child])
          | Group _ _ =>
              let '(removed, child') := clean child in
              if is_empty_group child' then (true, []) else (removed, [child'])
          end in
        let '(removed_rest, rest') := loop rest in
        (removed_here || removed_rest, kept ++ rest')
    end.

(** [clean_empty_groups(parent)]: the flag it returns, and the node as the
    call leaves it. *)
Fixpoint clean_empty_groups (parent : node) : bool * node :=
  match parent with
  | Layer name => (false, Layer name)
  | Group name children =>
      let '(removed, children') := clean_children clean_empty_groups children in
      (removed, Group name children')
  end.

(** [remove_empty_groups()] on the root of the tree: the [while] loop, for
    at most [fuel] passes. *)
Fixpoint remove_empty_groups (fuel : nat) (root : node) : option node :=
  match fuel with
  | O => None
  | S fuel =>
      let '(removed, root') := clean_empty_groups root in
      if removed then remove_empty_groups fuel root' else Some root'
  end.

(** The layers of a tree, from top to bottom. *)
Fixpoint layers (n : node) : list string :=
  match n with
  | Layer name => [name]
  | Group _ children => concat (map layers children)
  end.

(** No group below the node is empty. *)
Fixpoint tidy (n : node) : bool :=
  match n with
  | Layer _ => true
  | Group _ children => forallb (fun c => negb (is_empty_group c) && tidy c) children
  end.

(** The node is a group. *)
Definition is_group (n : node) : bool :=
  match n with
  | Layer _ => false
  | Group _ _ => true
  end.

(** Induction on a tree, with the property at hand for every child of a
    group. *)
Definition node_induction (P : node -> Prop)
    (HL : forall name, P (Layer name))
    (HG : forall name children, Forall P children -> P (Group name children))
  : forall n, P n :=
  fix F n :=
    match n with
    | Layer name => HL name
    | Group name children =>
        HG name children
          ((fix G cs : Forall P cs :=
              match cs with
              | [] => @List.Forall_nil node P
              | c :: cs' => @List.Forall_cons node P c cs' (F c) (G cs')
              end) children)
    end.

(** The child is not an empty group and holds none. *)
Definition below (c : node) : bool := negb (is_empty_group c) && tidy c.

(** What one call does to a node. *)
Definition cleaned (n : node) : Prop :=
  let '(removed, n') := clean_empty_groups n in
  layers n' = layers n /\
  tidy n' = true /\
  (removed = false <-> tidy n = true) /\
  (tidy n = true -> n' = n) /\
  (is_group n' = is_group n).

End LayerTree.

(** * Properties *)

Module PyFacts.

Lemma str_drop_0 s : str_drop 0 s = s.
Proof. by destruct s. Qed.

Lemma str_bool_false s : str_bool s = false -> s = "".
Proof. by destruct s. Qed.

Lemma str_bool_len s : str_bool s = (0 <? len s).
Proof. unfold len. destruct s; simpl; [done|]. symmetry. apply Z.ltb_lt. lia. Qed.

Lemma replace_go_empty old new k : replace_go old new k "" = "".
Proof. done. Qed.

Lemma app_empty_r s : s +:+ "" = s.
Proof.
  induction s as [|c s IH]; [done|].
  change (String c (s +:+ "") = String c s). by rewrite IH.
Qed.

(** A [try] with a handler that returns, followed by a [finally] that
    returns, returns: no exception of the body leaves the statement. *)
Lemma guarded_returns {S} (body : M S unit) (handler : string -> M S unit)
    (fin : M S unit) (s : S) :
  (forall e s0, fst (handler e s0) = Ret tt) ->
  (forall s0, fst (fin s0) = Ret tt) ->
  fst (m_finally (m_try body handler) fin s) = Ret tt.
Proof.
  intros Hh Hf. unfold m_finally, m_try.
  destruct (body s) as [[[]|e] s1].
  - specialize (Hf s1). by destruct (fin s1) as [[[]|?] ?].
  - specialize (Hh e s1). destruct (handler e s1) as [[[]|?] s2]; [|done].
    specialize (Hf s2). by destruct (fin s2) as [[[]|?] ?].
Qed.

(** The state it leaves is the one the [finally] clause leaves. *)
Lemma guarded_state {S} (body : M S unit) (handler : string -> M S unit)
    (fin : M S unit) (s : S) :
  snd (m_finally (m_try body handler) fin s)
  = snd (fin (snd (m_try body handler s))).
Proof.
  unfold m_finally. destruct (m_try body handler s) as [r s1]. simpl.
  by destruct (fin s1) as [[?|?] ?].
Qed.

Lemma try_raised {S} (body : M S unit) (handler : string -> M S unit) s e s1 :
  body s = (Raise e, s1) -> m_try body handler s = handler e s1.
Proof. intros Hb. unfold m_try. by rewrite Hb. Qed.

Section Steps.
Context {S : Type} (R : S -> S -> Prop) `{!Reflexive R} `{!Transitive R}.

Lemma steps_ret {A} (a : A) : steps R (m_ret a : M S A).
Proof. intros s. simpl. reflexivity. Qed.

Lemma steps_lift {A} (o : outcome A) : steps R (m_lift o : M S A).
Proof. intros s. simpl. reflexivity. Qed.

Lemma steps_raise {A} e : steps R (m_raise e : M S A).
Proof. intros s. simpl. reflexivity. Qed.

Lemma steps_get : steps R (m_get : M S S).
Proof. intros s. simpl. reflexivity. Qed.

Lemma steps_modify (f : S -> S) : (forall s, R s (f s)) -> steps R (m_modify f).
Proof. intros Hf s. apply Hf. Qed.

Lemma steps_bind {A B} (m : M S A) (k : A -> M S B) :
  steps R m -> (forall a, steps R (k a)) -> steps R (m_bind m k).
Proof.
  intros Hm Hk s. unfold m_bind. specialize (Hm s).
  destruct (m s) as [[a|e] s1]; simpl in *; [|done].
  etransitivity; [exact Hm|apply Hk].
Qed.

Lemma steps_try {A} (m : M S A) (h : string -> M S A) :
  steps R m -> (forall e, steps R (h e)) -> steps R (m_try m h).
Proof.
  intros Hm Hh s. unfold m_try. specialize (Hm s).
  destruct (m s) as [[a|e] s1]; simpl in *; [done|].
  etransitivity; [exact Hm|apply Hh].
Qed.

Lemma steps_finally {A} (m : M S A) (f : M S unit) :
  steps R m -> steps R f -> steps R (m_finally m f).
Proof.
  intros Hm Hf s. unfold m_finally. specialize (Hm s).
  destruct (m s) as [r s1]. specialize (Hf s1).
  destruct (f s1) as [[?|?] s2]; simpl in *; by etransitivity.
Qed.

Lemma steps_for {A X} (xs : list X) (acc : A) (body : A -> X -> M S A) :
  (forall a x, steps R (body a x)) -> steps R (m_for xs acc body).
Proof.
  intros Hb. revert acc. induction xs as [|x xs IH]; intros acc; simpl.
  - apply steps_ret.
  - apply steps_bind; [apply Hb|apply IH].
Qed.

End Steps.

Section Blind.
Context {S : Type} (R : S -> S -> Prop).

Lemma blind_ret {A} (a : A) : blind R (m_ret a : M S A).
Proof. by intros s s' HR. Qed.

Lemma blind_lift {A} (o : outcome A) : blind R (m_lift o : M S A).
Proof. by intros s s' HR. Qed.

Lemma blind_raise {A} e : blind R (m_raise e : M S A).
Proof. by intros s s' HR. Qed.

Lemma blind_modify (f : S -> S) :
  (forall s s', R s s' -> R (f s) (f s')) -> blind R (m_modify f).
Proof. intros Hf s s' HR. split; [done|by apply Hf]. Qed.

Lemma blind_bind {A B} (m : M S A) (k : A -> M S B) :
  blind R m -> (forall a, blind R (k a)) -> blind R (m_bind m k).
Proof.
  intros Hm Hk s s' HR. unfold m_bind. destruct (Hm s s' HR) as [Ho Hs].
  destruct (m s) as [[a|e] s1], (m s') as [[a'|e'] s1']; simpl in *;
    try discriminate.
  - injection Ho as <-. by apply Hk.
  - by injection Ho as <-.
Qed.

(** A continuation may read the state, as long as what it does with
    related states agrees. *)
Lemma blind_get_bind {B} (k : S -> M S B) :
  (forall s1 s1', R s1 s1' -> agree R (k s1) (k s1')) -> blind R (m_bind m_get k).
Proof. intros Hk s s' HR. unfold m_bind, m_get. by apply Hk. Qed.

Lemma blind_try {A} (m : M S A) (h : string -> M S A) :
  blind R m -> (forall e, blind R (h e)) -> blind R (m_try m h).
Proof.
  intros Hm Hh s s' HR. unfold m_try. destruct (Hm s s' HR) as [Ho Hs].
  destruct (m s) as [[a|e] s1], (m s') as [[a'|e'] s1']; simpl in *;
    try discriminate; [done|].
  injection Ho as <-. by apply Hh.
Qed.

Lemma blind_finally {A} (m : M S A) (f : M S unit) :
  blind R m -> blind R f -> blind R (m_finally m f).
Proof.
  intros Hm Hf s s' HR. unfold m_finally. destruct (Hm s s' HR) as [Ho Hs].
  destruct (m s) as [r s1], (m s') as [r' s1']; simpl in *. subst r'.
  destruct (Hf s1 s1' Hs) as [Ho' Hs'].
  destruct (f s1) as [[[]|e] s2], (f s1') as [[[]|e'] s2']; simpl in *;
    try discriminate; [done|].
  by injection Ho' as <-.
Qed.

Lemma blind_for {A X} (xs : list X) (acc : A) (body : A -> X -> M S A) :
  (forall a x, blind R (body a x)) -> blind R (m_for xs acc body).
Proof.
  intros Hb. revert acc. induction xs as [|x xs IH]; intros acc; simpl.
  - apply blind_ret.
  - apply blind_bind; [apply Hb|apply IH].
Qed.

End Blind.

Lemma str_in_refl e : str_in e e = true.
Proof.
  assert (String.prefix e e = true) as Hp by (induction e as [|c e IH]; simpl;
    [done|]; destruct (ascii_dec c c); [done|congruence]).
  destruct e; simpl in *; [done|]. by rewrite Hp.
Qed.

Lemma str_in_after p e t : str_in e t = true -> str_in e (p +:+ t) = true.
Proof.
  intros Ht. induction p as [|c p IH]; [done|].
  change (String c p +:+ t) with (String c (p +:+ t)).
  simpl. rewrite IH. apply orb_true_r.
Qed.

Lemma str_in_app_r p e : str_in e (p +:+ e) = true.
Proof. apply str_in_after, str_in_refl. Qed.

End PyFacts.

Import PyFacts.

(** ** Layer renamer *)

Module RenamerFacts.
Import LayerRenamer.

Lemma str_take_length s : str_take (String.length s) s = s.
Proof. induction s as [|c s IH]; simpl; [done|]. by rewrite IH. Qed.

Lemma len_nonneg s : 0 <= len s.
Proof. unfold len. lia. Qed.

Lemma len_0_empty s : len s <= 0 -> s = "".
Proof. unfold len. destruct s; simpl; [done|lia]. Qed.

(** The guarded removal on the left is the removal rule of the text. *)
Lemma remove_left_spec n s :
  (if 0 <? n then if n <? len s then slice_from n s else "" else s)
  = spec_remove_left n s.
Proof.
  unfold spec_remove_left, slice_from, slice_index.
  pose proof (len_nonneg s) as Hl.
  destruct (Z.ltb_spec 0 n) as [Hn|Hn].
  - destruct (Z.ltb_spec n (len s)) as [H1|H1];
      destruct (Z.leb_spec (len s) n) as [H2|H2]; try lia; [|done].
    destruct (Z.ltb_spec n 0); [lia|]. by rewrite Z.min_l by lia.
  - destruct (Z.leb_spec (len s) n) as [H2|H2].
    + rewrite (len_0_empty s); [done|lia].
    + replace (Z.to_nat n) with O by lia. by rewrite str_drop_0.
Qed.

(** The guarded removal on the right, likewise. *)
Lemma remove_right_spec n s :
  (if (0 <? n) && str_bool s
   then if n <? len s then slice_to (- n) s else ""
   else s)
  = spec_remove_right n s.
Proof.
  unfold spec_remove_right, slice_to, slice_index.
  pose proof (len_nonneg s) as Hl.
  destruct (Z.ltb_spec 0 n) as [Hn|Hn]; simpl.
  - destruct (str_bool s) eqn:Hs.
    + destruct (Z.ltb_spec n (len s)) as [H1|H1];
        destruct (Z.leb_spec (len s) n) as [H2|H2]; try lia; [|done].
      destruct (Z.ltb_spec (- n) 0); [|lia].
      f_equal. unfold len in *. lia.
    + apply str_bool_false in Hs. subst s. by destruct (Z.leb_spec (len "") n).
  - destruct (Z.leb_spec (len s) n) as [H2|H2].
    + rewrite (len_0_empty s); [done|lia].
    + replace (Z.to_nat n) with O by lia.
      by rewrite Nat.sub_0_r, str_take_length.
Qed.

Lemma replace_spec search repl s :
  (if str_bool search && str_bool s then replace s search repl else s)
  = spec_replace_all search repl s.
Proof.
  unfold spec_replace_all, replace.
  destruct (str_bool search); simpl; [|done].
  destruct (str_bool s) eqn:Hs; [done|].
  apply str_bool_false in Hs. by subst s.
Qed.

Lemma prefix_spec pre s : (if str_bool pre then pre +:+ s else s) = pre +:+ s.
Proof. by destruct pre. Qed.

Lemma suffix_spec suf s : (if str_bool suf then s +:+ suf else s) = s +:+ suf.
Proof. destruct suf; simpl; [by rewrite app_empty_r|done]. Qed.

Lemma compute_new_name_spec p old_name :
  compute_new_name p old_name = spec_new_name p old_name.
Proof.
  unfold compute_new_name, spec_new_name. cbv zeta.
  by rewrite remove_left_spec, remove_right_spec, replace_spec,
    prefix_spec, suffix_spec.
Qed.

Example order_left_then_right :
  compute_new_name
    {| prefix := "p_"; suffix := "_s"; search_text := "a"; replace_text := "pp";
       remove_left := 1; remove_right := 2 |} "xabcaYZ" = "p_ppbcpp_s".
Proof. reflexivity. Qed.

Example emptied_by_removal :
  compute_new_name
    {| prefix := ""; suffix := ""; search_text := ""; replace_text := "";
       remove_left := 3; remove_right := 0 |} "abc" = "".
Proof. reflexivity. Qed.



End RenamerFacts.

(** ** Feature excluder: the analysis *)

Module ExcluderFacts.
Import FeatureExcluder.

Section Loops.
Context `{Host}.

(** *** The store *)

Lemma extends_refl h : extends h h.
Proof. by split. Qed.

Lemma extends_trans h1 h2 h3 : extends h1 h2 -> extends h2 h3 -> extends h1 h3.
Proof.
  intros [Hn1 Hc1] [Hn2 Hc2]. split; [lia|].
  intros r Hr. rewrite Hc2 by lia. by apply Hc1.
Qed.

(** The transformed copy is a new object: the store it leaves extends the
    old one, and the object it returns holds the metric value. *)
Lemma to_metric_spec need layer_crs h geom h1 geom1 :
  to_metric need layer_crs h geom = (h1, geom1) ->
  extends h h1 /\
  cells h1 geom1 = (if need then transform layer_crs metric_crs (cells h geom)
                    else cells h geom) /\
  ((geom < next h)%nat -> (geom1 < next h1)%nat).
Proof.
  unfold to_metric, copy_geometry, transform_in_place.
  destruct need; intros [= <- <-]; simpl.
  - split; [split; [simpl; lia|]|split].
    + intros r Hr. simpl.
      rewrite !fn_lookup_insert_ne by lia. done.
    + by rewrite !fn_lookup_insert.
    + lia.
  - split; [apply extends_refl|]. by split.
Qed.

Lemma need_transform_checked c layer_crs g :
  check_geometry c = true ->
  (if need_transform c layer_crs
   then transform layer_crs metric_crs g
   else g) = compared_value layer_crs g.
Proof.
  intros Hc. unfold need_transform, compared_value. rewrite Hc. simpl.
  by destruct (String.eqb (authid layer_crs) "EPSG:32632").
Qed.

(** *** The loop over the comparison layer *)

Lemma match_step_features c match_crs st f :
  match_features (match_step c match_crs st f) =
    match keyed c (match_field_name c) f with
    | Some k => <[k := fid f]> (match_features st)
    | None => match_features st
    end.
Proof.
  unfold match_step, keyed.
  destruct (fattrs f !! match_field_name c) as [v|]; simpl; [|done].
  destruct (check_geometry c && usable _); [|done].
  by destruct (to_metric _ _ _ _).
Qed.

Lemma match_step_extends c match_crs st f :
  extends (heap st) (heap (match_step c match_crs st f)).
Proof.
  unfold match_step.
  destruct (fattrs f !! match_field_name c) as [v|]; [|apply extends_refl].
  destruct (check_geometry c && usable _); [|apply extends_refl].
  destruct (to_metric _ _ _ _) as [h1 g1] eqn:Htm. simpl.
  by apply to_metric_spec in Htm as [? _].
Qed.

Lemma match_loop_extends c match_crs l st :
  extends (heap st) (heap (foldl (match_step c match_crs) st l)).
Proof.
  revert st. induction l as [|f l IH]; intros st; simpl; [apply extends_refl|].
  eapply extends_trans; [apply match_step_extends|apply IH].
Qed.

(** A key that no feature of [l] carries keeps its entry. *)
Lemma match_loop_other_keys c match_crs l st k :
  (forall g, g ∈ l -> keyed c (match_field_name c) g <> Some k) ->
  match_features (foldl (match_step c match_crs) st l) !! k = match_features st !! k.
Proof.
  revert st. induction l as [|f l IH]; intros st Hl; simpl; [done|].
  rewrite IH by (intros g Hg; apply Hl; by right).
  rewrite match_step_features.
  destruct (keyed c (match_field_name c) f) as [k'|] eqn:Hk; [|done].
  apply lookup_insert_ne. intros ->. by apply (Hl f); [left|].
Qed.

(** Every entry of the lookup was there before or comes from a feature with
    that key and that id. *)
Lemma match_loop_origin c match_crs l st k id :
  match_features (foldl (match_step c match_crs) st l) !! k = Some id ->
  match_features st !! k = Some id \/
  exists g, g ∈ l /\ keyed c (match_field_name c) g = Some k /\ fid g = id.
Proof.
  revert st. induction l as [|f l IH]; intros st; simpl; [by left|].
  intros Hl. apply IH in Hl as [Hl|(g & Hg & Hk & Hid)].
  - rewrite match_step_features in Hl.
    destruct (keyed c (match_field_name c) f) as [k'|] eqn:Hk; [|by left].
    destruct (decide (k' = k)) as [->|Hne].
    + rewrite lookup_insert_eq in Hl. injection Hl as <-.
      right. exists f. split; [left|done].
    + rewrite lookup_insert_ne in Hl by done. by left.
  - right. exists g. split; [by right|done].
Qed.

(** Two features of a layer with one id are one feature. *)
Lemma same_id_same_feature (l : list feature) f g :
  NoDup (fid <$> l) -> f ∈ l -> g ∈ l -> fid f = fid g -> f = g.
Proof.
  intros Hnd [i Hi]%list_elem_of_lookup [j Hj]%list_elem_of_lookup Hid.
  assert (i = j) as ->.
  { eapply NoDup_lookup; [exact Hnd| |].
    - by rewrite list_lookup_fmap, Hi.
    - by rewrite list_lookup_fmap, Hj, Hid. }
  congruence.
Qed.

Lemma match_step_geometries c match_crs h l st f :
  check_geometry c = true ->
  extends h (heap st) -> (fgeom f < next h)%nat ->
  geometries_ok c match_crs h l st ->
  geometries_ok c match_crs h (l ++ [f]) (match_step c match_crs st f).
Proof.
  intros Hc Hext Hf Hok.
  assert (forall st', match_geometries st' = match_geometries st ->
            extends (heap st) (heap st') ->
            geometries_ok c match_crs h (l ++ [f]) st') as Hkeep.
  { intros st' Hmg [Hn Hcells] id r Hr. rewrite Hmg in Hr.
    destruct (Hok id r Hr) as (Hlt & g & Hg & Hid & Hv & Hu & Hval).
    split; [lia|]. exists g. rewrite Hcells by done.
    repeat split; try done. apply elem_of_app. by left. }
  unfold match_step.
  destruct (fattrs f !! match_field_name c) as [v|] eqn:Hv;
    [|apply Hkeep; [done|apply extends_refl]].
  rewrite Hc. simpl.
  destruct (usable (cells (heap st) (fgeom f))) eqn:Hu;
    [|apply Hkeep; [done|apply extends_refl]].
  destruct (to_metric _ _ _ _) as [h1 g1] eqn:Htm.
  apply to_metric_spec in Htm as (Hext1 & Hval1 & Hlt1).
  rewrite need_transform_checked in Hval1 by done.
  destruct Hext as [Hn0 Hc0]. rewrite Hc0 in Hval1, Hu by done.
  intros id r. simpl. destruct (decide (fid f = id)) as [<-|Hne].
  - rewrite lookup_insert_eq. intros [= <-].
    split; [apply Hlt1; lia|].
    exists f. split; [apply elem_of_app; right; by left|].
    split; [done|]. split; [by rewrite Hv|]. by split.
  - rewrite lookup_insert_ne by done. intros Hr.
    destruct (Hok id r Hr) as (Hlt & g & Hg & Hid & Hgv & Hgu & Hval).
    destruct Hext1 as [Hn1 Hc1].
    split; [lia|]. exists g. rewrite Hc1 by done.
    repeat split; try done. apply elem_of_app. by left.
Qed.

Lemma match_loop_geometries c match_crs h l2 l1 st :
  check_geometry c = true ->
  extends h (heap st) ->
  Forall (fun f => (fgeom f < next h)%nat) l2 ->
  geometries_ok c match_crs h l1 st ->
  geometries_ok c match_crs h (l1 ++ l2) (foldl (match_step c match_crs) st l2).
Proof.
  intros Hc. revert l1 st.
  induction l2 as [|f l2 IH]; intros l1 st Hext Hwf Hok; simpl.
  - by rewrite app_nil_r.
  - apply Forall_cons in Hwf as [Hf Hwf].
    replace (l1 ++ f :: l2) with ((l1 ++ [f]) ++ l2) by by rewrite <- app_assoc.
    apply IH; [|done|by apply match_step_geometries].
    eapply extends_trans; [exact Hext|apply match_step_extends].
Qed.

Lemma build_match_geometries c match_layer h :
  check_geometry c = true ->
  wf_layer h match_layer ->
  geometries_ok c (crs match_layer) h (features match_layer)
    (build_match c match_layer h).
Proof.
  intros Hc Hwf. unfold build_match.
  apply (match_loop_geometries c (crs match_layer) h (features match_layer) []);
    [done|apply extends_refl|done|].
  intros id r. simpl. by rewrite lookup_empty.
Qed.

Lemma build_match_extends c match_layer h :
  extends h (heap (build_match c match_layer h)).
Proof. apply (match_loop_extends c (crs match_layer) _ (initial_state h)). Qed.

(** The first loop proposes nothing for deletion. *)
Lemma build_match_no_deletion c match_layer h :
  features_to_delete (build_match c match_layer h) = [].
Proof.
  unfold build_match.
  assert (features_to_delete (initial_state h) = []) as H0 by done.
  revert H0. generalize (initial_state h) as st0.
  induction (features match_layer) as [|f l IH]; intros st0 H0; simpl; [done|].
  apply IH. unfold match_step.
  destruct (fattrs f !! match_field_name c); [|done].
  destruct (check_geometry c && usable _); [|done].
  by destruct (to_metric _ _ _ _).
Qed.

(** Without the geometry comparison no geometry is kept. *)
Lemma build_match_unchecked c match_layer h :
  check_geometry c = false ->
  match_geometries (build_match c match_layer h) = ∅.
Proof.
  intros Hc. unfold build_match.
  assert (match_geometries (initial_state h) = ∅) as H0 by done.
  revert H0. generalize (initial_state h) as st0.
  induction (features match_layer) as [|f l IH]; intros st0 H0; simpl; [done|].
  apply IH. unfold match_step.
  destruct (fattrs f !! match_field_name c); [|done].
  by rewrite Hc.
Qed.

(** *** The loop over the source layer *)

Ltac grows := first [ by eexists | by (exists []; rewrite app_nil_r) ].

Lemma source_frame_refl st : source_frame st st.
Proof. unfold source_frame. split_and!; [done|done|apply extends_refl|grows|grows]. Qed.

Lemma source_frame_trans st1 st2 st3 :
  source_frame st1 st2 -> source_frame st2 st3 -> source_frame st1 st3.
Proof.
  intros (Hf1 & Hg1 & He1 & [d1 Hd1] & [x1 Hx1]) (Hf2 & Hg2 & He2 & [d2 Hd2] & [x2 Hx2]).
  split; [congruence|]. split; [congruence|].
  split; [by eapply extends_trans|].
  split.
  - exists (d1 ++ d2). by rewrite Hd2, Hd1, app_assoc.
  - exists (x1 ++ x2). by rewrite Hx2, Hx1, app_assoc.
Qed.

Lemma compare_with_frame c source_crs st s match_id :
  source_frame st (compare_with c source_crs st s match_id) /\
  features_to_delete (compare_with c source_crs st s match_id)
    = features_to_delete st ++ [fid s].
Proof.
  unfold compare_with, source_frame.
  destruct (check_geometry c && usable _); simpl.
  - destruct (to_metric _ _ _ _) as [h1 g1] eqn:Htm.
    apply to_metric_spec in Htm as (Hext & _ & _).
    destruct (match_geometries st !! match_id) as [mr|]; simpl.
    + destruct (geom_bool _ && is_different _ _ _); simpl;
        (split; [split_and!; [done|done|done|grows|grows]|done]).
    + split; [split_and!; [done|done|done|grows|grows]|done].
  - split; [split_and!; [done|done|apply extends_refl|grows|grows]|done].
Qed.

Lemma source_step_frame c source_crs st s :
  source_frame st (source_step c source_crs st s).
Proof.
  unfold source_step.
  destruct (fattrs s !! source_field_name c) as [v|]; [|apply source_frame_refl].
  destruct (match_features st !! join_key c v) as [mid|]; [|apply source_frame_refl].
  apply compare_with_frame.
Qed.

Lemma source_loop_frame c source_crs l st :
  source_frame st (foldl (source_step c source_crs) st l).
Proof.
  revert st. induction l as [|s l IH]; intros st; simpl; [apply source_frame_refl|].
  eapply source_frame_trans; [apply source_step_frame|apply IH].
Qed.

(** The verdict of a comparison that takes place, on the values of the two
    objects before the iteration. *)
Lemma compare_with_verdict c source_crs st s match_id mr :
  check_geometry c = true ->
  usable (cells (heap st) (fgeom s)) = true ->
  match_geometries st !! match_id = Some mr ->
  (mr < next (heap st))%nat ->
  features_with_different_geom (compare_with c source_crs st s match_id) =
    features_with_different_geom st ++
    (if geom_bool (cells (heap st) mr) &&
        is_different c (compared_value source_crs (cells (heap st) (fgeom s)))
          (cells (heap st) mr)
     then [fid s] else []).
Proof.
  intros Hc Hu Hmr Hlt. unfold compare_with. rewrite Hc, Hu, Hmr. simpl.
  destruct (to_metric _ _ _ _) as [h1 g1] eqn:Htm.
  apply to_metric_spec in Htm as ([Hn Hcells] & Hval & _).
  rewrite need_transform_checked in Hval by done.
  rewrite Hval, Hcells by done.
  destruct (geom_bool _ && is_different _ _ _); simpl; [done|].
  by rewrite app_nil_r.
Qed.

(** Every id proposed for deletion was proposed before the loop or belongs
    to a feature of the loop with a join value. *)
Lemma source_loop_deleted_origin c source_crs l st id :
  id ∈ features_to_delete (foldl (source_step c source_crs) st l) ->
  id ∈ features_to_delete st \/
  exists s, s ∈ l /\ fid s = id /\ is_Some (fattrs s !! source_field_name c).
Proof.
  revert st. induction l as [|s l IH]; intros st; simpl; [by left|].
  intros Hin. apply IH in Hin as [Hin|(s' & Hs' & Hid & Hv)].
  - unfold source_step in Hin.
    destruct (fattrs s !! source_field_name c) as [v|] eqn:Hv; [|by left].
    destruct (match_features st !! join_key c v) as [mid|]; [|by left].
    destruct (compare_with_frame c source_crs st s mid) as [_ Hd].
    rewrite Hd in Hin. apply elem_of_app in Hin as [Hin|Hin]; [by left|].
    apply list_elem_of_singleton in Hin as ->.
    right. exists s. split; [left|]. split; [done|]. by rewrite Hv.
  - right. exists s'. split; [by right|done].
Qed.

(** *** The verdict under a tolerance *)

Lemma is_different_intersects c sg mg :
  Qle_bool (tolerance c) 0 = false ->
  spatial_relation c = "intersects" ->
  is_different c sg mg =
    negb (intersects sg (buffer mg (tolerance c) 5) ||
          intersects mg (buffer sg (tolerance c) 5)).
Proof. intros Ht Hr. unfold is_different. by rewrite Ht, Hr. Qed.

Lemma is_different_contains c sg mg :
  Qle_bool (tolerance c) 0 = false ->
  spatial_relation c = "contains" ->
  is_different c sg mg = negb (contains (buffer sg (tolerance c) 5) mg).
Proof. intros Ht Hr. unfold is_different. by rewrite Ht, Hr. Qed.

Lemma positive_tolerance (t : Q) : (0 < t)%Q -> Qle_bool t 0 = false.
Proof.
  intros Hlt. destruct (Qle_bool t 0) eqn:Hle; [|done].
  apply Qle_bool_iff in Hle. by apply Qlt_not_le in Hlt.
Qed.

(** C1. With the geometry comparison enabled and a tolerance above 0, a
    matched pair of a source geometry and a kept comparison geometry is
    judged equal under "intersects" exactly when the source geometry
    intersects the buffered comparison geometry or the comparison geometry
    intersects the buffered source geometry, and under "contains" exactly
    when the buffered source geometry contains the comparison geometry; the
    id of a source feature whose pair is judged different is in the list of
    features with a different geometry. *)
Theorem c1_buffered_relation (d : dialog) (source_layer match_layer : layer)
    (h : store) (s : feature) (v : Attr) (mid : Z) (mr : nat) :
  let c := read_config d in
  let st := build_match c match_layer h in
  let sg := compared_value (crs source_layer) (cells h (fgeom s)) in
  let mg := cells (heap st) mr in
  efcheckgeom d = true -> (0 < eftoll d)%Q ->
  wf_layer h source_layer -> wf_layer h match_layer ->
  s ∈ features source_layer ->
  fattrs s !! source_field_name c = Some v ->
  match_features st !! join_key c v = Some mid ->
  usable (cells h (fgeom s)) = true ->
  match_geometries st !! mid = Some mr ->
  geom_bool mg = true ->
  (spatial_relation c = "intersects" ->
     (is_different c sg mg = false <->
      intersects sg (buffer mg (eftoll d) 5) = true \/
      intersects mg (buffer sg (eftoll d) 5) = true)) /\
  (spatial_relation c = "contains" ->
     (is_different c sg mg = false <->
      contains (buffer sg (eftoll d) 5) mg = true)) /\
  (is_different c sg mg = true ->
     fid s ∈ features_with_different_geom (analyse d source_layer match_layer h)).
Proof.
  intros c st sg mg Hcheck Htol Hwfs Hwfm Hs Hv Hmid Hu Hmr Hmg.
  assert (check_geometry c = true) as Hc by done.
  assert (tolerance c = eftoll d) as Htc by (unfold c; simpl; by rewrite Hcheck).
  assert (Qle_bool (tolerance c) 0 = false) as Ht
    by (rewrite Htc; by apply positive_tolerance).
  split; [|split].
  - intros Hr. rewrite is_different_intersects, Htc by done.
    rewrite negb_false_iff, orb_true_iff. done.
  - intros Hr. rewrite is_different_contains, Htc by done.
    by rewrite negb_false_iff.
  - intros Hdiff.
    apply list_elem_of_split in Hs as (l1 & l2 & Hl).
    unfold analyse, scan_source. fold c. fold st. rewrite Hl, foldl_app. simpl.
    set (st1 := foldl (source_step c (crs source_layer)) st l1).
    destruct (source_loop_frame c (crs source_layer) l1 st)
      as (Hf1 & Hg1 & [Hn1 Hc1] & _ & _). fold st1 in Hf1, Hg1, Hn1, Hc1.
    destruct (build_match_extends c match_layer h) as [Hn0 Hc0].
    fold st in Hn0, Hc0.
    destruct (build_match_geometries c match_layer h Hc Hwfm mid mr Hmr)
      as [Hlt _]. fold st in Hlt.
    assert ((fgeom s < next h)%nat) as Hfs.
    { unfold wf_layer in Hwfs. rewrite Hl in Hwfs.
      apply Forall_app in Hwfs as [_ Hwfs]. by apply Forall_cons in Hwfs as [? _]. }
    assert (cells (heap st1) (fgeom s) = cells h (fgeom s)) as Hcs.
    { rewrite Hc1 by lia. by apply Hc0. }
    assert (source_step c (crs source_layer) st1 s
            = compare_with c (crs source_layer) st1 s mid) as ->.
    { unfold source_step. by rewrite Hv, Hf1, Hmid. }
    destruct (source_loop_frame c (crs source_layer) l2
                (compare_with c (crs source_layer) st1 s mid))
      as (_ & _ & _ & _ & [tl ->]).
    rewrite (compare_with_verdict c (crs source_layer) st1 s mid mr);
      [|done|by rewrite Hcs|by rewrite Hg1|lia].
    rewrite Hcs, Hc1 by done. fold sg. fold mg. rewrite Hmg, Hdiff. simpl.
    apply elem_of_app. left. apply elem_of_app. right. by left.
Qed.

(** C2. With the geometry comparison enabled, the geometries kept for the
    comparison layer and the source geometry of every comparison hold the
    value transformed to EPSG:32632 when the CRS of their layer is another
    one and the untransformed value when it is EPSG:32632, and every
    geometry object that existed before the analysis, those of the two
    layers among them, has the value it had. *)
Theorem c2_metric_comparison (d : dialog) (source_layer match_layer : layer) (h : store) :
  let c := read_config d in
  let st := build_match c match_layer h in
  efcheckgeom d = true ->
  wf_layer h source_layer -> wf_layer h match_layer ->
  (forall mid mr, match_geometries st !! mid = Some mr ->
     exists f, f ∈ features match_layer /\ fid f = mid /\
       cells (heap st) mr = compared_value (crs match_layer) (cells h (fgeom f))) /\
  (forall l1 s l2 mid mr,
     features source_layer = l1 ++ s :: l2 ->
     usable (cells h (fgeom s)) = true ->
     match_geometries st !! mid = Some mr ->
     let st1 := foldl (source_step c (crs source_layer)) st l1 in
     features_with_different_geom (compare_with c (crs source_layer) st1 s mid) =
       features_with_different_geom st1 ++
       (if geom_bool (cells (heap st) mr) &&
           is_different c (compared_value (crs source_layer) (cells h (fgeom s)))
             (cells (heap st) mr)
        then [fid s] else [])) /\
  (forall r, (r < next h)%nat ->
     cells (heap (analyse d source_layer match_layer h)) r = cells h r) /\
  (forall layer_crs g,
     compared_value layer_crs g =
       if String.eqb (authid layer_crs) "EPSG:32632" then g
       else transform layer_crs metric_crs g).
Proof.
  intros c st Hcheck Hwfs Hwfm.
  assert (check_geometry c = true) as Hc by done.
  destruct (build_match_extends c match_layer h) as [Hn0 Hc0]. fold st in Hn0, Hc0.
  split_and!; [| | |done].
  - intros mid mr Hmr.
    destruct (build_match_geometries c match_layer h Hc Hwfm mid mr Hmr)
      as (_ & f & Hf & Hid & _ & _ & Hval).
    by exists f.
  - intros l1 s l2 mid mr Hl Hu Hmr st1.
    destruct (source_loop_frame c (crs source_layer) l1 st)
      as (Hf1 & Hg1 & [Hn1 Hc1] & _ & _). fold st1 in Hf1, Hg1, Hn1, Hc1.
    destruct (build_match_geometries c match_layer h Hc Hwfm mid mr Hmr)
      as [Hlt _]. fold st in Hlt.
    assert ((fgeom s < next h)%nat) as Hfs.
    { unfold wf_layer in Hwfs. rewrite Hl in Hwfs.
      apply Forall_app in Hwfs as [_ Hwfs]. by apply Forall_cons in Hwfs as [? _]. }
    assert (cells (heap st1) (fgeom s) = cells h (fgeom s)) as Hcs.
    { rewrite Hc1 by lia. by apply Hc0. }
    rewrite (compare_with_verdict c (crs source_layer) st1 s mid mr);
      [|done|by rewrite Hcs|by rewrite Hg1|lia].
    by rewrite Hcs, Hc1.
  - intros r Hr. unfold analyse, scan_source. fold c. fold st.
    destruct (source_loop_frame c (crs source_layer) (features source_layer) st)
      as (_ & _ & [Hn1 Hc1] & _ & _).
    rewrite Hc1 by lia. by apply Hc0.
Qed.

(** C9. A feature of the comparison layer whose join value is NULL has no
    entry in the lookup, and a feature of the source layer whose join value
    is NULL is not in the list of features proposed for deletion. *)
Theorem c9_null_never_matches (d : dialog) (source_layer match_layer : layer) (h : store) :
  let c := read_config d in
  NoDup (fid <$> features match_layer) ->
  NoDup (fid <$> features source_layer) ->
  (forall f k, f ∈ features match_layer ->
     fattrs f !! match_field_name c = None ->
     match_features (build_match c match_layer h) !! k <> Some (fid f)) /\
  (forall s, s ∈ features source_layer ->
     fattrs s !! source_field_name c = None ->
     fid s ∉ features_to_delete (analyse d source_layer match_layer h)).
Proof.
  intros c Hndm Hnds. split.
  - intros f k Hf Hnull Hin. unfold build_match in Hin.
    apply match_loop_origin in Hin as [Hin|(g & Hg & Hk & Hid)].
    + simpl in Hin. by rewrite lookup_empty in Hin.
    + assert (g = f) as ->
        by by apply (same_id_same_feature (features match_layer)).
      unfold keyed in Hk. by rewrite Hnull in Hk.
  - intros s Hs Hnull Hin. unfold analyse, scan_source in Hin. fold c in Hin.
    apply source_loop_deleted_origin in Hin as [Hin|(s' & Hs' & Hid & Hv)].
    + rewrite build_match_no_deletion in Hin. by apply not_elem_of_nil in Hin.
    + assert (s' = s) as ->
        by by apply (same_id_same_feature (features source_layer)).
      rewrite Hnull in Hv. by destruct Hv.
Qed.


End Loops.

(** *** The theorems on the two layers of the line host *)

Import LineHost.

Lemma demo_wf_source : wf_layer demo_store demo_source.
Proof. unfold wf_layer. repeat constructor. Defined.

Lemma demo_wf_match : wf_layer demo_store demo_match.
Proof. unfold wf_layer. repeat constructor. Defined.

Lemma demo_nodup_match : NoDup (fid <$> features demo_match).
Proof. apply (bool_decide_unpack _). by vm_compute. Defined.

Lemma demo_nodup_source : NoDup (fid <$> features demo_source).
Proof. apply (bool_decide_unpack _). by vm_compute. Defined.

Lemma c1_buffered_relation_witness :
  10 ∈ features_with_different_geom (analyse demo_dialog demo_source demo_match demo_store).
Proof.
  refine (proj2 (proj2
    (c1_buffered_relation demo_dialog demo_source demo_match demo_store
       {| fid := 10; fattrs := {[ "id" := "A" ]}; fgeom := 3 |} "A" 2 5%nat
       _ _ _ _ _ _ _ _ _ _)) _).
  - reflexivity.
  - reflexivity.
  - exact demo_wf_source.
  - exact demo_wf_match.
  - left.
  - reflexivity.
  - by vm_compute.
  - reflexivity.
  - by vm_compute.
  - by vm_compute.
  - by vm_compute.
Defined.

Lemma c2_metric_comparison_witness :
  cells (heap (analyse demo_dialog demo_source demo_match demo_store)) 1%nat
  = Some (5, 6)%Q /\
  exists f, f ∈ features demo_match /\ fid f = 2 /\
    cells (heap (build_match (read_config demo_dialog) demo_match demo_store)) 5%nat
    = compared_value (crs demo_match) (cells demo_store (fgeom f)).
Proof.
  pose proof (c2_metric_comparison demo_dialog demo_source demo_match demo_store
                eq_refl demo_wf_source demo_wf_match) as (Hkept & _ & Hsame & _).
  split.
  - rewrite Hsame; [reflexivity|]. simpl. lia.
  - apply (Hkept 2 5%nat). by vm_compute.
Defined.

Lemma c9_null_never_matches_witness :
  match_features (build_match (read_config demo_dialog) demo_match demo_store) !! "a"
    <> Some 3 /\
  11 ∉ features_to_delete (analyse demo_dialog demo_source demo_match demo_store).
Proof.
  pose proof (c9_null_never_matches demo_dialog demo_source demo_match demo_store
                demo_nodup_match demo_nodup_source) as [Hm Hs].
  split.
  - apply (Hm {| fid := 3; fattrs := ∅; fgeom := 2 |} "a"); [|reflexivity].
    right. right. left.
  - apply (Hs {| fid := 11; fattrs := ∅; fgeom := 2 |}); [|reflexivity].
    right. left.
Defined.


End ExcluderFacts.

(** ** Batch converter *)

Module ConverterFacts.
Import BatchConverter.

Ltac run_monad :=
  cbv [mbind mret M_bind M_ret m_bind m_ret m_try m_lift m_modify m_raise
       m_finally m_get logMessage message_box_show toggle_controls
       update_file_status update_progress].

Lemma add_log_logs e s : add_log e s = add_logs [e] s.
Proof. done. Qed.

Lemma add_logs_logs l1 l2 s : add_logs l2 (add_logs l1 s) = add_logs (l1 ++ l2) s.
Proof. unfold add_logs. simpl. by rewrite app_assoc. Qed.

Lemma add_logs_nil s : add_logs [] s = s.
Proof. destruct s. unfold add_logs. simpl. by rewrite app_nil_r. Qed.

Lemma attempts_app l1 l2 : attempts (l1 ++ l2) = attempts l1 ++ attempts l2.
Proof. apply omap_app. Qed.

Lemma attempts_cons e l :
  attempts (e :: l) = option_list (attempt_of e) ++ attempts l.
Proof. unfold attempts. simpl. by destruct (attempt_of e). Qed.

Lemma attempts_nil : attempts [] = [].
Proof. done. Qed.

Lemma has_error_app l1 l2 : has_error (l1 ++ l2) = has_error l1 || has_error l2.
Proof. apply existsb_app. Qed.

Lemma has_error_cons e l :
  has_error (e :: l) = (log_level e =? 2)%nat || has_error l.
Proof. done. Qed.

(** Finds an entry of the error level in a log made of known entries and of
    logs of parts. *)
Ltac find_error :=
  intros;
  repeat first [rewrite has_error_app | rewrite has_error_cons];
  repeat match goal with
         | H : has_error ?n = true |- _ => rewrite H; clear H
         end;
  repeat match goal with
         | |- context [has_error ?n] => is_var n; destruct (has_error n)
         end;
  by vm_compute.

(** Counts the attempts of a log made of known entries and of the logs of
    the two runs of the external converter. *)
Ltac count_attempts :=
  repeat first [rewrite attempts_app | rewrite attempts_cons | rewrite attempts_nil];
  repeat match goal with H : attempts _ = [] |- _ => rewrite H; clear H end;
  by vm_compute.

(** The direct run of the external converter returns whether it produced
    the output file, announces no attempt and changes the log only. *)
Lemma direct_ogr_result d a i o s :
  exists new,
    _convert_to_mapinfo_with_ogr d a i o s = (Ret (ogr_ok a), add_logs new s) /\
    attempts new = [].
Proof.
  unfold _convert_to_mapinfo_with_ogr, ogr_ok. run_monad.
  destruct (popen a) as [[rc msg]|e]; simpl.
  - destruct (rc =? 0); simpl; rewrite !add_log_logs, ?add_logs_logs;
      by eexists.
  - rewrite !add_log_logs, ?add_logs_logs. by eexists.
Qed.

Lemma last_ogr_result d te a t o s :
  exists new,
    _convert_temp_geojson_to_mapinfo_with_ogr d te a t o s
      = (Ret (te && ogr_ok a), add_logs new s) /\
    attempts new = [].
Proof.
  unfold _convert_temp_geojson_to_mapinfo_with_ogr, ogr_ok. run_monad.
  destruct te; simpl; [|rewrite !add_log_logs; by eexists].
  destruct (popen a) as [[rc msg]|e]; simpl.
  - destruct (rc =? 0); simpl; rewrite !add_log_logs, ?add_logs_logs;
      [|by eexists].
    destruct (exists_after a); by eexists.
  - rewrite !add_log_logs, ?add_logs_logs. by eexists.
Qed.

Lemma save_from_geojson_result d a t o s :
  exists new,
    save_from_geojson d a t o s =
      (Ret (if geojson_rejected a then Some false
            else if saved_ok a then Some true else None), add_logs new s) /\
    attempts new = [] /\
    (geojson_rejected a = true \/ saved_ok a = false -> has_error new = true).
Proof.
  unfold save_from_geojson, geojson_rejected, saved_ok. run_monad.
  destruct (temp_layer_valid a) as [[|]|e]; simpl;
    [|rewrite !add_log_logs, ?add_logs_logs; eexists; (split; [done|]); by split..].
  destruct (reprojection d); simpl;
    (destruct (save_run a) as [[]|e]; simpl;
     [|rewrite !add_log_logs, ?add_logs_logs; eexists; (split; [done|]); by split]);
    (destruct (output_exists_after_save a); simpl;
     [|rewrite !add_log_logs, ?add_logs_logs; eexists; (split; [done|]); by split]);
    (destruct (temp_exists_after_save a); simpl;
     [|rewrite !add_log_logs, ?add_logs_logs; eexists; (split; [done|]);
       (split; [done|]); by intros [|]]);
    (destruct (temp_removed a) as [[]|e]; simpl;
     rewrite !add_log_logs, ?add_logs_logs; eexists; (split; [done|]);
     (split; [done|]); first [by intros [|] | done]).
Qed.

Lemma convert_to_mapinfo_result `{Os} (d : dialog) (a : mapinfo_answers)
    (input_file output_file : string) (s : state) :
  exists new,
    convert_to_mapinfo d a input_file output_file s =
      (Ret (mapinfo_ok a), add_logs new s) /\
    (mapinfo_ok a = false -> has_error new = true) /\
    attempts new =
      (if direct_ok a then [1]
       else if prepared a && negb (geojson_rejected a) && negb (saved_ok a)
               && temp_exists_before_last a
            then [1; 2; 3]
            else [1; 2])%nat.
Proof.
  unfold convert_to_mapinfo, convert_to_mapinfo_try, mapinfo_ok, direct_ok, prepared,
    last_ok.
  cbv zeta.
  generalize (replace input_file backslash "/") as i.
  generalize (replace output_file backslash "/") as o. intros o i.
  generalize (replace (path_join (path_dirname o) "temp_mapinfo_conversion.geojson")
                backslash "/") as t. intros t.
  run_monad.
  match goal with
  | |- context [_convert_to_mapinfo_with_ogr d ?x ?i ?o ?st] =>
      destruct (direct_ogr_result d x i o st) as (n1 & -> & H1)
  end.
  rewrite !add_log_logs, ?add_logs_logs.
  destruct (ogr_ok (ogr_direct a)); simpl.
  { rewrite !add_log_logs, ?add_logs_logs. eexists. split; [done|split; [find_error|]].
    count_attempts. }
  destruct (input_layer_valid a) as [[|]|e]; simpl;
    [|rewrite !add_log_logs, ?add_logs_logs; eexists; split; [done|split; [find_error|]];
      count_attempts..].
  destruct (sanitized a) as [[[|] count]|e]; simpl;
    [|rewrite !add_log_logs, ?add_logs_logs; eexists; split; [done|split; [find_error|]];
      count_attempts..].
  destruct (count =? 0); simpl.
  { destruct (written a) as [[??]|?];
      rewrite !add_log_logs, ?add_logs_logs; eexists; (split; [done|split; [find_error|]]);
      count_attempts. }
  destruct (written a) as [[code msg]|e]; simpl;
    [|rewrite !add_log_logs, ?add_logs_logs; eexists; split; [done|split; [find_error|]];
      count_attempts].
  destruct (code =? NoError); simpl;
    [|destruct msg; rewrite !add_log_logs, ?add_logs_logs; eexists;
      (split; [done|split; [find_error|]]); count_attempts].
  destruct (temp_exists_after_write a); simpl;
    [|rewrite !add_log_logs, ?add_logs_logs; eexists; split; [done|split; [find_error|]];
      count_attempts].
  match goal with
  | |- context [save_from_geojson d a ?t ?o ?st] =>
      destruct (save_from_geojson_result d a t o st) as (n2 & -> & H2 & H2e)
  end.
  rewrite !add_log_logs, ?add_logs_logs.
  destruct (geojson_rejected a); simpl.
  { pose proof (H2e (or_introl eq_refl)) as He2.
    eexists. split; [done|split; [find_error|]]. count_attempts. }
  destruct (saved_ok a); simpl.
  { eexists. split; [done|split; [find_error|]]. count_attempts. }
  assert (has_error n2 = true) as He2 by (apply H2e; by right).
  destruct (temp_exists_before_last a); simpl.
  - match goal with
    | |- context [_convert_temp_geojson_to_mapinfo_with_ogr d ?te ?x ?t ?o ?st] =>
        destruct (last_ogr_result d te x t o st) as (n3 & -> & H3)
    end.
    rewrite !add_log_logs, ?add_logs_logs.
    eexists. split; [done|split; [find_error|]]. count_attempts.
  - eexists. split; [done|split; [find_error|]]. count_attempts.
Qed.


(** *** One file *)

Lemma quiet_refl s : quiet s s.
Proof. by repeat split. Qed.

(** A file converted on its own: the call returns whether the file ends as
    converted, never raises and leaves the table and the dialogs alone; a
    failure leaves an error entry in the log unless it is a silent one. *)
Lemma convert_single_file_result `{Os} d a i o f s :
  exists s' new,
    convert_single_file d a i o f s = (Ret (single_ok d a f), s') /\
    quiet s s' /\
    log s' = log s ++ new /\
    (single_ok d a f = false ->
     has_error new = true \/
     (String.eqb f "MapInfo File" = false /\ output_exists a = false)).
Proof.
  unfold convert_single_file, single_ok. run_monad.
  destruct (String.eqb f "MapInfo File") eqn:Hf.
  - destruct (convert_to_mapinfo_result d (mapinfo a) i o s) as (new & -> & He & _).
    exists (add_logs new s), new. split_and!; try done. intros Hko. left. by apply He.
  - destruct (reprojection d); simpl.
    + destruct (run a) as [[]|e]; simpl.
      * exists s, []. rewrite app_nil_r. split_and!; try done. intros ->. by right.
      * destruct (String.eqb f "DXF" && str_in _ e); simpl;
          eexists _, [_]; split_and!; try done. intros _. by left.
    + destruct (String.eqb (upper f) "CSV"); simpl;
        (destruct (run a) as [[]|e]; simpl;
         [eexists _, []; rewrite app_nil_r; split_and!; try done; intros ->; by right|]);
        (destruct (String.eqb f "DXF" && str_in _ e); simpl;
         eexists _, [_]; split_and!; try done; intros _; by left).
Qed.

(** A file added to the single GeoPackage: the steps return the answer of
    the final look for the GeoPackage or raise, and change the log only. *)
Lemma add_to_package_result `{Os} d a row fp ln cb dd sp s :
  exists new r,
    add_to_package d a row fp ln cb dd sp s = (r, add_logs new s) /\
    match r with
    | Ret created => package_ran d a row = true /\ created = package_exists_after a
    | Raise _ => package_ran d a row = false
    end.
Proof.
  unfold add_to_package, package_ran. run_monad.
  destruct (layer_valid a); simpl; [|exists [], (Raise ("Layer non valido: " +:+ fp));
                                     by rewrite add_logs_nil].
  assert (forall (st : state) (P : Prop), P -> exists new : list log_entry,
            st = add_logs new st /\ P) as Hnil.
  { intros st P HP. exists []. by rewrite add_logs_nil. }
  destruct (reprojection d); simpl;
    (try (destruct (reprojected a) as [[]|e]; simpl;
          [|exists [], (Raise e); by rewrite add_logs_nil]));
    (destruct ((row =? 0)%nat || negb (package_exists_before a)); simpl;
     [destruct (saved a) as [[]|e]; simpl;
      [exists [], (Ret (package_exists_after a))|exists [], (Raise e)];
      by rewrite add_logs_nil|]);
    (destruct (temp_saved a) as [[]|e]; simpl;
     [|exists [], (Raise e); by rewrite add_logs_nil]);
    (destruct (appended a) as [[rc msg]|e]; simpl;
     [destruct (rc =? 0); simpl;
      [destruct (temp_deleted a) as [[]|e]; simpl;
       [eexists [_], (Ret (package_exists_after a)); by rewrite add_log_logs|]|]|]);
    (destruct (alternate_saved a) as [[]|e']; simpl;
     [destruct (temp_exists_after_failure a); simpl;
      [destruct (temp_deleted_after_failure a) as [[]|e'']; simpl|]|]);
    rewrite ?add_log_logs, ?add_logs_logs;
    eexists _, (Raise _); (split; [done|]); by repeat case_match.
Qed.

(** One row: the iteration never raises; it counts the row as converted or
    as failed, writes that and nothing else into the status cell of the
    row, and leaves the controls and the dialogs alone. A failed row leaves
    an error entry in the log unless it failed silently. *)
Lemma convert_row_result `{Os} d us dd sp fc sc ec row r s :
  exists s' new tip,
    convert_row d us dd sp fc (sc, ec) (row, r) s =
      (Ret (if row_ok d us row r then (S sc, ec) else (sc, S ec)), s') /\
    controls s' = controls s /\ dialogs s' = dialogs s /\
    statuses s' =
      <[row := (if row_ok d us row r then "Completato" else "Errore", tip)]> (statuses s) /\
    log s' = log s ++ new /\
    (row_ok d us row r = false ->
     has_error new = true \/ silent_failure d us r = true).
Proof.
  unfold convert_row, row_ok, silent_failure. run_monad. destruct us.
  - match goal with
    | |- context [add_to_package d ?a ?k ?fp ?ln ?cb ?x ?y ?st] =>
        destruct (add_to_package_result d a k fp ln cb x y st) as (new & res & -> & Hres)
    end.
    unfold package_ok. destruct res as [created|e]; simpl.
    + destruct Hres as [-> ->]. simpl.
      destruct (package_exists_after (package r)); simpl;
        eexists _, new, _; (split; [done|]); simpl;
        rewrite list_insert_insert_eq; split_and!; try done.
      intros _. by right.
    + rewrite Hres. simpl.
      eexists _, (new ++ [_]), _. split; [done|]. simpl.
      rewrite list_insert_insert_eq, app_assoc. split_and!; try done.
      intros _. left. rewrite has_error_app. simpl. apply orb_true_r.
  - match goal with
    | |- context [convert_single_file d ?a ?i ?o ?f ?st] =>
        destruct (convert_single_file_result d a i o f st)
          as (s1 & new & -> & (Hc & Hs & Hd) & Hl & He)
    end.
    simpl in Hc, Hs, Hd, Hl.
    destruct (single_ok d (single r) (bcoutputformat d)); simpl;
      eexists _, new, _; (split; [done|]); simpl;
      rewrite Hc, Hs, Hd, Hl, list_insert_insert_eq; split_and!; try done.
    intros _. destruct (He eq_refl) as [?|[-> ->]]; [by left|by right].
Qed.

Lemma count_ok_failed d us k table :
  (count_ok d us k table + count_failed d us k table = length table)%nat.
Proof.
  revert k. induction table as [|r rest IH]; intros k; simpl; [done|].
  specialize (IH (S k)). destruct (row_ok d us k r); lia.
Qed.

(** The loop over the rows numbered from [k]: it never raises, the counts
    grow by the rows that end as converted and as failed, every row has
    its final status in its own cell, and no other cell changes. *)
Lemma convert_loop_result `{Os} d us dd sp fc table :
  forall k sc ec s,
  exists s',
    m_for (enumerate k table) (sc, ec) (convert_row d us dd sp fc) s =
      (Ret (sc + count_ok d us k table, ec + count_failed d us k table)%nat, s') /\
    controls s' = controls s /\ dialogs s' = dialogs s /\
    length (statuses s') = length (statuses s) /\
    (forall i, (i < k \/ k + length table <= i)%nat ->
       statuses s' !! i = statuses s !! i) /\
    (forall i r, table !! i = Some r -> (k + i < length (statuses s))%nat ->
       exists tip,
         statuses s' !! (k + i)%nat =
           Some (if row_ok d us (k + i) r then "Completato" else "Errore", tip)).
Proof.
  induction table as [|r rest IH]; intros k sc ec s;
    cbn [enumerate m_for count_ok count_failed length].
  - exists s. rewrite !Nat.add_0_r. by split_and!.
  - unfold m_bind at 1.
    destruct (convert_row_result d us dd sp fc sc ec k r s)
      as (s1 & new & tip & -> & Hc1 & Hd1 & Hs1 & _ & _).
    set (c := if row_ok d us k r then (S sc, ec) else (sc, S ec)).
    destruct (IH (S k) (fst c) (snd c) s1)
      as (s2 & Hrun & Hc2 & Hd2 & Hlen2 & Hother2 & Hrows2).
    rewrite <- surjective_pairing in Hrun.
    exists s2. split_and!.
    + rewrite Hrun. unfold c. destruct (row_ok d us k r); simpl;
        by rewrite ?Nat.add_succ_r.
    + congruence.
    + congruence.
    + by rewrite Hlen2, Hs1, length_insert.
    + intros i Hi. rewrite Hother2 by lia. rewrite Hs1.
      apply list_lookup_insert_ne. lia.
    + intros [|i] r' Hr' Hlt; simpl in Hr'.
      * injection Hr' as <-. rewrite Nat.add_0_r in *.
        exists tip. rewrite Hother2 by lia. rewrite Hs1.
        by apply list_lookup_insert_eq.
      * replace (k + S i)%nat with (S k + i)%nat by lia.
        apply Hrows2; [done|]. rewrite Hs1, length_insert. lia.
Qed.

Lemma convert_rows_result `{Os} d us dd sp table s :
  exists s',
    convert_rows d us dd sp table s =
      (Ret (count_ok d us 0 table, count_failed d us 0 table), s') /\
    controls s' = controls s /\ dialogs s' = dialogs s /\
    (length (statuses s) = length table ->
     forall i r, table !! i = Some r ->
       exists tip,
         statuses s' !! i =
           Some (if row_ok d us i r then "Completato" else "Errore", tip)).
Proof.
  unfold convert_rows, numbered.
  destruct (convert_loop_result d us dd sp (length table) table 0%nat 0%nat 0%nat s)
    as (s' & Hrun & Hc & Hd & _ & _ & Hrows).
  exists s'. split_and!; try done.
  intros Hlen i r Hi. apply (Hrows i r Hi). simpl. rewrite Hlen.
  by apply lookup_lt_Some in Hi.
Qed.





End ConverterFacts.

(** ** The run actions and their handlers *)

Module ActionFacts.

Lemma surfaced_last e boxes icon title text :
  (icon = Warning \/ icon = Critical) ->
  str_in e text = true ->
  surfaced e (boxes ++ [{| box_icon := icon; box_title := title;
                           box_text := text |}]) = true.
Proof.
  intros Hi Ht. unfold surfaced. rewrite existsb_app. simpl.
  unfold shows_error. simpl. rewrite Ht.
  destruct Hi as [-> | ->]; simpl; apply orb_true_r.
Qed.

Lemma surfaced_more e boxes more :
  surfaced e boxes = true -> surfaced e (boxes ++ more) = true.
Proof. intros Hs. unfold surfaced in *. by rewrite existsb_app, Hs. Qed.

(** *** Batch converter *)

Section Batch.
Import BatchConverter.
Context `{Os}.

Lemma update_file_status_run row status error_message s :
  update_file_status row status error_message s =
    (Ret tt, set_statuses
               (<[row := (status, status_tooltip status error_message)]> (statuses s)) s).
Proof. done. Qed.

Lemma reset_statuses_returns rows s :
  exists s',
    m_for rows tt (fun _ row => update_file_status row "In attesa" "") s = (Ret tt, s') /\
    controls s' = controls s /\ dialogs s' = dialogs s.
Proof.
  revert s. induction rows as [|row rows IH]; intros s; cbn [m_for]; [by exists s|].
  unfold m_bind at 1. rewrite update_file_status_run.
  match goal with
  | |- context [m_for rows tt _ ?st] => destruct (IH st) as (s' & -> & Hc & Hd)
  end.
  by exists s'.
Qed.

Lemma start_conversion_except_returns e s :
  fst (start_conversion_except e s) = Ret tt.
Proof. done. Qed.

Lemma start_conversion_guarded_spec d ra us table s :
  fst (start_conversion_guarded d ra us table s) = Ret tt /\
  controls (snd (start_conversion_guarded d ra us table s)) = true /\
  (forall e s1,
     start_conversion_try d ra us table s = (Raise e, s1) ->
     surfaced e (dialogs (snd (start_conversion_guarded d ra us table s))) = true).
Proof.
  unfold start_conversion_guarded. split_and!.
  - apply guarded_returns; [apply start_conversion_except_returns|done].
  - by rewrite guarded_state.
  - intros e s1 Hb. rewrite guarded_state, (try_raised _ _ _ _ _ Hb).
    simpl. apply surfaced_last; [by right|apply str_in_app_r].
Qed.

Lemma start_conversion_guard d ra table s :
  fst (start_conversion d ra table s) = Ret tt /\
  (controls s = true -> controls (snd (start_conversion d ra table s)) = true).
Proof.
  unfold start_conversion.
  destruct (length table =? 0)%nat; [done|].
  destruct (negb (str_bool (bcdestpath d)) || negb (dest_isdir ra)); [done|].
  destruct (negb (str_bool (bcoutputformat d))); [done|].
  cbv [mbind M_bind m_bind message_box_show toggle_controls m_modify].
  destruct (confirmed ra); simpl; [|done].
  match goal with
  | |- context [m_for ?rows tt ?f ?st] =>
      destruct (reset_statuses_returns rows st) as (s1 & -> & Hc & Hd)
  end.
  split; [|intros _]; apply start_conversion_guarded_spec.
Qed.

End Batch.

(** *** Feature excluder *)

Section Excluder.
Import FeatureExcluder.
Context `{Host}.

Lemma exclude_features_except_returns e s :
  fst (exclude_features_except e s) = Ret tt.
Proof.
  unfold exclude_features_except.
  cbv [mbind M_bind m_bind message_box_show m_modify m_get mret M_ret m_ret].
  simpl. by destruct (editable s).
Qed.

Lemma exclude_features_guarded_spec d ra source_layer match_layer h s :
  fst (exclude_features_guarded d ra source_layer match_layer h s) = Ret tt /\
  controls (snd (exclude_features_guarded d ra source_layer match_layer h s)) = true /\
  (forall e s1,
     exclude_features_try d ra source_layer match_layer h s = (Raise e, s1) ->
     surfaced e
       (dialogs (snd (exclude_features_guarded d ra source_layer match_layer h s)))
     = true).
Proof.
  unfold exclude_features_guarded. split_and!.
  - apply guarded_returns; [apply exclude_features_except_returns|done].
  - by rewrite guarded_state.
  - intros e s1 Hb. rewrite guarded_state, (try_raised _ _ _ _ _ Hb).
    unfold exclude_features_except.
    cbv [mbind M_bind m_bind message_box_show toggle_controls m_modify m_get mret M_ret
         m_ret].
    simpl.
    destruct (editable s1); simpl;
      (apply surfaced_last; [by right|apply str_in_after, str_in_app_r]).
Qed.

Lemma exclude_features_guard d ra source_layer match_layer h s :
  fst (exclude_features d ra source_layer match_layer h s) = Ret tt /\
  (controls s = true ->
   controls (snd (exclude_features d ra source_layer match_layer h s)) = true).
Proof.
  unfold exclude_features.
  destruct (negb (layers_selected ra)); [done|].
  destruct (negb (str_bool (efjoindef d)) || negb (str_bool (efjoinmatch d))); [done|].
  cbv [mbind M_bind m_bind message_box_show toggle_controls m_modify mret M_ret m_ret].
  destruct (same_layer ra); simpl.
  - destruct (proceed_same ra); simpl; [|done].
    split; [|intros _]; apply exclude_features_guarded_spec.
  - split; [|intros _]; apply exclude_features_guarded_spec.
Qed.

End Excluder.

(** *** Layer loader *)

Section Loader.
Import LayerLoader.
Context `{ProjectHost}.

Lemma load_layers_finally_returns s :
  fst (load_layers_finally s) = Ret tt /\
  controls (snd (load_layers_finally s)) = true /\
  exists more, dialogs (snd (load_layers_finally s)) = dialogs s ++ more.
Proof.
  unfold load_layers_finally.
  cbv [mbind M_bind m_bind message_box_show toggle_controls m_modify m_get mret M_ret
       m_ret].
  simpl. destruct (0 <? loaded_count s)%nat; simpl; split_and!; try done; by eexists.
Qed.

Lemma load_layers_guarded_spec d src s :
  fst (load_layers_guarded d src s) = Ret tt /\
  controls (snd (load_layers_guarded d src s)) = true /\
  (forall e s1,
     load_layers_try d src s = (Raise e, s1) ->
     surfaced e (dialogs (snd (load_layers_guarded d src s))) = true).
Proof.
  unfold load_layers_guarded. split_and!.
  - apply guarded_returns; [done|]. intros s0. apply load_layers_finally_returns.
  - rewrite guarded_state. apply load_layers_finally_returns.
  - intros e s1 Hb. rewrite guarded_state, (try_raised _ _ _ _ _ Hb).
    destruct (load_layers_finally_returns (snd (load_layers_except e s1)))
      as (_ & _ & more & ->).
    apply surfaced_more. simpl. apply surfaced_last; [by left|apply str_in_app_r].
Qed.

Lemma load_layers_guard d src s :
  fst (load_layers d src s) = Ret tt /\
  (controls s = true -> controls (snd (load_layers d src s)) = true).
Proof.
  unfold load_layers.
  destruct (negb (str_bool (llsource d))); [done|].
  destruct (negb _); [done|].
  cbv [mbind M_bind m_bind toggle_controls m_modify].
  split; [|intros _]; apply load_layers_guarded_spec.
Qed.

End Loader.

(** *** Layer renamer *)

Lemma rename_step_alive p st l :
  LayerRenamer.is_alive (LayerRenamer.layers st) l = true ->
  exists st',
    LayerRenamer.rename_step p st l = Ret st' /\
    forall l', LayerRenamer.is_alive (LayerRenamer.layers st) l' = true ->
               LayerRenamer.is_alive (LayerRenamer.layers st') l' = true.
Proof.
  unfold LayerRenamer.is_alive, LayerRenamer.rename_step, LayerRenamer.layer_name,
    LayerRenamer.layer_setName.
  intros Hl. destruct (LayerRenamer.layers st !! l) as [[n|]|] eqn:Hn; try done.
  simpl. destruct (negb _); simpl.
  - by eexists.
  - eexists. split; [done|]. simpl. intros l' Hl'.
    destruct (decide (l' = l)) as [->|Hne].
    + by rewrite lookup_insert_eq.
    + by rewrite lookup_insert_ne.
Qed.

Lemma rename_loop_alive p selected st :
  forallb (LayerRenamer.is_alive (LayerRenamer.layers st)) selected = true ->
  exists st', LayerRenamer.rename_loop p selected st = (Ret tt, st').
Proof.
  revert st. induction selected as [|l rest IH]; intros st Hall; simpl.
  - by eexists.
  - apply andb_true_iff in Hall as [Hl Hrest].
    destruct (rename_step_alive p st l Hl) as (st' & -> & Hkeep).
    apply IH. apply forallb_forall. intros l' Hin.
    apply Hkeep. by eapply forallb_forall in Hrest.
Qed.

(** With no stale layer among the selected ones the action returns, and it
    leaves the controls enabled if they were. *)
Lemma rename_layers_alive p ra selected s :
  forallb (LayerRenamer.is_alive (LayerRenamer.project s)) selected = true ->
  fst (LayerRenamer.rename_layers p ra selected s) = Ret tt /\
  (LayerRenamer.controls s = true ->
   LayerRenamer.controls (snd (LayerRenamer.rename_layers p ra selected s)) = true).
Proof.
  intros Hall. unfold LayerRenamer.rename_layers.
  destruct selected as [|l rest]; [done|].
  destruct (negb _); [done|].
  cbv [mbind M_bind m_bind mret M_ret m_ret LayerRenamer.message_box_show
       LayerRenamer.toggle_controls m_modify LayerRenamer.rename_selected].
  destruct (rename_loop_alive p (l :: rest)
              {| LayerRenamer.layers := LayerRenamer.project s;
                 LayerRenamer.renamed_layers := [];
                 LayerRenamer.error_layers := [] |} Hall) as (st' & Hloop).
  destruct (_ && _); simpl;
    [destruct (LayerRenamer.proceed_without_replacement ra); [|done]|];
    (destruct (LayerRenamer.confirmed ra); [|done]);
    simpl; simpl in Hloop; by rewrite Hloop.
Qed.




End ActionFacts.

(** ** Layer loader: the set of created groups *)

Module LoaderFacts.
Import LayerLoader.

Section Groups.
Context `{ProjectHost}.

#[local] Instance same_groups_refl : Reflexive same_groups.
Proof. by intros s. Qed.

#[local] Instance same_groups_trans : Transitive same_groups.
Proof. unfold same_groups. intros s1 s2 s3 H12 H23. congruence. Qed.

#[local] Instance more_groups_refl : Reflexive more_groups.
Proof. intros s. unfold more_groups. set_solver. Qed.

#[local] Instance more_groups_trans : Transitive more_groups.
Proof. unfold more_groups. intros s1 s2 s3 H12 H23. set_solver. Qed.

Lemma same_more {A} (m : M state A) : steps same_groups m -> steps more_groups m.
Proof. intros Hm s. unfold more_groups. by rewrite (Hm s). Qed.

(** Follows the text of a function: every statement keeps the relation. *)
Ltac keeps :=
  intros ?; first [done | unfold more_groups, same_groups; simpl; set_solver].

Ltac walk :=
  cbv [mbind M_bind mret M_ret print message_box_show toggle_controls];
  repeat first
    [ apply steps_ret; apply _
    | apply steps_lift; apply _
    | apply steps_raise; apply _
    | apply steps_get; apply _
    | apply steps_modify; keeps
    | apply steps_bind; [apply _| |intros ?]
    | apply steps_try; [apply _| |intros ?]
    | apply steps_finally; [apply _| |]
    | apply steps_for; [apply _|apply _|intros ? ?]
    | match goal with
      | |- steps _ (if ?b then _ else _) => destruct b
      | |- steps _ (match ?x with _ => _ end) => destruct x
      | |- steps _ (let '(_, _) := ?x in _) => destruct x
      | H : _ |- _ => apply H
      end ].

Lemma remove_empty_groups_same : steps same_groups remove_empty_groups.
Proof. unfold remove_empty_groups. walk. Qed.

Lemma check_date_filter_same d f : steps same_groups (check_date_filter d f).
Proof. unfold check_date_filter. walk. Qed.

Lemma found_files_same d fs : steps same_groups (found_files d fs).
Proof.
  induction fs as [|f fs IH]; simpl; [walk|].
  pose proof (check_date_filter_same d f). walk.
Qed.

Lemma load_found_same d g f : steps same_groups (load_found d g f).
Proof. unfold load_found. walk. Qed.

Lemma add_tracked_group_more parent name :
  steps more_groups (add_tracked_group parent name).
Proof.
  intros s. unfold add_tracked_group, more_groups.
  cbv [mbind M_bind m_bind m_get m_modify mret M_ret m_ret].
  destruct (add_group (project s) parent name) as [p g]. simpl. set_solver.
Qed.

Lemma add_tracked_group_adds parent name s :
  created_groups (snd (add_tracked_group parent name s))
  = {[ snd (add_group (project s) parent name) ]} ∪ created_groups s.
Proof.
  unfold add_tracked_group.
  cbv [mbind M_bind m_bind m_get m_modify mret M_ret m_ret].
  by destruct (add_group (project s) parent name) as [p g].
Qed.

Lemma process_compressed_file_more d f parent :
  steps more_groups (process_compressed_file d f parent).
Proof.
  unfold process_compressed_file.
  pose proof (add_tracked_group_more parent (file_name (info f))).
  assert (forall g x, steps more_groups (load_found d g x)) as Hload
    by (intros; apply same_more, load_found_same).
  cbv [mbind M_bind mret M_ret print message_box_show toggle_controls].
  apply steps_bind; [apply _|apply steps_modify; keeps|intros _].
  apply steps_bind; [apply _|apply steps_lift; apply _|intros temp].
  apply steps_bind; [apply _|apply steps_modify; keeps|intros _].
  apply steps_bind; [apply _| |intros _; walk].
  apply steps_try; [apply _| |intros e; walk].
  destruct (_ || _); [|walk].
  apply steps_bind; [apply _|apply steps_lift; apply _|intros extracted].
  apply steps_bind; [apply _| |intros archive_group].
  { destruct (llcheckgroup d); walk. }
  apply steps_bind; [apply _|apply same_more, found_files_same|intros found].
  apply steps_bind; [apply _| |intros _; walk].
  apply steps_for; [apply _|apply _|]. intros _ x. apply Hload.
Qed.

(** Loading a single layer empties the set, however the loading ends. *)
Lemma load_layer_resets d f g s :
  created_groups (snd (load_layer d f g s)) = ∅.
Proof.
  unfold load_layer, m_try.
  cbv [mbind M_bind]. unfold m_bind at 1. unfold m_modify at 1.
  set (s0 := set_created_groups ∅ s).
  match goal with
  | |- context [(if ?c then ?body else ?other) s0] =>
      assert (steps same_groups (if c then body else other)) as Hrest
  end.
  { pose proof remove_empty_groups_same. walk. }
  specialize (Hrest s0). unfold same_groups in Hrest.
  match goal with
  | |- context [(if ?c then ?body else ?other) s0] =>
      destruct ((if c then body else other) s0) as [[b|e] s1]
  end; simpl in *; by rewrite Hrest.
Qed.

(** A run on an archive loses none of the groups the set held. *)
Lemma load_layers_archive_keeps d src s :
  isfile src = true -> is_archive (llsource d) = true ->
  created_groups s ⊆ created_groups (snd (load_layers d src s)).
Proof.
  intros Hfile Harch.
  assert (steps more_groups (load_layers d src)) as Hsteps; [|apply Hsteps].
  unfold load_layers, load_layers_guarded, load_layers_try, load_layers_except,
    load_layers_finally.
  rewrite Hfile, Harch.
  pose proof (process_compressed_file_more d (source_file src) None).
  pose proof (same_more _ remove_empty_groups_same).
  walk.
Qed.

(** *** No function of the loader reads the set *)

Ltac respects :=
  intros ? ? (? & ? & ? & ? & ? & ? & ?); unfold alike; simpl; split_and!; congruence.

(** After a read of the state, the two runs go on with the same text. *)
Ltac same_text HR :=
  let Hp := fresh in let Hl := fresh in let Ht := fresh in let Ha := fresh in
  pose proof HR as (_ & _ & _ & Hp & Hl & Ht & Ha);
  cbv beta; rewrite <- ?Hp, <- ?Hl, <- ?Ht, <- ?Ha; clear Hp Hl Ht Ha HR;
  match goal with |- agree ?R ?m _ => change (blind R m) end.

Ltac blindly :=
  cbv [mbind M_bind mret M_ret print message_box_show toggle_controls];
  repeat match goal with
    | |- blind _ (m_ret _) => apply blind_ret
    | |- blind _ (m_lift _) => apply blind_lift
    | |- blind _ (m_raise _) => apply blind_raise
    | |- blind _ (m_modify _) => apply blind_modify; respects
    | |- blind _ (m_bind m_get _) =>
        apply blind_get_bind;
        let s1 := fresh "s" in let s2 := fresh "s" in let HR := fresh "HR" in
        intros s1 s2 HR; same_text HR
    | |- blind _ (m_bind _ _) => apply blind_bind; [|intros ?]
    | |- blind _ (m_try _ _) => apply blind_try; [|intros ?]
    | |- blind _ (m_finally _ _) => apply blind_finally
    | |- blind _ (m_for _ _ _) => apply blind_for; intros ? ?
    | |- blind _ (if ?b then _ else _) => destruct b
    | |- blind _ (match ?x with _ => _ end) => destruct x
    | |- blind _ (let '(_, _) := ?x in _) => destruct x
    | H : _ |- blind _ _ => apply H
    end.

Lemma remove_empty_groups_blind : blind alike remove_empty_groups.
Proof. unfold remove_empty_groups. blindly. Qed.

Lemma check_date_filter_blind d f : blind alike (check_date_filter d f).
Proof. unfold check_date_filter. blindly. Qed.

Lemma add_tracked_group_blind parent name :
  blind alike (add_tracked_group parent name).
Proof. unfold add_tracked_group. blindly. Qed.

Lemma create_layer_group_blind d folder : blind alike (create_layer_group d folder).
Proof.
  unfold create_layer_group.
  pose proof (add_tracked_group_blind None folder). blindly.
Qed.

Lemma load_layer_blind d f g : blind alike (load_layer d f g).
Proof. unfold load_layer. pose proof remove_empty_groups_blind. blindly. Qed.

Lemma found_files_blind d fs : blind alike (found_files d fs).
Proof.
  induction fs as [|f fs IH]; simpl; [blindly|].
  pose proof (check_date_filter_blind d f). blindly.
Qed.

Lemma load_found_blind d g f : blind alike (load_found d g f).
Proof. unfold load_found. blindly. Qed.

Lemma process_compressed_file_blind d f parent :
  blind alike (process_compressed_file d f parent).
Proof.
  unfold process_compressed_file.
  pose proof (add_tracked_group_blind parent (file_name (info f))).
  pose proof (found_files_blind d).
  pose proof (load_found_blind d).
  blindly.
Qed.

Lemma nested_group_blind parts g : blind alike (nested_group g parts).
Proof.
  revert g. induction parts as [|part rest IH]; intros g; simpl; [blindly|].
  destruct g as [g|]; [|apply IH].
  pose proof (add_tracked_group_blind (Some g) part). blindly.
Qed.

Lemma process_file_blind d g counts f : blind alike (process_file d g counts f).
Proof.
  unfold process_file. destruct counts as [loaded total].
  pose proof (process_compressed_file_blind d f g).
  pose proof (check_date_filter_blind d (info f)).
  pose proof (load_layer_blind d (info f) g).
  blindly.
Qed.

Lemma process_files_blind d src : blind alike (process_files d src).
Proof.
  unfold process_files.
  pose proof (create_layer_group_blind d (folder_name src)).
  pose proof nested_group_blind.
  pose proof (process_file_blind d).
  blindly.
Qed.

(** A run of the loader does not depend on what the set holds: from two
    states that differ in the set only, it ends with the same outcome and
    in states that differ in the set only. *)
Lemma load_layers_blind d src : blind alike (load_layers d src).
Proof.
  unfold load_layers, load_layers_guarded, load_layers_try, load_layers_except,
    load_layers_finally.
  pose proof (process_compressed_file_blind d (source_file src) None).
  pose proof (check_date_filter_blind d (info (source_file src))).
  pose proof (load_layer_blind d (info (source_file src)) None).
  pose proof (process_files_blind d src).
  pose proof remove_empty_groups_blind.
  blindly.
Qed.


End Groups.

Import ListProject.



End LoaderFacts.

(** ** Overlaps counter *)

Module CounterFacts.
Import OverlapsCounter.

(** Takes the next answer of the host apart. *)
Ltac next_call :=
  match goal with
  | |- context [match run ?a ?p with _ => _ end] => destruct (run a p) eqn:?
  | |- context [if isCanceled ?n then _ else _] => destruct (isCanceled n) eqn:?
  end.

(** Closes a case against hosts that always return and never cancel. *)
Ltac host_disagrees Hret Hnc :=
  match goal with
  | Heq : run ?a ?p = Raise _ |- _ =>
      destruct (Hret a p) as [? Hx]; rewrite Hx in Heq; discriminate
  | Heq : isCanceled ?n = true |- _ => rewrite Hnc in Heq; discriminate
  end.


Import Demo.


End CounterFacts.

(** ** Strings *)

Module StringFacts.

Lemma prefix_cons c1 s1 c2 s2 :
  String.prefix (String c1 s1) (String c2 s2)
  = if ascii_dec c1 c2 then String.prefix s1 s2 else false.
Proof. done. Qed.

Lemma prefix_empty s : String.prefix "" s = true.
Proof. by destruct s. Qed.

End StringFacts.

(** ** Layer renamer: the new name and the run *)

Module RenamerMore.
Import LayerRenamer RenamerFacts RenamerMoreDefs.

Lemma str_bool_app a b : str_bool (a +:+ b) = str_bool a || str_bool b.
Proof. by destruct a. Qed.

Lemma str_drop_length k s : (String.length (str_drop k s) = String.length s - k)%nat.
Proof.
  revert s. induction k as [|k IH]; intros [|c s]; simpl; try lia. apply IH.
Qed.

Lemma str_take_empty k : str_take k "" = "".
Proof. by destruct k. Qed.

(** The two removals of the loop body, taken together. *)
Lemma removals_middle (l r : Z) (name : string) :
  spec_remove_right r (spec_remove_left l name) =
    if Z.max 0 l + Z.max 0 r <? len name
    then str_take (Z.to_nat (len name - Z.max 0 l - Z.max 0 r)) (str_drop (Z.to_nat l) name)
    else "".
Proof.
  unfold spec_remove_right, spec_remove_left.
  pose proof (len_nonneg name) as Hn.
  destruct (Z.leb_spec (len name) l) as [Hl|Hl].
  - destruct (Z.ltb_spec (Z.max 0 l + Z.max 0 r) (len name)); [lia|].
    by destruct (len "" <=? r).
  - assert (len (str_drop (Z.to_nat l) name) = len name - Z.max 0 l) as Hd.
    { unfold len in *. rewrite str_drop_length. lia. }
    rewrite Hd.
    destruct (Z.ltb_spec (Z.max 0 l + Z.max 0 r) (len name)) as [Hs|Hs].
    + destruct (Z.leb_spec (len name - Z.max 0 l) r) as [Hr|Hr]; [lia|].
      f_equal. rewrite str_drop_length. unfold len in *. lia.
    + destruct (Z.leb_spec (len name - Z.max 0 l) r) as [Hr|Hr]; [done|].
      assert (str_drop (Z.to_nat l) name = "") as ->.
      { apply len_0_empty. lia. }
      by rewrite str_take_empty.
Qed.

Lemma kept_part_spec p name :
  spec_remove_right (remove_right p) (spec_remove_left (remove_left p) name)
  = kept_part p name.
Proof.
  rewrite removals_middle. unfold kept_part. cbv zeta.
  by replace (Z.to_nat (Z.max 0 (remove_left p))) with (Z.to_nat (remove_left p)) by lia.
Qed.

Lemma compute_new_name_parts p name :
  compute_new_name p name = (prefix p +:+ replaced_part p name) +:+ suffix p.
Proof.
  rewrite compute_new_name_spec. unfold spec_new_name. by rewrite kept_part_spec.
Qed.

Lemma str_take_short k s :
  (k <= String.length s)%nat -> String.length (str_take k s) = k.
Proof.
  revert s. induction k as [|k IH]; intros [|c s]; simpl; try lia.
  intros. rewrite IH; lia.
Qed.



Lemma str_drop_empty k : str_drop k "" = "".
Proof. by destruct k. Qed.

(** The characters of a match still to be passed over are dropped. *)
Lemma replace_go_skip old new k s :
  replace_go old new k s = replace_go old new 0 (str_drop k s).
Proof.
  revert k. induction s as [|c s IH]; intros [|k]; try done.
  simpl. by rewrite IH.
Qed.

Lemma replace_go_absent old new s :
  str_in old s = false -> replace_go old new 0 s = s.
Proof.
  induction s as [|c s IH]; [done|].
  intros Hin. cbn [str_in] in Hin. apply orb_false_iff in Hin as [Hp Hin].
  cbn [replace_go]. rewrite Hp. by rewrite IH.
Qed.

Lemma prefix_split old s :
  String.prefix old s = true -> s = old +:+ str_drop (String.length old) s.
Proof.
  revert s. induction old as [|c old IH]; intros s Hp; [done|].
  destruct s as [|c' s]; [done|]. simpl in Hp.
  destruct (ascii_dec c c') as [->|]; [|done].
  change (String c' old +:+ ?t) with (String c' (old +:+ t)). simpl.
  f_equal. by apply IH.
Qed.

Lemma replace_go_same old s : str_bool old = true -> replace_go old old 0 s = s.
Proof.
  intros Hold.
  assert (forall n s, (String.length s <= n)%nat -> replace_go old old 0 s = s) as H;
    [|by apply (H (String.length s))].
  clear s. induction n as [|n IH]; intros [|c s] Hn; try done; [simpl in Hn; lia|].
  cbn [replace_go]. destruct (String.prefix old (String c s)) eqn:Hp.
  - rewrite replace_go_skip.
    destruct old as [|c0 old]; [done|].
    replace (str_drop (String.length (String c0 old) - 1) s)
      with (str_drop (String.length (String c0 old)) (String c s))
      by (simpl; by rewrite Nat.sub_0_r).
    rewrite IH.
    + symmetry. by apply prefix_split.
    + rewrite str_drop_length. simpl in *. lia.
  - rewrite IH; [done|]. simpl in Hn. lia.
Qed.

Lemma replace_empty_empty s : replace_empty "" s = s.
Proof. induction s as [|c s IH]; [done|]. simpl. by rewrite IH. Qed.



(** *** The loop as a whole *)

Lemma rename_step_counts p st l :
  is_alive (layers st) l = true ->
  exists st',
    rename_step p st l = Ret st' /\
    (length (renamed_layers st') + length (error_layers st')
     = S (length (renamed_layers st) + length (error_layers st)))%nat /\
    (forall l', is_alive (layers st) l' = true -> is_alive (layers st') l' = true).
Proof.
  unfold is_alive, rename_step, layer_name, layer_setName.
  intros Hl. destruct (layers st !! l) as [[n|]|] eqn:Hn; try done.
  simpl. destruct (negb _); simpl.
  - eexists. split; [done|]. simpl. rewrite length_app. simpl. split; [lia|done].
  - eexists. split; [done|]. simpl. rewrite length_app. simpl. split; [lia|].
    intros l' Hl'. destruct (decide (l' = l)) as [->|Hne].
    + by rewrite lookup_insert_eq.
    + by rewrite lookup_insert_ne.
Qed.

Lemma rename_loop_counts p selected st :
  forallb (is_alive (layers st)) selected = true ->
  exists st',
    rename_loop p selected st = (Ret tt, st') /\
    (length (renamed_layers st') + length (error_layers st')
     = length (renamed_layers st) + length (error_layers st) + length selected)%nat.
Proof.
  revert st. induction selected as [|l rest IH]; intros st Hall; simpl.
  - eexists. split; [done|lia].
  - apply andb_true_iff in Hall as [Hl Hrest].
    destruct (rename_step_counts p st l Hl) as (st1 & -> & Hc & Hkeep).
    destruct (IH st1) as (st' & Hrun & Hc').
    { apply forallb_forall. intros l' Hin. apply Hkeep.
      by eapply forallb_forall in Hrest. }
    exists st'. split; [done|lia].
Qed.

Lemma result_message_lists st :
  (0 < length (renamed_layers st) + length (error_layers st))%nat ->
  result_message st <> "Nessun layer rinominato.".
Proof.
  unfold result_message. intros Hn.
  destruct (renamed_layers st) as [|r rs], (error_layers st) as [|e es];
    simpl in Hn; try lia; done.
Qed.


(** X3. A confirmed run on layers that all still exist handles every selected
    layer once: it returns with the controls enabled, the renamed layers and
    the layers in error are together as many as the selected ones, and the
    last box is the information "Completato" with the list of both, never
    the text "Nessun layer rinominato.". *)
Theorem rename_run_accounts (p : params) (ra : run_answers) (selected : list nat)
    (s : state) :
  selected <> [] ->
  forallb (is_alive (project s)) selected = true ->
  str_bool (prefix p) || str_bool (suffix p) || str_bool (search_text p)
    || (0 <? remove_left p) || (0 <? remove_right p) = true ->
  (str_bool (search_text p) && negb (str_bool (replace_text p)) = true ->
   proceed_without_replacement ra = true) ->
  confirmed ra = true ->
  exists st' questions,
    rename_layers p ra selected s =
      (Ret tt,
       {| project := layers st'; controls := true;
          dialogs := (dialogs s ++ questions) ++
                     [{| box_icon := Information; box_title := "Completato";
                         box_text := result_message st' |}] |}) /\
    Forall (fun b => box_icon b = Question) questions /\
    (length (renamed_layers st') + length (error_layers st') = length selected)%nat /\
    result_message st' <> "Nessun layer rinominato.".
Proof.
  intros Hsel Hall Hpar Hrep Hconf. unfold rename_layers.
  destruct selected as [|l rest]; [done|]. rewrite Hpar. cbn [negb].
  destruct (rename_loop_counts p (l :: rest)
              {| layers := project s; renamed_layers := []; error_layers := [] |} Hall)
    as (st' & Hloop & Hcount).
  simpl in Hcount.
  cbv [mbind M_bind m_bind mret M_ret m_ret message_box_show toggle_controls m_modify
       rename_selected].
  destruct (str_bool (search_text p) && negb (str_bool (replace_text p))) eqn:Hq.
  - rewrite (Hrep eq_refl), Hconf. cbn [project controls dialogs].
    rewrite Hloop. cbn [project controls dialogs].
    eexists st', [_; _]. split_and!.
    + by rewrite <- !app_assoc.
    + by repeat constructor.
    + done.
    + apply result_message_lists. simpl in *. lia.
  - rewrite Hconf. cbn [project controls dialogs].
    rewrite Hloop. cbn [project controls dialogs].
    eexists st', [_]. split_and!.
    + done.
    + by repeat constructor.
    + done.
    + apply result_message_lists. simpl in *. lia.
Qed.

Lemma rename_run_accounts_witness :
  exists st' questions,
    rename_layers demo_params yes [0%nat] fresh_list =
      (Ret tt,
       {| project := layers st'; controls := true;
          dialogs := (dialogs fresh_list ++ questions) ++
                     [{| box_icon := Information; box_title := "Completato";
                         box_text := result_message st' |}] |}) /\
    (length (renamed_layers st') + length (error_layers st') = 1)%nat.
Proof.
  destruct (rename_run_accounts demo_params yes [0%nat] fresh_list
              ltac:(done) ltac:(done) ltac:(done) ltac:(done) ltac:(done))
    as (st' & qs & Hrun & _ & Hc & _).
  by exists st', qs.
Defined.





Lemma rename_step_stale p st l :
  is_alive (layers st) l = false -> rename_step p st l = Raise deleted_msg.
Proof.
  unfold is_alive, rename_step, layer_name.
  by destruct (layers st !! l) as [[n|]|].
Qed.

Lemma rename_step_others p st l l' :
  is_alive (layers st) l = true -> is_alive (layers st) l' = false ->
  exists st', rename_step p st l = Ret st' /\ is_alive (layers st') l' = false /\
    (forall k, is_alive (layers st) k = true -> is_alive (layers st') k = true).
Proof.
  intros Hl Hl'. destruct (rename_step_counts p st l Hl) as (st' & Hrun & _ & Hkeep).
  exists st'. split_and!; [done| |done].
  revert Hrun. unfold is_alive, rename_step, layer_name, layer_setName in *.
  destruct (layers st !! l) as [[n|]|] eqn:Hn; try done. simpl.
  destruct (negb _); simpl; intros [= <-]; simpl; [done|].
  rewrite lookup_insert_ne; [done|]. intros ->. by rewrite Hn in Hl'.
Qed.

Lemma rename_loop_stale p pre l post st :
  forallb (is_alive (layers st)) pre = true ->
  is_alive (layers st) l = false ->
  exists st',
    rename_loop p pre st = (Ret tt, st') /\
    rename_loop p (pre ++ l :: post) st = (Raise deleted_msg, st').
Proof.
  revert st. induction pre as [|x pre IH]; intros st Hall Hl; simpl.
  - exists st. by rewrite rename_step_stale.
  - apply andb_true_iff in Hall as [Hx Hrest].
    destruct (rename_step_others p st x l Hx Hl) as (st1 & -> & Hl1 & Hkeep).
    apply IH; [|done].
    apply forallb_forall. intros k Hin. apply Hkeep. by eapply forallb_forall in Hrest.
Qed.

(** X5. A selected entry whose layer has been removed from the project ends
    the run at once: the layers selected before it are renamed or reported,
    then the action raises the error of the dead wrapper, with the controls
    left disabled and no box after the questions; the entries after it are
    not looked at. *)
Theorem stale_layer_aborts (p : params) (ra : run_answers) (pre : list nat) (l : nat)
    (post : list nat) (s : state) :
  forallb (is_alive (project s)) pre = true ->
  is_alive (project s) l = false ->
  str_bool (prefix p) || str_bool (suffix p) || str_bool (search_text p)
    || (0 <? remove_left p) || (0 <? remove_right p) = true ->
  (str_bool (search_text p) && negb (str_bool (replace_text p)) = true ->
   proceed_without_replacement ra = true) ->
  confirmed ra = true ->
  exists st' questions,
    rename_loop p pre {| layers := project s; renamed_layers := []; error_layers := [] |}
      = (Ret tt, st') /\
    rename_layers p ra (pre ++ l :: post) s =
      (Raise deleted_msg,
       {| project := layers st'; controls := false; dialogs := dialogs s ++ questions |}) /\
    Forall (fun b => box_icon b = Question) questions.
Proof.
  intros Hall Hl Hpar Hrep Hconf.
  destruct (rename_loop_stale p pre l post
              {| layers := project s; renamed_layers := []; error_layers := [] |} Hall Hl)
    as (st' & Hpre & Hloop).
  unfold rename_layers.
  destruct (pre ++ l :: post) as [|x xs] eqn:Hsel; [by destruct pre|].
  rewrite Hpar. cbn [negb].
  cbv [mbind M_bind m_bind mret M_ret m_ret message_box_show toggle_controls m_modify
       rename_selected].
  destruct (str_bool (search_text p) && negb (str_bool (replace_text p))) eqn:Hq.
  - rewrite (Hrep eq_refl), Hconf. cbn [project controls dialogs].
    rewrite Hloop. cbn [project controls dialogs].
    eexists st', [_; _]. split_and!.
    + done.
    + by rewrite <- !app_assoc.
    + by repeat constructor.
  - rewrite Hconf. cbn [project controls dialogs].
    rewrite Hloop. cbn [project controls dialogs].
    eexists st', [_]. split_and!.
    + done.
    + done.
    + by repeat constructor.
Qed.

Lemma stale_layer_aborts_witness :
  fst (rename_layers demo_params yes [0%nat; 1%nat] stale_list) = Raise deleted_msg /\
  controls (snd (rename_layers demo_params yes [0%nat; 1%nat] stale_list)) = false.
Proof.
  destruct (stale_layer_aborts demo_params yes [0%nat] 1%nat [] stale_list
              ltac:(done) ltac:(done) ltac:(done) ltac:(done) ltac:(done))
    as (st' & qs & _ & Hrun & _).
  split; [exact (f_equal fst Hrun)|exact (f_equal (fun r => controls (snd r)) Hrun)].
Defined.

End RenamerMore.

(** ** Overlaps counter: a child that fails *)

Module CounterMore.
Import OverlapsCounter OverlapsMoreDefs CounterFacts.

Ltac use_answers :=
  repeat match goal with
  | H : run ?a ?p = _ |- context [run ?a ?p] => rewrite H
  end.

(** X6. The algorithm has no handler: when a child algorithm raises, the
    run raises the same error, that child is the last call made, every
    child before it had returned and no look at the flag had found it set.
    When the run returns, every child it ran had returned. *)
Theorem child_error_propagates `{Processing} (parameters : parameters) :
  let r := processAlgorithm parameters [] in
  (forall e, fst r = Raise e ->
     exists alg params calls,
       snd r = calls ++ [Run alg params] /\
       run alg params = Raise e /\
       forallb child_returned calls = true /\
       cancel_seen calls = false) /\
  (forall out, fst r = Ret out -> forallb child_returned (snd r) = true).
Proof.
  unfold processAlgorithm.
  cbv [mbind M_bind m_bind mret M_ret m_ret processing_run canceled_at].
  repeat next_call; cbn [fst snd]; split.
  all: try (intros ? [=]; fail).
  all: try (intros out _; cbn [forallb child_returned app]; use_answers; reflexivity).
  all: intros e' [= <-];
    match goal with
    | Heq : run ?a ?p = Raise _ |- exists _ _ _, ?t = _ /\ _ =>
        exists a, p, (removelast t)
    end;
    split_and!; [reflexivity|assumption| |reflexivity];
    cbn [forallb child_returned app removelast]; use_answers; reflexivity.
Qed.

Lemma child_error_propagates_witness :
  exists alg params calls,
    snd (@processAlgorithm fix_fails Demo.demo_parameters []) = calls ++ [Run alg params] /\
    @run fix_fails alg params = Raise "Invalid geometry".
Proof.
  destruct (@child_error_propagates fix_fails Demo.demo_parameters) as [Hraise _].
  destruct (Hraise "Invalid geometry" eq_refl) as (alg & params & calls & Htrace & Hrun & _).
  by exists alg, params, calls.
Defined.

End CounterMore.

(** ** Feature excluder: what is proposed and what is deleted *)

Module ExcluderMore.
Import FeatureExcluder ExcluderMoreDefs ExcluderFacts.

Section Join.
Context `{Host}.

(** A key that a feature of the loop carries has an entry after the loop. *)
Lemma match_loop_has_key c match_crs l st k :
  is_Some (match_features st !! k) \/
    (exists g, g ∈ l /\ keyed c (match_field_name c) g = Some k) ->
  is_Some (match_features (foldl (match_step c match_crs) st l) !! k).
Proof.
  revert st. induction l as [|f l IH]; intros st Hk; simpl.
  - destruct Hk as [Hk|(g & Hg & _)]; [done|by apply elem_of_nil in Hg].
  - apply IH. rewrite match_step_features.
    destruct Hk as [Hk|(g & Hg & Hkey)].
    + left. destruct (keyed c (match_field_name c) f) as [k'|]; [|done].
      destruct (decide (k' = k)) as [->|Hne].
      * by rewrite lookup_insert_eq.
      * by rewrite lookup_insert_ne.
    + apply elem_of_cons in Hg as [->|Hg].
      * left. rewrite Hkey. by rewrite lookup_insert_eq.
      * right. by exists g.
Qed.

Lemma lookup_has_partner c match_layer h s :
  match keyed c (source_field_name c) s with
  | Some k => bool_decide (is_Some (match_features (build_match c match_layer h) !! k))
  | None => false
  end = has_partner c match_layer s.
Proof.
  unfold has_partner. destruct (keyed c (source_field_name c) s) as [k|]; [|done].
  apply eq_true_iff_eq. rewrite bool_decide_eq_true, existsb_exists. split.
  - intros [id Hid]. unfold build_match in Hid.
    apply match_loop_origin in Hid as [Hid|(g & Hg & Hk & _)].
    + simpl in Hid. by rewrite lookup_empty in Hid.
    + exists g. split; [by apply list_elem_of_In|by apply bool_decide_eq_true].
  - intros (g & Hg & Hk). apply bool_decide_eq_true in Hk.
    apply match_loop_has_key. right. exists g. split; [by apply list_elem_of_In|done].
Qed.

(** What one iteration adds to the two lists. *)
Lemma source_step_lists c source_crs st s :
  exists different : bool,
    features_to_delete (source_step c source_crs st s) =
      features_to_delete st ++
      (if match keyed c (source_field_name c) s with
          | Some k => bool_decide (is_Some (match_features st !! k))
          | None => false
          end
       then [fid s] else []) /\
    features_with_different_geom (source_step c source_crs st s) =
      features_with_different_geom st ++ (if different then [fid s] else []) /\
    (different = true ->
     check_geometry c = true /\
     is_Some (keyed c (source_field_name c) s ≫= fun k => match_features st !! k)).
Proof.
  unfold source_step, keyed.
  destruct (fattrs s !! source_field_name c) as [v|]; simpl;
    [|exists false; by rewrite !app_nil_r].
  destruct (match_features st !! join_key c v) as [mid|] eqn:Hmid; simpl.
  2: { exists false. rewrite ?bool_decide_eq_false_2 by (by intros [? ?]).
       by rewrite !app_nil_r. }
  rewrite ?bool_decide_eq_true_2 by by eexists.
  unfold compare_with.
  destruct (check_geometry c) eqn:Hc; simpl; [|exists false; by rewrite app_nil_r].
  destruct (usable _); simpl; [|exists false; by rewrite app_nil_r].
  destruct (to_metric _ _ _ _) as [h1 g1].
  destruct (match_geometries st !! mid) as [mr|]; simpl;
    [|exists false; by rewrite app_nil_r].
  destruct (geom_bool _ && is_different _ _ _); simpl.
  - exists true. by split_and!.
  - exists false. by rewrite app_nil_r.
Qed.

Lemma source_loop_deleted c source_crs l st :
  features_to_delete (foldl (source_step c source_crs) st l) =
    features_to_delete st ++
    (fid <$> List.filter
       (fun s => match keyed c (source_field_name c) s with
                 | Some k => bool_decide (is_Some (match_features st !! k))
                 | None => false
                 end) l).
Proof.
  revert st. induction l as [|s l IH]; intros st; simpl; [by rewrite app_nil_r|].
  rewrite IH.
  destruct (source_step_lists c source_crs st s) as (b & -> & _).
  destruct (source_step_frame c source_crs st s) as (-> & _).
  destruct (match keyed c (source_field_name c) s with Some _ => _ | None => _ end);
    simpl; by rewrite <- app_assoc.
Qed.

(** The list of different geometries is a sublist of the list of proposed
    features, and stays empty without the geometry check. *)
Lemma source_loop_different c source_crs l st :
  features_with_different_geom st `sublist_of` features_to_delete st ->
  features_with_different_geom (foldl (source_step c source_crs) st l)
    `sublist_of` features_to_delete (foldl (source_step c source_crs) st l) /\
  (check_geometry c = false ->
   features_with_different_geom (foldl (source_step c source_crs) st l)
   = features_with_different_geom st).
Proof.
  revert st. induction l as [|s l IH]; intros st Hsub; simpl; [done|].
  destruct (source_step_lists c source_crs st s) as (b & Hdel & Hdiff & Hb).
  destruct (IH (source_step c source_crs st s)) as [Hsub' Hoff].
  { rewrite Hdel, Hdiff. destruct b.
    - destruct (Hb eq_refl) as [_ Hk].
      destruct (keyed c (source_field_name c) s) as [k|]; simpl in Hk;
        [|by destruct Hk].
      rewrite bool_decide_eq_true_2 by done. by apply sublist_app.
    - rewrite app_nil_r. by apply sublist_inserts_r. }
  split; [done|]. intros Hc. rewrite Hoff by done. rewrite Hdiff.
  destruct b; [|by rewrite app_nil_r]. destruct (Hb eq_refl) as [Hc' _]. congruence.
Qed.

Lemma analysis_proposes d source_layer match_layer h :
  features_to_delete (analyse d source_layer match_layer h)
  = fid <$> List.filter (has_partner (read_config d) match_layer) (features source_layer).
Proof.
  unfold analyse, scan_source. rewrite source_loop_deleted.
  rewrite build_match_no_deletion. simpl. f_equal.
  apply List.filter_ext. intros s. apply lookup_has_partner.
Qed.


Lemma build_match_no_different c match_layer h :
  features_with_different_geom (build_match c match_layer h) = [].
Proof.
  unfold build_match.
  assert (features_with_different_geom (initial_state h) = []) as H0 by done.
  revert H0. generalize (initial_state h) as st0.
  induction (features match_layer) as [|f l IH]; intros st0 H0; simpl; [done|].
  apply IH. unfold match_step.
  destruct (fattrs f !! match_field_name c); [|done].
  destruct (check_geometry c && usable _); [|done].
  by destruct (to_metric _ _ _ _).
Qed.

Lemma sublist_filter_bool {A} (f : A -> bool) (l : list A) :
  List.filter f l `sublist_of` l.
Proof.
  induction l as [|x l IH]; simpl; [done|].
  destruct (f x); by constructor.
Qed.

Lemma complement_length (different proposed : list Z) :
  NoDup proposed -> different `sublist_of` proposed ->
  (length (List.filter (fun x => negb (bool_decide (x ∈ different))) proposed)
   + length different = length proposed)%nat.
Proof.
  intros Hnd Hsub. induction Hsub as [|x l1 l2 Hsub IH|x l1 l2 Hsub IH]; [done| |].
  - apply NoDup_cons in Hnd as [Hx Hnd]. cbn [List.filter].
    rewrite bool_decide_eq_true_2 by left. cbn [negb length].
    rewrite <- (IH Hnd), Nat.add_succ_r. f_equal. f_equal. f_equal.
    apply List.filter_ext_in. intros y Hy. apply list_elem_of_In in Hy.
    f_equal. apply bool_decide_ext. rewrite elem_of_cons. split; [|by right].
    by intros [->|?].
  - apply NoDup_cons in Hnd as [Hx Hnd]. cbn [List.filter].
    rewrite bool_decide_eq_false_2.
    + cbn [negb length]. by rewrite <- (IH Hnd).
    + intros Hin. apply Hx. by eapply elem_of_sublist.
Qed.

(** X8. The numbers of the label above the selection table add up: the
    features with a different geometry are a sublist of the proposed ones
    (none without the geometry check), and as the ids of the source layer
    are distinct, the count of equal geometries and the count of different
    ones sum to the count of proposed features. *)
Theorem label_counts_add_up (d : dialog) (source_layer match_layer : layer) (h : store) :
  let st := analyse d source_layer match_layer h in
  NoDup (fid <$> features source_layer) ->
  features_with_different_geom st `sublist_of` features_to_delete st /\
  (efcheckgeom d = false -> features_with_different_geom st = []) /\
  (length (features_with_equal_geom st) + length (features_with_different_geom st)
   = length (features_to_delete st))%nat.
Proof.
  intros st Hnd.
  destruct (source_loop_different (read_config d) (crs source_layer)
              (features source_layer) (build_match (read_config d) match_layer h))
    as [Hsub Hoff].
  { rewrite build_match_no_deletion, build_match_no_different. done. }
  fold (scan_source (read_config d) source_layer
          (build_match (read_config d) match_layer h)) in Hsub, Hoff.
  fold (analyse d source_layer match_layer h) in Hsub, Hoff. fold st in Hsub, Hoff.
  split_and!; [done| |].
  - intros Hc. rewrite Hoff by done. apply build_match_no_different.
  - apply complement_length; [|done].
    unfold st. rewrite analysis_proposes.
    eapply sublist_NoDup; [exact Hnd|]. apply fmap_sublist, sublist_filter_bool.
Qed.

End Join.

Lemma label_counts_add_up_witness :
  (length (features_with_equal_geom
             (analyse LineHost.demo_dialog LineHost.demo_source LineHost.demo_match
                LineHost.demo_store))
   + length (features_with_different_geom
               (analyse LineHost.demo_dialog LineHost.demo_source LineHost.demo_match
                  LineHost.demo_store))
   = length (features_to_delete
               (analyse LineHost.demo_dialog LineHost.demo_source LineHost.demo_match
                  LineHost.demo_store)))%nat.
Proof.
  apply (label_counts_add_up LineHost.demo_dialog LineHost.demo_source LineHost.demo_match
           LineHost.demo_store demo_nodup_source).
Defined.

Section Run.
Context `{Host}.

Ltac run_action :=
  unfold exclude_features, exclude_features_guarded, exclude_features_try,
    exclude_features_except;
  cbv [mbind M_bind m_bind mret M_ret m_ret m_try m_finally m_lift m_modify m_get
       message_box_show toggle_controls];
  repeat case_match; simplify_eq/=.



End Run.



End ExcluderMore.

(** ** Feature excluder: the backup *)

Module BackupFacts.
Import LayerBackup StringFacts.

Lemma before_dot_prefix name :
  String.prefix (before_dot name +:+ ".") name = str_in "." name.
Proof.
  induction name as [|c name IH]; [done|].
  cbn [before_dot str_in]. destruct (Ascii.eqb_spec c ".") as [->|Hne].
  - change ("" +:+ ".") with ".". rewrite prefix_cons.
    destruct (ascii_dec "." "."); [|done]. by rewrite prefix_empty.
  - change (String c ?a +:+ ?b) with (String c (a +:+ b)). rewrite !prefix_cons.
    destruct (ascii_dec c c); [|done].
    destruct (ascii_dec "." c) as [<-|]; [done|]. by rewrite IH.
Qed.

Section Backup.
Context `{Files}.

Ltac run_backup :=
  cbv [mbind M_bind m_bind mret M_ret m_ret m_try m_lift m_modify print zip_files];
  repeat case_match; simplify_eq/=.

(** X11. The backup of a layer that is a file holds the files of its directory
    whose name begins with the part of the file's name before its first
    dot, followed by a dot, each under its bare name: so the file itself
    is in its backup exactly when its name has a dot, and files of other
    layers whose name begins alike are taken along. *)
Theorem backup_takes_related_files (source_uri name : string) (listing : list string)
    (s : state) :
  let source_dir := dirname source_uri in
  let kept := List.filter (String.prefix (before_dot (basename source_uri) +:+ ".")) listing in
  let entries := (fun file => (file, basename file)) <$> (join source_dir <$> kept) in
  let backup_path := join source_dir (name +:+ "_backup_" +:+ now +:+ ".zip") in
  str_bool source_uri = true -> path_exists source_uri = true ->
  listdir source_dir = Ret listing ->
  write_zip backup_path entries = Ret tt ->
  create_layer_backup source_uri name s =
    (Ret (Some backup_path),
     {| printed := printed s; archives := archives s ++ [(backup_path, entries)] |}) /\
  (basename source_uri ∈ listing ->
   (basename source_uri ∈ kept <-> str_in "." (basename source_uri) = true)).
Proof.
  intros source_dir kept entries backup_path Hs He Hl Hz. split.
  - unfold create_layer_backup, related_files. rewrite Hs, He. cbn [negb orb].
    fold source_dir. cbv [mbind M_bind m_bind mret M_ret m_ret m_try m_lift zip_files].
    rewrite Hl. fold kept. fold entries. fold backup_path. by rewrite Hz.
  - intros Hin. unfold kept. rewrite <- before_dot_prefix.
    rewrite list_elem_of_In, List.filter_In, <- list_elem_of_In. by split; [intros []|].
Qed.

Ltac failed := eexists _, _; split; [reflexivity|]; split; [done|]; by eexists.

(** X12. A backup never raises.  It returns a path only when an archive was
    written at that path, and printed nothing then; it returns [None] with
    exactly one message printed and no archive recorded. *)
Theorem backup_reports_failure (source_uri name : string) (s : state) :
  exists r s', create_layer_backup source_uri name s = (Ret r, s') /\
    match r with
    | Some p => exists entries,
        write_zip p entries = Ret tt /\
        archives s' = archives s ++ [(p, entries)] /\ printed s' = printed s
    | None => archives s' = archives s /\ exists t, printed s' = printed s ++ [t]
    end.
Proof.
  unfold create_layer_backup, create_memory_layer_backup, zip_shapefile.
  destruct (negb (str_bool source_uri) || negb (path_exists source_uri)).
  - cbv [mbind M_bind m_bind mret M_ret m_ret m_try m_lift m_modify print zip_files].
    destruct (makedirs _); [|by failed].
    destruct (write_shapefile _) as [error|]; [|by failed].
    destruct (fst error =? 0); [|by failed].
    destruct (listdir _); [|by failed].
    destruct (write_zip _ _) as [[]|] eqn:Hz; [|by failed].
    eexists _, _; split; [reflexivity|]. by eexists.
  - cbv [mbind M_bind m_bind mret M_ret m_ret m_try m_lift m_modify print zip_files].
    destruct (listdir _); [|by failed].
    destruct (write_zip _ _) as [[]|] eqn:Hz; [|by failed].
    eexists _, _; split; [reflexivity|]. by eexists.
Qed.

End Backup.

Lemma backup_takes_related_files_witness :
  @create_layer_backup Demo.shared_folder "/data/roads.v2.shp" "Roads" Demo.nothing
  = (Ret (Some "/data/Roads_backup_20250506_1030.zip"),
     {| printed := [];
        archives := [("/data/Roads_backup_20250506_1030.zip",
                      [("/data/roads.shp", "roads.shp"); ("/data/roads.dbf", "roads.dbf");
                       ("/data/roads.v2.shp", "roads.v2.shp")])] |}).
Proof.
  destruct (@backup_takes_related_files Demo.shared_folder "/data/roads.v2.shp" "Roads"
              ["roads.shp"; "roads.dbf"; "roads.v2.shp"; "roads_old.shp"; "lakes.shp"]
              Demo.nothing eq_refl eq_refl eq_refl eq_refl) as [Hrun _].
  exact Hrun.
Defined.

End BackupFacts.

(** ** Batch converter: names, outcomes of a row, runs that convert nothing *)

Module ConverterMore.
Import BatchConverter ConverterFacts ActionFacts ConverterMoreDefs.

Lemma clean_name_app a b : clean_name (a +:+ b) = clean_name a +:+ clean_name b.
Proof. induction a as [|c a IH]; simpl; [done|]. by rewrite IH. Qed.

Lemma clean_name_length a : String.length (clean_name a) = String.length a.
Proof. induction a as [|c a IH]; simpl; [done|]. by rewrite IH. Qed.

Lemma str_app_length a b :
  String.length (a +:+ b) = (String.length a + String.length b)%nat.
Proof. induction a as [|c a IH]; simpl; [done|]. by rewrite IH. Qed.

Lemma str_app_inv_head a b c : a +:+ b = a +:+ c -> b = c.
Proof. induction a as [|x a IH]; simpl; [done|]. intros [= Heq]. by apply IH. Qed.

Lemma clean_pretty_go x s :
  clean_name s = s -> clean_name (pretty_N_go x s) = pretty_N_go x s.
Proof.
  revert s. induction (N.lt_wf_0 x) as [x _ IH]; intros s Hs.
  assert (x = 0 \/ 0 < x)%N as [->|Hx] by lia; [by rewrite pretty_N_go_0|].
  rewrite pretty_N_go_step by done. apply IH; [by apply N.div_lt|].
  simpl. rewrite Hs. unfold pretty_N_char. by repeat case_match.
Qed.

Lemma clean_pretty (n : nat) : clean_name (pretty n) = pretty n.
Proof.
  unfold pretty, pretty_nat, pretty, pretty_N. case_decide; [done|].
  by apply clean_pretty_go.
Qed.

Section Conversion.
Context `{Os}.

(** X13. With a name typed by the user, the files of a batch get pairwise
    distinct output names, also after the cleaning of the characters. *)
Theorem output_names_distinct (d : dialog) (p q : string) (i j : nat) :
  str_bool (bclayername d) = true -> i <> j ->
  clean_name (_output_basename d p i) <> clean_name (_output_basename d q j).
Proof.
  intros Hc Hij Heq. unfold _output_basename in Heq. rewrite Hc in Heq.
  assert (forall k : nat, clean_name (bclayername d +:+ "_" +:+ pretty k)
                    = clean_name (bclayername d) +:+ "_" +:+ pretty k) as Hk.
  { intros k. by rewrite !clean_name_app, clean_pretty. }
  destruct (Nat.eqb_spec i 0) as [->|Hi], (Nat.eqb_spec j 0) as [->|Hj]; [done|..].
  - apply (f_equal String.length) in Heq.
    rewrite Hk, !str_app_length in Heq. simpl in Heq. lia.
  - apply (f_equal String.length) in Heq.
    rewrite Hk, !str_app_length in Heq. simpl in Heq. lia.
  - rewrite !Hk in Heq. apply str_app_inv_head in Heq.
    apply (str_app_inv_head "_") in Heq. by apply pretty_nat_inj in Heq.
Qed.

(** X14. A conversion to DXF that stops with the driver's message about
    attribute fields counts as converted: the row is marked as completed and
    the success count grows, with a warning in the log, whether or not an
    output file is there. *)
Theorem dxf_warning_is_success (d : dialog) (r : table_row) (row file_count : nat)
    (dest_dir single_gpkg_path e : string) (success_count error_count : nat) (s : state) :
  bcoutputformat d = "DXF" ->
  run (single r) = Raise e ->
  str_in "DXF layer does not support arbitrary field creation" e = true ->
  exists s',
    convert_row d false dest_dir single_gpkg_path file_count
      (success_count, error_count) (row, r) s = (Ret (S success_count, error_count), s') /\
    statuses s' =
      <[row := ("Completato", "Conversione completata con successo")]> (statuses s) /\
    log s' = log s ++ [{| log_level := 1;
                          log_text := "DXF: attributi ignorati come previsto per "
                                      +:+ file_path r |}] /\
    dialogs s' = dialogs s.
Proof.
  intros Hf Hrun He. unfold convert_row, convert_single_file. rewrite Hf.
  run_monad. rewrite Hrun. destruct (reprojection d); simpl; rewrite He; simpl;
    eexists; (split; [done|]); simpl; by rewrite list_insert_insert_eq.
Qed.

(** X15. When the external converter refuses to append a later file to the
    single GeoPackage, the layer is saved to a GeoPackage of its own and the
    log says so, yet the row is marked as failed and counted as an error,
    whatever the final look for the single GeoPackage would answer. *)
Theorem refused_append_is_error (d : dialog) (r : table_row) (row file_count : nat)
    (dest_dir single_gpkg_path message : string) (returncode : Z)
    (success_count error_count : nat) (s : state) :
  let a := package r in
  let clean_base_name := clean_name (_output_basename d (file_path r) row) in
  let alternate_gpkg :=
    replace (path_join dest_dir (clean_base_name +:+ ".gpkg")) backslash "/" in
  row <> 0%nat -> package_exists_before a = true -> layer_valid a = true ->
  (reprojection d = true -> reprojected a = Ret tt) ->
  temp_saved a = Ret tt ->
  appended a = Ret (returncode, message) -> returncode <> 0 ->
  alternate_saved a = Ret tt ->
  (temp_exists_after_failure a = true -> temp_deleted_after_failure a = Ret tt) ->
  exists s' command,
    convert_row d true dest_dir single_gpkg_path file_count
      (success_count, error_count) (row, r) s = (Ret (success_count, S error_count), s') /\
    statuses s' =
      <[row := ("Errore", "Si è verificato un errore durante la conversione: " +:+
                          "Impossibile aggiungere il layer al GeoPackage")]> (statuses s) /\
    log s' = log s ++
      [{| log_level := 0; log_text := command |};
       {| log_level := 2; log_text := "Errore ogr2ogr: " +:+ message |};
       {| log_level := 2;
          log_text := "Errore nell'aggiunta del layer: Errore ogr2ogr: " +:+ message |};
       {| log_level := 1;
          log_text := "Layer salvato come file separato: " +:+ alternate_gpkg |};
       {| log_level := 2;
          log_text := "Errore in processing: Impossibile aggiungere il layer al GeoPackage" |}].
Proof.
  intros a clean_base_name alternate_gpkg Hrow Hbefore Hvalid Hrep Htemp Happ Hrc Halt Hdel.
  unfold convert_row, add_to_package. fold a. fold clean_base_name.
  rewrite Hvalid, Hbefore. apply Nat.eqb_neq in Hrow. rewrite Hrow.
  apply Z.eqb_neq in Hrc.
  run_monad. rewrite Htemp, Happ, Hrc, Halt. fold alternate_gpkg.
  destruct (reprojection d); [rewrite (Hrep eq_refl)|]; simpl;
    (destruct (temp_exists_after_failure a); [rewrite (Hdel eq_refl)|]); simpl;
    eexists _, _; (split; [done|]); simpl;
    rewrite list_insert_insert_eq, <- !app_assoc; by split.
Qed.

(** X16. A run that the checks stop or that the user declines shows one
    dialog and does nothing else: no status, control, progress display or
    log entry changes. *)
Theorem declined_run_changes_nothing (d : dialog) (ra : run_answers)
    (table : list table_row) (s : state) :
  table = [] \/ bcdestpath d = "" \/ dest_isdir ra = false \/ bcoutputformat d = "" \/
  confirmed ra = false ->
  exists box, start_conversion d ra table s = (Ret tt, add_dialog box s) /\
    (box_icon box = Question <-> table <> [] /\ bcdestpath d <> "" /\ dest_isdir ra = true /\
                                bcoutputformat d <> "").
Proof.
  intros Hstop. unfold start_conversion.
  destruct table as [|r table]; simpl.
  { eexists. split; [done|]. simpl. by split; [|intros []]. }
  destruct (bcdestpath d) eqn:Hd; simpl.
  { eexists. split; [done|]. simpl. by split; [|intros (?&?&?)]. }
  destruct (dest_isdir ra) eqn:Hi; simpl; cycle 1.
  { eexists. split; [done|]. simpl. by split; [|intros (?&?&?&?)]. }
  destruct (bcoutputformat d) eqn:Hf; simpl.
  { eexists. split; [done|]. simpl. by split; [|intros (?&?&?&?)]. }
  destruct Hstop as [?|[?|[?|[?|Hc]]]]; try done.
  cbv [mbind M_bind m_bind message_box_show m_modify mret M_ret m_ret]. rewrite Hc. simpl.
  eexists. split; [done|]. simpl. by split.
Qed.

Lemma reset_loop n : forall k s,
  exists st,
    m_for (seq k n) tt (fun _ row => update_file_status row "In attesa" "") s
      = (Ret tt, set_statuses st s) /\
    length st = length (statuses s) /\
    forall i, st !! i =
      if decide (k <= i < k + n)%nat
      then (fun _ => ("In attesa", "In attesa di conversione")) <$> statuses s !! i
      else statuses s !! i.
Proof.
  induction n as [|n IH]; intros k s; cbn [seq m_for].
  - exists (statuses s). split_and!; [by destruct s|done|].
    intros i. case_decide; [lia|done].
  - unfold m_bind at 1. rewrite update_file_status_run.
    match goal with
    | |- context [m_for _ tt _ ?s1] => destruct (IH (S k) s1) as (st & -> & Hlen & Hst)
    end.
    exists st. simpl in *. split_and!; [done|by rewrite Hlen, length_insert|].
    intros i. rewrite Hst. destruct (decide (i = k)) as [->|Hne].
    + rewrite decide_False by lia. rewrite decide_True by lia.
      destruct (statuses s !! k) eqn:Hk.
      * rewrite list_lookup_insert_eq; [done|]. by apply lookup_lt_Some in Hk.
      * apply lookup_ge_None in Hk as Hge. rewrite list_insert_ge by done.
        by rewrite Hk.
    + rewrite list_lookup_insert_ne by done.
      repeat case_decide; try done; lia.
Qed.

Lemma reset_all (table : list table_row) s :
  length (statuses s) = length table ->
  m_for (seq 0 (length table)) tt (fun _ row => update_file_status row "In attesa" "") s
    = (Ret tt, set_statuses (waiting (length table)) s).
Proof.
  intros Hlen. destruct (reset_loop (length table) 0 s) as (st & -> & Hl & Hst).
  do 2 f_equal. apply list_eq. intros i. rewrite Hst. unfold waiting.
  destruct (decide (i < length table)%nat) as [Hi|Hi].
  - rewrite decide_True by lia. rewrite lookup_replicate_2 by done.
    destruct (lookup_lt_is_Some_2 (statuses s) i) as [x ->]; [lia|done].
  - rewrite decide_False by lia. transitivity (@None (string * string)).
    + apply lookup_ge_None. lia.
    + symmetry. apply lookup_ge_None. rewrite length_replicate. lia.
Qed.

(** X17. When the single GeoPackage is there already and the user keeps it,
    or it cannot be removed, no file is converted: every row waits, the
    log is as before, the controls are enabled again, and the dialogs shown
    are the confirmation, the question about the file and, after a failed
    removal, a warning with the reason. *)
Theorem kept_package_converts_nothing (d : dialog) (ra : run_answers)
    (table : list table_row) (s : state) :
  let single_gpkg_path :=
    replace (path_join (bcdestpath d)
               ((if str_bool (gpkgNameLine d) then gpkgNameLine d else "output")
                +:+ ".gpkg")) backslash "/" in
  table <> [] -> bcdestpath d <> "" -> dest_isdir ra = true ->
  bcoutputformat d = "GeoPackage" -> bcsinglefile d = true ->
  confirmed ra = true -> initialized ra = Ret tt -> package_exists ra = true ->
  overwrite ra = false \/ (exists e, package_removed ra = Raise e) ->
  length (statuses s) = length table ->
  exists s',
    start_conversion d ra table s = (Ret tt, s') /\
    controls s' = true /\ statuses s' = waiting (length table) /\
    log s' = log s /\ progress s' = progress s /\
    dialogs s' = dialogs s ++
      [{| box_icon := Question; box_title := "Conferma";
          box_text := confirmation_message d true (length table) |};
       {| box_icon := Question; box_title := "File esistente";
          box_text := "Il file " +:+ single_gpkg_path +:+ " esiste già." +:+ nl +:+
                      "Sovrascriverlo?" |}] ++
      (if overwrite ra then
         match package_removed ra with
         | Raise e => [{| box_icon := Warning; box_title := "Errore";
                          box_text := "Impossibile eliminare il file esistente: " +:+ e |}]
         | Ret _ => []
         end
       else []).
Proof.
  intros single_gpkg_path Ht Hd Hi Hf Hs Hc Hinit Hp Hkeep Hlen. unfold start_conversion.
  destruct table as [|r table]; [done|]. set (rows := r :: table) in *.
  replace ((length rows =? 0)%nat) with false by done.
  assert (str_bool (bcdestpath d) = true) as Hb by by destruct (bcdestpath d).
  rewrite Hb, Hi, Hf, Hs, Hc.
  replace ((("GeoPackage" =? "GeoPackage")%string)) with true by done.
  cbn [str_bool negb orb andb].
  cbv [mbind M_bind m_bind message_box_show toggle_controls m_modify].
  rewrite reset_all by done.
  unfold start_conversion_guarded, start_conversion_try. rewrite Hinit, Hp.
  fold single_gpkg_path.
  cbv [mbind M_bind m_bind message_box_show toggle_controls m_modify m_finally m_try m_lift
       mret M_ret m_ret andb].
  destruct Hkeep as [Ho|[e He]].
  - rewrite Ho. simpl. eexists. split; [done|]. simpl.
    rewrite <- ?app_assoc, ?app_nil_r. by split_and!.
  - rewrite He. destruct (overwrite ra); simpl; (eexists; split; [done|]); simpl;
      rewrite <- ?app_assoc, ?app_nil_r; by split_and!.
Qed.

End Conversion.

Lemma output_names_distinct_witness :
  bool_decide (clean_name (_output_basename named_dialog "/in/a.shp" 0)
               = clean_name (_output_basename named_dialog "/in/b.shp" 1)) = false.
Proof.
  apply bool_decide_eq_false_2.
  apply (output_names_distinct named_dialog "/in/a.shp" "/in/b.shp" 0 1); done.
Defined.

Lemma dxf_warning_is_success_witness :
  output_exists (single dxf_row) = false /\
  exists s',
    convert_row named_dialog false "/out" "/out/output.gpkg" 1 (0, 0)%nat (0%nat, dxf_row)
      idle_state = (Ret (1, 0)%nat, s').
Proof.
  split; [done|].
  destruct (dxf_warning_is_success named_dialog dxf_row 0 1 "/out" "/out/output.gpkg" _
              0 0 idle_state eq_refl eq_refl eq_refl) as (s' & Hrun & _).
  by exists s'.
Defined.

Lemma refused_append_is_error_witness :
  package_exists_after (package refused_row) = true /\
  exists s',
    convert_row package_dialog true "/out" "/out/output.gpkg" 2 (1, 0)%nat
      (1%nat, refused_row) waiting_state = (Ret (1, 1)%nat, s').
Proof.
  split; [done|].
  destruct (refused_append_is_error package_dialog refused_row 1 2 "/out"
              "/out/output.gpkg" "table exists" 1 1 0 waiting_state
              ltac:(done) eq_refl eq_refl ltac:(done) eq_refl eq_refl ltac:(done)
              eq_refl ltac:(done)) as (s' & command & Hrun & _).
  by exists s'.
Defined.

Lemma declined_run_changes_nothing_witness :
  exists box, start_conversion geojson_dialog ready_host [] idle_state
              = (Ret tt, add_dialog box idle_state).
Proof.
  destruct (declined_run_changes_nothing geojson_dialog ready_host [] idle_state
              ltac:(by left)) as (box & Hrun & _).
  by exists box.
Defined.

Lemma kept_package_converts_nothing_witness :
  exists s', start_conversion package_dialog keeping_host broken_file idle_state
             = (Ret tt, s') /\
    statuses s' = [("In attesa", "In attesa di conversione")] /\ log s' = [].
Proof.
  destruct (kept_package_converts_nothing package_dialog keeping_host broken_file idle_state
              ltac:(done) ltac:(done) eq_refl eq_refl eq_refl eq_refl eq_refl eq_refl
              ltac:(by left) eq_refl) as (s' & Hrun & _ & Hs & Hl & _).
  by exists s'.
Defined.

End ConverterMore.

(** ** Batch converter: the option widgets and the table of files *)

Module UiFacts.
Import ConverterUi.

(** Brings the tests of the format to the surface, so that they can be
    decided before the handlers are run. *)
Ltac expose_format :=
  unfold select_format, update_ui_for_format, toggle_controls;
  repeat match goal with
  | |- context C [let x := format ?u in @?b x] =>
      let t := eval cbv beta in (b (format u)) in
      let g := context C [t] in change g
  | |- context C [let x := with_controls ?e ?u in @?b x] =>
      let t := eval cbv beta in (b (with_controls e u)) in
      let g := context C [t] in change g
  end;
  repeat match goal with
  | |- context [format (with_format ?f ?u)] => change (format (with_format f u)) with f
  | |- context [format (with_controls ?e ?u)] =>
      change (format (with_controls e u)) with (format u)
  end.

(** The widgets after CSV is picked. *)
Lemma select_csv u :
  select_format "CSV" u =
    {| format := "CSV"; transform_checked := false; transform_enabled := false;
       crs_enabled := false; delimiter_enabled := true; delimiter_visible := true;
       delimiter_index := 3;
       layername_label := "Nome file di output (opzionale):";
       layername_placeholder := "Lascia vuoto per usare il nome originale";
       layername_enabled := true; single_checked := false; single_enabled := false;
       single_visible := false;
       gpkg_name_visible := if single_checked u then false else gpkg_name_visible u;
       _crs_forced_by_csv := true; controls := controls u |}.
Proof.
  destruct u as [f0 tc te ce de dv di ll lp le sc se sv gv forced c].
  destruct tc, sc; reflexivity.
Qed.

(** The widgets after another format is picked. *)
Lemma select_other f u :
  (f =? "CSV")%string = false ->
  let is_gpkg := (f =? "GeoPackage")%string in
  select_format f u =
    {| format := f;
       transform_checked := transform_checked u || _crs_forced_by_csv u;
       transform_enabled := true;
       crs_enabled := transform_checked u || _crs_forced_by_csv u;
       delimiter_enabled := false; delimiter_visible := false; delimiter_index := 3;
       layername_label :=
         if is_gpkg && negb (single_checked u) then "Nome layer interni (opzionale):"
         else "Nome file di output (opzionale):";
       layername_placeholder := "Lascia vuoto per usare il nome originale";
       layername_enabled := true; single_checked := is_gpkg; single_enabled := is_gpkg;
       single_visible := is_gpkg;
       gpkg_name_visible :=
         if Bool.eqb (single_checked u) is_gpkg then gpkg_name_visible u else is_gpkg;
       _crs_forced_by_csv := false; controls := controls u |}.
Proof.
  intros Hf is_gpkg. subst is_gpkg. expose_format. rewrite Hf.
  generalize (f =? "GeoPackage")%string. intros is_gpkg.
  destruct u as [f0 tc te ce de dv di ll lp le sc se sv gv forced c].
  destruct tc, forced, sc, is_gpkg; reflexivity.
Qed.

(** The widgets after [toggle_controls]. *)
Lemma toggle_controls_form enable u :
  toggle_controls enable u =
    {| format := format u; transform_checked := transform_checked u;
       transform_enabled := enable && negb (format u =? "CSV")%string;
       crs_enabled := enable && transform_checked u;
       delimiter_enabled := enable && (format u =? "CSV")%string;
       delimiter_visible := delimiter_visible u; delimiter_index := delimiter_index u;
       layername_label := layername_label u;
       layername_placeholder := layername_placeholder u;
       layername_enabled := layername_enabled u; single_checked := single_checked u;
       single_enabled := enable && (format u =? "GeoPackage")%string;
       single_visible := single_visible u; gpkg_name_visible := gpkg_name_visible u;
       _crs_forced_by_csv := _crs_forced_by_csv u; controls := enable |}.
Proof.
  expose_format. generalize (format u =? "CSV")%string. intros is_csv.
  destruct u as [f0 tc te ce de dv di ll lp le sc se sv gv forced c].
  destruct enable, is_csv, tc; reflexivity.
Qed.

(** X18. Leaving CSV for another format always leaves the box of the
    transformation checked and enabled, with the widget of the reference
    system enabled, whatever the box showed before CSV was chosen: the
    choice made before is not restored. *)
Theorem leaving_csv_checks_transform (u : ui) (f : string) :
  f <> "CSV" ->
  let u' := select_format f (select_format "CSV" u) in
  transform_checked u' = true /\ transform_enabled u' = true /\ crs_enabled u' = true /\
  transform_checked (select_format "CSV" u) = false.
Proof.
  intros Hf. apply String.eqb_neq in Hf. cbv zeta.
  rewrite (select_other f _ Hf), select_csv. cbn [transform_checked _crs_forced_by_csv
    transform_enabled crs_enabled]. by rewrite orb_true_r.
Qed.

Lemma leaving_csv_checks_transform_witness :
  transform_checked opening = false /\
  transform_checked (select_format "GeoJSON" (select_format "CSV" opening)) = true.
Proof.
  split; [done|].
  by destruct (leaving_csv_checks_transform opening "GeoJSON" ltac:(done)) as [Hc _].
Defined.

Lemma select_format_settled f u : controls u = true -> settled (select_format f u).
Proof.
  intros Hc. destruct (f =? "CSV")%string eqn:Hf.
  - apply String.eqb_eq in Hf as ->. rewrite select_csv. unfold settled.
    cbn [format controls transform_enabled crs_enabled transform_checked
         delimiter_enabled single_enabled]. by split_and!.
  - rewrite (select_other f u Hf). unfold settled.
    cbn [format controls transform_enabled crs_enabled transform_checked
         delimiter_enabled single_enabled]. rewrite Hf. by split_and!.
Qed.

(** X19. While the tool waits for the user, the option widgets stay
    settled: picking a format settles them, the user's clicks on the two
    boxes keep them so, and disabling the controls for a run and enabling
    them again gives every widget back as it was, so that the closing call
    of toggle_crs_widget changes nothing. For CSV the box of the
    transformation is then clear. *)
Theorem options_stay_settled (u : ui) :
  settled u ->
  (forall f, settled (select_format f u)) /\
  settled (click_transform u) /\
  settled (click_single u) /\
  toggle_controls true (toggle_controls false u) = u /\
  toggle_crs_widget (transform_checked u) u = u /\
  (format u = "CSV" -> transform_checked u = false).
Proof.
  intros Hs. pose proof Hs as (Hc & Hte & Hce & Hcsv & Hde & Hse).
  split_and!.
  - intros f. by apply select_format_settled.
  - unfold click_transform. rewrite Hte. clear Hs.
    destruct (format u =? "CSV")%string eqn:Hf; cbn [negb];
      [unfold settled; rewrite Hf; by split_and!|].
    destruct u as [f0 tc te ce de dv di ll lp le sc se sv gv forced c].
    cbn [format controls transform_enabled crs_enabled transform_checked delimiter_enabled
         single_enabled] in *. subst.
    unfold settled. destruct tc; cbn; rewrite Hf; by split_and!.
  - unfold click_single. rewrite Hse.
    destruct (format u =? "GeoPackage")%string eqn:Hg; [clear Hs|done].
    destruct u as [f0 tc te ce de dv di ll lp le sc se sv gv forced c].
    cbn [format controls transform_enabled crs_enabled transform_checked delimiter_enabled
         single_enabled] in *. subst.
    unfold settled. destruct sc; cbn; rewrite Hg; by split_and!.
  - rewrite !toggle_controls_form.
    destruct u as [f0 tc te ce de dv di ll lp le sc se sv gv forced c].
    cbn [format controls transform_enabled crs_enabled transform_checked delimiter_enabled
         single_enabled delimiter_visible delimiter_index layername_label
         layername_placeholder layername_enabled single_checked single_visible
         gpkg_name_visible _crs_forced_by_csv andb] in *.
    by subst.
  - destruct u as [f0 tc te ce de dv di ll lp le sc se sv gv forced c].
    cbn in Hce. by subst.
  - intros Hf. apply Hcsv. by rewrite Hf.
Qed.

Lemma options_stay_settled_witness :
  toggle_controls true (toggle_controls false opening) = opening.
Proof.
  by destruct (options_stay_settled opening ltac:(by repeat split))
    as (_ & _ & _ & Hcycle & _).
Defined.

(** *** The table of files *)

Lemma selected_rows_spec items :
  NoDup (selected_rows items) /\ forall x, x ∈ selected_rows items <-> x ∈ items.
Proof.
  unfold selected_rows.
  assert (forall acc : list nat, NoDup acc ->
            NoDup (foldl (fun rows row =>
                            if bool_decide (row ∈ rows) then rows else rows ++ [row])
                         acc items) /\
            forall x, x ∈ foldl (fun rows row =>
                                   if bool_decide (row ∈ rows) then rows else rows ++ [row])
                                acc items <-> x ∈ acc \/ x ∈ items) as Hgen.
  { induction items as [|row items IH]; intros acc Hacc; simpl.
    - split; [done|]. intros x. rewrite elem_of_nil. tauto.
    - case_bool_decide as Hin.
      + destruct (IH acc Hacc) as [Hnd Hel]. split; [done|].
        intros x. rewrite Hel, elem_of_cons. split; [tauto|].
        intros [?|[->|?]]; tauto.
      + destruct (IH (acc ++ [row])) as [Hnd Hel].
        { apply NoDup_app. split_and!; [done| |apply NoDup_singleton].
          intros x Hx ->%list_elem_of_singleton. done. }
        split; [done|]. intros x.
        rewrite Hel, elem_of_app, list_elem_of_singleton, elem_of_cons. tauto. }
  destruct (Hgen [] (NoDup_nil_2)) as [Hnd Hel]. split; [done|].
  intros x. rewrite Hel, elem_of_nil. tauto.
Qed.

Lemma rows_left_ext {A} rows rows' (table : list A) :
  (forall x, x ∈ rows <-> x ∈ rows') ->
  forall k, rows_left k rows table = rows_left k rows' table.
Proof.
  intros Hsame. induction table as [|x table IH]; intros k; simpl; [done|].
  rewrite (IH (S k)).
  destruct (bool_decide_reflect (k ∈ rows)) as [Hin|Hin],
           (bool_decide_reflect (k ∈ rows')) as [Hin'|Hin']; try done;
    by apply Hsame in Hin || (apply Hsame in Hin'; done).
Qed.

Lemma rows_left_all {A} rows (table : list A) : forall k,
  (forall i, (k <= i)%nat -> i ∉ rows) -> rows_left k rows table = table.
Proof.
  induction table as [|x table IH]; intros k Hout; simpl; [done|].
  rewrite bool_decide_eq_false_2 by (apply Hout; lia).
  rewrite IH; [done|]. intros i Hi. apply Hout. lia.
Qed.

Lemma rows_left_delete {A} r rs (table : list A) :
  Forall (fun x => x < r)%nat rs ->
  forall k, (k <= r)%nat ->
  rows_left k rs (delete (r - k)%nat table) = rows_left k (r :: rs) table.
Proof.
  intros Hrs. rewrite Forall_forall in Hrs.
  induction table as [|x table IH]; intros k Hk; simpl; [done|].
  destruct (r - k)%nat as [|m] eqn:Hm; simpl.
  - assert (k = r) as -> by lia.
    rewrite bool_decide_eq_true_2 by apply list_elem_of_here.
    rewrite !rows_left_all; [done|..].
    + intros i Hi [->|Hin]%elem_of_cons; [lia|]. apply Hrs in Hin. lia.
    + intros i Hi Hin. apply Hrs in Hin. lia.
  - rewrite <- (IH (S k)) by lia. replace (r - S k)%nat with m by lia.
    destruct (bool_decide_reflect (k ∈ rs)) as [Hin|Hin].
    + rewrite bool_decide_eq_true_2; [done|]. by apply list_elem_of_further.
    + rewrite bool_decide_eq_false_2; [done|].
      intros [->|?]%elem_of_cons; [lia|done].
Qed.

Lemma remove_descending {A} rows : forall (table : list A),
  StronglySorted (flip Nat.le) rows -> NoDup rows ->
  foldl (fun table row => delete row table) table rows = rows_left 0 rows table.
Proof.
  induction rows as [|r rs IH]; intros table Hsorted Hnd; simpl.
  - symmetry. apply rows_left_all. intros i _. apply not_elem_of_nil.
  - apply StronglySorted_inv in Hsorted as [Hrs Hle].
    apply NoDup_cons in Hnd as [Hr Hnd].
    rewrite IH by done.
    rewrite <- (rows_left_delete r rs table); [by rewrite Nat.sub_0_r| |lia].
    rewrite Forall_forall in Hle. apply Forall_forall. intros x Hx.
    specialize (Hle x Hx). unfold flip in Hle.
    assert (x <> r) by (by intros ->). lia.
Qed.

(** X20. Removing the selected files leaves the rows that hold no selected
    item, in their order, whatever the order in which the items are met and
    however many items a row has; the count label shows the number of the
    rows left. *)
Theorem selected_rows_are_removed {A} (table : list A) (items : list nat) :
  remove_selected_files table items
  = (rows_left 0 items table,
     "File da convertire: " +:+ pretty (length (rows_left 0 items table))).
Proof.
  unfold remove_selected_files, sorted_reverse.
  destruct (selected_rows_spec items) as [Hnd Hel].
  assert (merge_sort (flip Nat.le) (selected_rows items) ≡ₚ selected_rows items) as Hperm
    by apply merge_sort_Permutation.
  rewrite remove_descending.
  - rewrite (rows_left_ext _ items); [done|].
    intros x. rewrite Hperm. apply Hel.
  - apply StronglySorted_merge_sort.
    + intros a b c. unfold flip. lia.
    + intros a b. unfold flip. lia.
  - by rewrite Hperm.
Qed.

End UiFacts.

(** ** Layer loader: interrupted runs, archives, counts *)

Module LoaderMore.
Import LayerLoader LoaderMoreDefs StringFacts.

Section Counts.
Context `{ProjectHost}.

#[local] Instance same_counts_refl : Reflexive same_counts.
Proof. by intros s. Qed.

#[local] Instance same_counts_trans : Transitive same_counts.
Proof. unfold same_counts. intros s1 s2 s3 [? ?] [? ?]. split; congruence. Qed.

Ltac untouched :=
  cbv [mbind M_bind mret M_ret print message_box_show toggle_controls];
  repeat first
    [ apply steps_ret; apply _
    | apply steps_lift; apply _
    | apply steps_raise; apply _
    | apply steps_get; apply _
    | apply steps_modify; by intros ?
    | apply steps_bind; [apply _| |intros ?]
    | apply steps_try; [apply _| |intros ?]
    | apply steps_for; [apply _|apply _|intros ? ?]
    | match goal with
      | |- steps _ (if ?b then _ else _) => destruct b
      | |- steps _ (match ?x with _ => _ end) => destruct x
      | |- steps _ (let '(_, _) := ?x in _) => destruct x
      | H : _ |- _ => apply H
      end ].

Lemma remove_empty_groups_counts : steps same_counts remove_empty_groups.
Proof. unfold remove_empty_groups. untouched. Qed.

Lemma check_date_filter_counts d f : steps same_counts (check_date_filter d f).
Proof. unfold check_date_filter. untouched. Qed.

Lemma found_files_counts d fs : steps same_counts (found_files d fs).
Proof.
  induction fs as [|f fs IH]; simpl; [untouched|].
  pose proof (check_date_filter_counts d f). untouched.
Qed.

Lemma load_found_counts d g f : steps same_counts (load_found d g f).
Proof. unfold load_found. untouched. Qed.

Lemma add_tracked_group_counts parent name :
  steps same_counts (add_tracked_group parent name).
Proof.
  intros s. unfold add_tracked_group.
  cbv [mbind M_bind m_bind m_get m_modify mret M_ret m_ret].
  by destruct (add_group (project s) parent name) as [p g].
Qed.

Lemma process_compressed_file_counts d f parent :
  steps same_counts (process_compressed_file d f parent).
Proof.
  unfold process_compressed_file.
  pose proof (add_tracked_group_counts parent (file_name (info f))).
  pose proof (found_files_counts d).
  pose proof (load_found_counts d).
  untouched.
Qed.

Lemma load_layer_counts d f g : steps same_counts (load_layer d f g).
Proof. unfold load_layer. pose proof remove_empty_groups_counts. untouched. Qed.

Lemma create_layer_group_counts d folder : steps same_counts (create_layer_group d folder).
Proof.
  unfold create_layer_group. pose proof (add_tracked_group_counts None folder). untouched.
Qed.

Lemma nested_group_counts parts g : steps same_counts (nested_group g parts).
Proof.
  revert g. induction parts as [|part rest IH]; intros g; simpl; [untouched|].
  destruct g as [g|]; [|apply IH].
  pose proof (add_tracked_group_counts (Some g) part). untouched.
Qed.

Lemma process_file_counts d g counts f : steps same_counts (process_file d g counts f).
Proof.
  unfold process_file. destruct counts as [loaded total].
  pose proof (process_compressed_file_counts d f g).
  pose proof (check_date_filter_counts d (info f)).
  pose proof (load_layer_counts d (info f) g).
  untouched.
Qed.

Lemma process_files_counts d src : steps same_counts (process_files d src).
Proof.
  unfold process_files.
  pose proof (create_layer_group_counts d (folder_name src)).
  pose proof nested_group_counts.
  pose proof (process_file_counts d).
  untouched.
Qed.

Lemma load_layer_returns d f g s : exists b, fst (load_layer d f g s) = Ret b.
Proof.
  unfold load_layer, m_try.
  match goal with |- context [match ?m s with _ => _ end] => destruct (m s) as [[b|e] s1] end;
    by eexists.
Qed.

Lemma raised_before_count {A} (m : M state A) (f : A -> state -> state) s e s1 :
  steps same_counts m ->
  m_bind m (fun a => m_modify (f a)) s = (Raise e, s1) -> same_counts s s1.
Proof.
  intros Hm. unfold m_bind. specialize (Hm s).
  destruct (m s) as [[a|e'] s2]; simpl in *; [done|]. by intros [= _ <-].
Qed.

(** An exception leaves the body of [load_layers] before the counters are
    assigned, unless it comes from the closing removal of the empty groups. *)
Lemma load_layers_try_raised d src s e s1 :
  (forall p, exists p', prune p = Ret p') ->
  load_layers_try d src s = (Raise e, s1) -> same_counts s s1.
Proof.
  intros Hprune. unfold load_layers_try. cbv [mbind M_bind]. unfold m_bind at 1.
  match goal with |- context [match ?m s with _ => _ end] =>
    destruct (m s) as [[[]|e'] s2] eqn:Hfirst end.
  - destruct (llcheckgroup d); [|done].
    unfold remove_empty_groups. cbv [mbind M_bind m_bind m_get m_lift m_modify].
    by destruct (Hprune (project s2)) as [p' ->].
  - intros [= <- <-]. revert Hfirst.
    destruct (isfile src); [destruct (is_archive (llsource d))|destruct (isdir src)].
    + apply raised_before_count, process_compressed_file_counts.
    + unfold m_bind at 1.
      match goal with |- context [match ?m s with _ => _ end] =>
        assert (steps same_counts m) as Hpass
          by (pose proof (check_date_filter_counts d (info (source_file src))); untouched);
        specialize (Hpass s); destruct (m s) as [[pass|e0] s3] end; simpl in Hpass;
        [|by intros [= _ <-]].
      destruct pass; [|done].
      cbv [mbind M_bind m_bind m_modify mret M_ret m_ret].
      destruct (load_layer_returns d (info (source_file src)) None s3) as [b Hb].
      destruct (load_layer d (info (source_file src)) None s3) as [r s4].
      simpl in Hb. subst r. by destruct b.
    + apply raised_before_count, process_files_counts.
    + done.
Qed.

(** X21. When an exception stops the loading, the run shows the error and
    then reports that no layer was loaded of 0 files found, whatever was
    loaded before the exception; the layers loaded so far stay in the
    project and the controls are enabled again. *)
Theorem interrupted_load_reports_nothing (d : dialog) (src : source) (s s1 : state)
    (e : string) :
  str_bool (llsource d) = true ->
  llshp d || llgml d || llgpkg d || lltif d || llxslx d || lldbf d = true ->
  (forall p, exists p', prune p = Ret p') ->
  load_layers_try d src (set_counts 0 0 (set_controls false s)) = (Raise e, s1) ->
  exists s',
    load_layers d src s = (Ret tt, s') /\
    project s' = project s1 /\ controls s' = true /\
    dialogs s' = dialogs s1 ++
      [{| box_icon := Warning; box_title := "Errore";
          box_text := "Si è verificato un errore durante il caricamento: " +:+ e |};
       nothing_loaded 0].
Proof.
  intros Hsrc Htypes Hprune Hraise.
  destruct (load_layers_try_raised _ _ _ _ _ Hprune Hraise) as [Hl Ht]. simpl in Hl, Ht.
  unfold load_layers. rewrite Hsrc, Htypes. cbn [negb].
  cbv [mbind M_bind m_bind toggle_controls m_modify].
  unfold load_layers_guarded, m_finally, m_try. rewrite Hraise.
  unfold load_layers_except, load_layers_finally.
  cbv [mbind M_bind m_bind toggle_controls m_modify message_box_show m_get]. simpl.
  rewrite Hl, Ht. simpl. eexists. split; [done|]. simpl.
  by rewrite <- app_assoc.
Qed.

(** Reads the characters of a reversed name off the suffix it ends with. *)
Ltac read_suffix Hend r :=
  repeat match type of Hend with
  | String.prefix (String.rev ?suffix) _ = true =>
      let lit := eval vm_compute in (String.rev suffix) in
      change (String.rev suffix) with lit in Hend
  | String.prefix (String _ _) r = true => destruct r as [|? r]; [done|]
  | String.prefix (String _ _) (String _ _) = true =>
      rewrite prefix_cons in Hend;
      match type of Hend with
      | (if ascii_dec ?a ?c then _ else _) = true =>
          destruct (ascii_dec a c) as [<-|]; [|done]
      end
  end.

(** X22. A file whose name ends in .tgz is not taken for an archive: found in
    a folder, it is counted and nothing else happens, whatever the options;
    the part of process_compressed_file that opens such archives is never
    reached for it. *)
Theorem tgz_never_opened (d : dialog) (g : option nat) (counts : nat * nat) (f : file)
    (s : state) :
  endswith (lower (file_name (info f))) ".tgz" = true ->
  ext (info f) = ".tgz" ->
  is_archive (file_name (info f)) = false /\
  process_file d g counts f s = (Ret (fst counts, S (snd counts)), s).
Proof.
  intros Hend Hext.
  assert (is_archive (file_name (info f)) = false) as Harch.
  { unfold is_archive, endswith in *. cbn [existsb].
    revert Hend. generalize (String.rev (lower (file_name (info f)))). intros r Hend.
    read_suffix Hend r. by vm_compute. }
  split; [done|]. unfold process_file. destruct counts as [loaded total].
  by rewrite Harch, Hext.
Qed.

(** X23. An archive of a type other than zip and tar (.rar, .7z, a .gz that
    is not a .tar.gz) is skipped in silence: nothing is extracted or
    loaded, no group is made and no dialog is shown; the function prints
    the temporary directory it made and returns 0. *)
Theorem unsupported_archive_is_skipped (d : dialog) (f : file) (parent : option nat)
    (s : state) (temp : string) :
  let path := lower (file_path (info f)) in
  temp_dir f = Ret temp ->
  endswith path ".rar" = true \/ endswith path ".7z" = true \/
  endswith path ".gz" = true /\ endswith path ".tar.gz" = false ->
  exists s',
    process_compressed_file d f parent s = (Ret 0%nat, s') /\
    project s' = project s /\ created_groups s' = created_groups s /\
    dialogs s' = dialogs s /\
    printed s' = printed s ++
      ["Estrazione di " +:+ file_path (info f) +:+ " in " +:+ temp].
Proof.
  intros path Htemp Hkind. unfold process_compressed_file. fold path. rewrite Htemp.
  assert (endswith path ".zip" || existsb (endswith path) [".tar"; ".tar.gz"; ".tgz"]
          = false) as ->.
  { cbn [existsb]. unfold endswith in *.
    revert Hkind. generalize (String.rev path). intros r Hkind.
    destruct Hkind as [Hend|[Hend|[Hend Hno]]].
    - read_suffix Hend r. by vm_compute.
    - read_suffix Hend r. by vm_compute.
    - rewrite Hno. read_suffix Hend r.
      change (String.rev ".zip") with "piz."; change (String.rev ".tar") with "rat.";
        change (String.rev ".tgz") with "zgt.".
      rewrite !prefix_cons. by repeat (destruct (ascii_dec _ _); try done). }
  cbv [mbind M_bind m_bind m_modify m_lift print m_try mret M_ret m_ret m_get]. simpl.
  eexists. by split.
Qed.

Lemma process_compressed_file_returns d f parent s temp :
  temp_dir f = Ret temp ->
  exists n s', process_compressed_file d f parent s = (Ret n, s').
Proof.
  intros Htemp. unfold process_compressed_file. rewrite Htemp.
  cbv [mbind M_bind m_bind m_modify m_lift print m_get mret M_ret m_ret message_box_show].
  unfold m_try.
  match goal with |- context [match ?m ?s0 with _ => _ end] =>
    destruct (m s0) as [[[]|e] s1] end; by eexists _, _.
Qed.

Lemma create_layer_group_returns d folder s :
  exists g s', create_layer_group d folder s = (Ret g, s').
Proof.
  unfold create_layer_group, add_tracked_group.
  cbv [mbind M_bind m_bind m_modify m_get mret M_ret m_ret].
  destruct (llcheckgroup d); simpl; [|by eexists _, _].
  destruct (find_group (project s) None folder); [by eexists _, _|].
  destruct (add_group (project s) None folder). by eexists _, _.
Qed.

Lemma nested_group_returns parts : forall g s,
  exists g' s', nested_group g parts s = (Ret g', s').
Proof.
  induction parts as [|part rest IH]; intros g s; simpl; [by eexists _, _|].
  destruct g as [g|]; [|apply IH].
  unfold add_tracked_group.
  cbv [mbind M_bind m_bind m_modify m_get mret M_ret m_ret].
  destruct (find_group (project s) (Some g) part); [apply IH|].
  destruct (add_group (project s) (Some g) part). apply IH.
Qed.

Lemma process_file_returns d g loaded total f s :
  answered d f ->
  exists loaded' s', process_file d g (loaded, total) f s = (Ret (loaded', S total), s').
Proof.
  intros [Hdate Htemp]. unfold process_file.
  destruct (is_archive (file_name (info f))).
  - destruct (llchecknest d); [|by eexists _, _].
    destruct (Htemp eq_refl) as [temp Ht].
    destruct (process_compressed_file_returns d f g s temp Ht) as (n & s' & Hrun).
    cbv [mbind M_bind m_bind mret M_ret m_ret]. rewrite Hrun. by eexists _, _.
  - destruct (negb (check_extension d (ext (info f)))); [by eexists _, _|].
    destruct (negb (check_name_filter d (file_name (info f)))); [by eexists _, _|].
    unfold check_date_filter. cbv [mbind M_bind m_bind mret M_ret m_ret m_lift].
    assert (forall s0, exists loaded' s',
              (let (o, s'0) := load_layer d (info f) g s0 in
               match o with
               | Ret a => (Ret (if a then S loaded else loaded, S total), s'0)
               | Raise e => (Raise e, s'0)
               end) = (Ret (loaded', S total), s')) as Hload.
    { intros s0. destruct (load_layer_returns d (info f) g s0) as [b Hb].
      destruct (load_layer d (info f) g s0) as [r s1]. simpl in Hb. subst r.
      by eexists _, _. }
    destruct (llcheckdate d); simpl; [|apply Hload].
    destruct (Hdate eq_refl) as [b ->]. destruct b; [apply Hload|by eexists _, _].
Qed.

Lemma files_loop_returns d g fs : forall loaded total s,
  Forall (answered d) fs ->
  exists loaded' s',
    m_for fs (loaded, total) (process_file d g) s
    = (Ret (loaded', (total + length fs)%nat), s').
Proof.
  induction fs as [|f fs IH]; intros loaded total s Hfs; cbn [m_for length].
  - rewrite Nat.add_0_r. by eexists _, _.
  - apply Forall_cons in Hfs as [Hf Hfs]. unfold m_bind at 1.
    destruct (process_file_returns d g loaded total f s Hf) as (l1 & s1 & ->).
    destruct (IH l1 (S total) s1 Hfs) as (l2 & s2 & ->).
    replace (total + S (length fs))%nat with (S total + length fs)%nat by lia.
    by eexists _, _.
Qed.

(** X24. The number of files that a folder run reports counts every file of
    the folders walked, the files that the filters reject and the archives
    among them - all folders with the nested option, the folder itself
    without it - as long as the host answers for the dates and the
    temporary directories the run asks for; such a run never raises. *)
Theorem folder_count_is_all_files (d : dialog) (src : source) (s : state) :
  let entries := if llchecknest d then walk src else take 1 (walk src) in
  let met := concat (files <$> entries) in
  Forall (answered d) met ->
  exists loaded s', process_files d src s = (Ret (loaded, length met), s').
Proof.
  intros entries met Hmet. unfold process_files. fold entries.
  cbv [mbind M_bind]. unfold m_bind at 1.
  assert (exists g s0,
            (if llcheckgroup d then create_layer_group d (folder_name src) else mret None) s
            = (Ret g, s0)) as (g & s0 & ->).
  { destruct (llcheckgroup d); [apply create_layer_group_returns|by eexists _, _]. }
  assert (forall loaded total s1,
            exists loaded' s',
              m_for entries (loaded, total)
                (fun counts entry =>
                   m_bind
                     (if llcheckgroup d && negb (length (rel_parts entry) =? 0)%nat
                      then nested_group g (rel_parts entry) else mret g)
                     (fun current_group =>
                        m_for (files entry) counts (process_file d current_group))) s1
              = (Ret (loaded', (total + length met)%nat), s')) as Hloop.
  { subst met. clearbody entries. clear s s0.
    induction entries as [|entry entries IH]; intros loaded total s1; cbn [m_for].
    - simpl. rewrite Nat.add_0_r. by eexists _, _.
    - rewrite fmap_cons in Hmet. cbn [concat] in Hmet.
      apply Forall_app in Hmet as [Hentry Hrest].
      unfold m_bind at 1 2.
      assert (exists cg s2,
                (if llcheckgroup d && negb (length (rel_parts entry) =? 0)%nat
                 then nested_group g (rel_parts entry) else mret g) s1 = (Ret cg, s2))
        as (cg & s2 & ->).
      { destruct (_ && _); [apply nested_group_returns|by eexists _, _]. }
      destruct (files_loop_returns d cg (files entry) loaded total s2 Hentry)
        as (l1 & s3 & ->).
      destruct (IH Hrest l1 (total + length (files entry))%nat s3) as (l2 & s4 & ->).
      rewrite fmap_cons. cbn [concat]. rewrite length_app, Nat.add_assoc.
      by eexists _, _. }
  destruct (Hloop 0%nat 0%nat s0) as (loaded & s' & Hrun). by exists loaded, s'.
Qed.

End Counts.

Import Listing.

Lemma interrupted_load_reports_nothing_witness :
  exists s',
    load_layers dated_dialog folder (@init listing_project []) = (Ret tt, s') /\
    project s' = ["/data/roads.shp"] :> list string /\
    last (dialogs s') = Some (nothing_loaded 0).
Proof.
  destruct (@interrupted_load_reports_nothing listing_project dated_dialog folder
              (@init listing_project [])
              (snd (load_layers_try dated_dialog folder
                      (set_counts 0 0 (set_controls false (@init listing_project [])))))
              "No such file or directory" eq_refl eq_refl
              ltac:(by intros p; exists p) eq_refl)
    as (s' & Hrun & Hp & _ & Hd).
  exists s'. split; [done|]. split; [by rewrite Hp|]. by rewrite Hd.
Defined.

Lemma tgz_never_opened_witness :
  @process_file listing_project dated_dialog None (0, 0)%nat
    (shapefile_named "survey.tgz" ".tgz") (@init listing_project [])
  = (Ret (0, 1)%nat, @init listing_project []).
Proof.
  by destruct (@tgz_never_opened listing_project dated_dialog None (0, 0)%nat
                 (shapefile_named "survey.tgz" ".tgz") (@init listing_project [])
                 eq_refl eq_refl) as [_ Hrun].
Defined.

Lemma unsupported_archive_is_skipped_witness :
  exists s',
    @process_compressed_file listing_project dated_dialog
      (shapefile_named "survey.rar" ".rar") None (@init listing_project [])
    = (Ret 0%nat, s') /\
    dialogs s' = [].
Proof.
  destruct (@unsupported_archive_is_skipped listing_project dated_dialog
              (shapefile_named "survey.rar" ".rar") None (@init listing_project [])
              "/tmp/tmpab12" eq_refl ltac:(by left)) as (s' & Hrun & _ & _ & Hd & _).
  by exists s'.
Defined.

Lemma folder_count_is_all_files_witness :
  exists loaded s',
    process_files undated_dialog folder (@init listing_project [])
    = (Ret (loaded, 2%nat), s').
Proof.
  apply (@folder_count_is_all_files listing_project undated_dialog folder).
  repeat constructor; done.
Defined.

End LoaderMore.

(** ** Layer loader: the removal of the empty groups *)

Module TreeFacts.
Import LayerTree.

Lemma clean_children_spec children :
  Forall cleaned children ->
  let '(removed, children') := clean_children clean_empty_groups children in
  concat (map layers children') = concat (map layers children) /\
  forallb below children' = true /\
  (removed = false <-> forallb below children = true) /\
  (forallb below children = true -> children' = children).
Proof.
  induction 1 as [|c cs Hc Hcs IH]; [done|].
  cbn [clean_children]. fold (clean_children clean_empty_groups cs).
  destruct (clean_children clean_empty_groups cs) as [removed_rest rest'].
  destruct IH as (Hl & Ht & Hr & Hsame).
  destruct c as [name|name children].
  - cbn [orb app map concat forallb]. unfold below at 1 3 5. cbn [is_empty_group negb tidy andb].
    split_and!; [by rewrite Hl|done|done|]. intros Hb. by rewrite Hsame.
  - unfold cleaned in Hc.
    destruct (clean_empty_groups (Group name children)) as [removed child'] eqn:Hclean.
    destruct Hc as (Hcl & Hct & Hcr & Hcsame & Hcg).
    destruct (is_empty_group child') eqn:Hempty.
    + cbn [orb app map concat forallb].
      assert (below (Group name children) = false) as Hnot.
      { unfold below. destruct (tidy (Group name children)) eqn:Htidy;
          [|apply andb_false_r].
        rewrite <- (Hcsame eq_refl), Hempty. done. }
      rewrite Hnot. cbn [andb]. split_and!; [|done|done|done].
      rewrite Hl, <- Hcl. destruct child' as [|? [|]]; try done.
    + cbn [app map concat forallb]. rewrite Hl, Hcl. unfold below at 1.
      rewrite Hempty, Hct, Ht. cbn [negb andb]. split_and!; [done|done| |].
      * split.
        -- intros [Hfirst Hrest]%orb_false_iff.
           apply Hcr in Hfirst as Htidy. apply Hr in Hrest as ->.
           unfold below. rewrite Htidy, <- (Hcsame Htidy), Hempty. done.
        -- intros [[_ Htidy]%andb_prop Hrest]%andb_prop.
           apply orb_false_iff. split; [by apply Hcr|by apply Hr].
      * intros [[_ Htidy]%andb_prop Hrest]%andb_prop.
        by rewrite (Hcsame Htidy), (Hsame Hrest).
Qed.

Lemma clean_empty_groups_spec n : cleaned n.
Proof.
  induction n as [name|name children IH] using node_induction; [done|].
  unfold cleaned. cbn [clean_empty_groups].
  pose proof (clean_children_spec children IH) as Hspec.
  destruct (clean_children clean_empty_groups children) as [removed children'].
  destruct Hspec as (Hl & Ht & Hr & Hsame).
  cbn [layers tidy is_group]. fold below. split_and!; try done.
  intros Htidy. by rewrite (Hsame Htidy).
Qed.

(** X25. One pass removes every empty group, also the groups that are empty
    only once the groups below them are gone: no group of the tree it
    leaves is empty, its layers are those of the tree before, in the same
    order, and a tree without empty groups is left as it is. *)
Theorem one_pass_removes_empty_groups (root : node) :
  let root' := snd (clean_empty_groups root) in
  tidy root' = true /\
  layers root' = layers root /\
  (fst (clean_empty_groups root) = false <-> tidy root = true) /\
  (tidy root = true -> root' = root).
Proof.
  pose proof (clean_empty_groups_spec root) as Hspec. unfold cleaned in Hspec.
  destruct (clean_empty_groups root) as [removed root'].
  destruct Hspec as (Hl & Ht & Hr & Hsame & _). by split_and!.
Qed.

(** X26. The loop of remove_empty_groups ends after at most two passes: the
    second pass finds nothing to remove, and the tree is the one the
    first pass left. *)
Theorem removal_ends_in_two_passes (root : node) (fuel : nat) :
  remove_empty_groups (S (S fuel)) root = Some (snd (clean_empty_groups root)) /\
  clean_empty_groups (snd (clean_empty_groups root))
  = (false, snd (clean_empty_groups root)).
Proof.
  pose proof (clean_empty_groups_spec root) as Hspec. unfold cleaned in Hspec.
  cbn [remove_empty_groups].
  destruct (clean_empty_groups root) as [removed root'].
  destruct Hspec as (Hl & Ht & Hr & Hsame & _). cbn [snd].
  pose proof (clean_empty_groups_spec root') as Hspec'. unfold cleaned in Hspec'.
  destruct (clean_empty_groups root') as [removed' root''].
  destruct Hspec' as (_ & _ & Hr' & Hsame' & _).
  apply Hr' in Ht as ->. rewrite (Hsame' ltac:(by apply Hr')).
  split; [|done]. by destruct removed.
Qed.

End TreeFacts.
